(** * Heart overlay core: beat signal, beat animation, chest anchor, transforms

    A shallow embedding of the algorithmic core of the heart-overlay
    application:

    - [src/utils/config.py]                  -> module [Config]
    - [src/heartrate/hr_parser.py]           -> module [HeartRateParser]
    - [src/heartrate/animation_controller.py]-> module [AnimationController]
    - [src/utils/math_utils.py]              -> module [MathUtils]
    - [src/pose/chest_tracker.py]            -> module [ChestTracker]

    Conventions of the embedding.

    - Python [float] (and numpy [float32]) values are modelled by the real
      numbers [R]: every arithmetic operation is the exact one, so rounding,
      infinities and NaN are outside the model.
    - Python [int] values are modelled by [Z].  The one place where ints go
      through a float and come back as an int, [int(a / b)], is modelled as
      Python computes it: the quotient is rounded to the nearest binary64
      value, then truncated.
    - [Optional[T]] is [option T]; [None] is [None].
    - Methods that mutate [self] take the object as their last argument and
      return the new object (paired with the returned value when there is one).
    - [time.time()] is an input: every method that reads the clock takes the
      reading as an argument. *)

From Stdlib Require Import Reals Lra Lia ZArith List Bool Psatz RNsatz.
From Stdlib Require Strings.Byte.
Import ListNotations.

Open Scope R_scope.

(** ** Python primitives used by the sources *)

Module Py.

(** [a < b] on floats, as a boolean. *)
Definition ltb (a b : R) : bool := if Rlt_dec a b then true else false.

(** [a <= b] on floats, as a boolean. *)
Definition leb (a b : R) : bool := if Rle_dec a b then true else false.

(** [a > b] on floats, as a boolean. *)
Definition gtb (a b : R) : bool := ltb b a.

(** [a == b] on floats, as a boolean. *)
Definition eqb (a b : R) : bool := if Req_dec_T a b then true else false.

(** [x % y] on floats: the remainder has the sign of the divisor,
    [x - floor(x / y) * y]. *)
Definition fmod (x y : R) : R := x - IZR (Zfloor (x / y)) * y.

(** [sum(xs)] on a sequence of ints: left to right, starting from [0]. *)
Definition sum (xs : list Z) : Z := fold_left Z.add xs 0%Z.

(** The exceptions the arithmetic below raises. *)
Inductive exn := OverflowError | ZeroDivisionError.

(** What a call yields: the value it returns or the exception it raises. *)
Inductive result (A : Type) :=
| Return (v : A)
| Raise (e : exn).

Arguments Return {A} v.
Arguments Raise {A} e.

(** The integer nearest to [n / d], ties to the even one, for [n >= 0] and
    [d > 0]. *)
Definition round_half_even (n d : Z) : Z :=
  let q := (n / d)%Z in
  let r := (n mod d)%Z in
  if (2 * r <? d)%Z then q
  else if (d <? 2 * r)%Z then (q + 1)%Z
  else if Z.even q then q else (q + 1)%Z.

(** [int(a / b)] for two ints.  [a / b] is the binary64 float nearest to
    the exact quotient, ties to even: a significand [m] of at most 53 bits
    times a power of two, the power being at least [2^-1074].  Below,
    [units] is the magnitude of the quotient counted in multiples of
    [2^-1074], rounded down, and [s] the number of its low bits that do not
    fit the significand, so that the float is [m * 2^(s - 1074)].  A float
    of [2^1024] or more does not exist: the division raises
    [OverflowError]; a zero divisor raises [ZeroDivisionError].  [int()]
    then truncates the float towards zero. *)
Definition int_truediv (a b : Z) : result Z :=
  if (b =? 0)%Z then Raise ZeroDivisionError
  else
    let n := Z.abs a in
    let d := Z.abs b in
    let units := (n * 2 ^ 1074 / d)%Z in
    let s := Z.max 0 (Z.log2 units - 52) in
    let m := round_half_even (n * 2 ^ 1074) (d * 2 ^ s) in
    if (2 ^ 2098 <=? m * 2 ^ s)%Z then Raise OverflowError
    else Return (Z.sgn a * Z.sgn b * (m * 2 ^ s / 2 ^ 1074))%Z.

(** [collections.deque.append] on a deque created with [maxlen]: the item
    is appended on the right and, when the deque then exceeds [maxlen],
    one item is popped from the left. *)
Definition deque_append {A} (maxlen : nat) (d : list A) (x : A) : list A :=
  let d' := d ++ [x] in
  if (maxlen <? length d')%nat then tl d' else d'.

(** [min(a, b)] and [max(a, b)] on floats: the first argument unless the
    second is strictly smaller (resp. larger). *)
Definition fmin (a b : R) : R := if ltb b a then b else a.
Definition fmax (a b : R) : R := if gtb b a then b else a.

(** [int(x)] on a float: truncation towards zero. *)
Definition int_of_float (x : R) : Z := if ltb x 0 then Zceil x else Zfloor x.

(** The value of one item of a [bytearray]: an int in 0..255. *)
Definition byte_value (b : Byte.byte) : Z := Z.of_N (Byte.to_N b).

(** [int.from_bytes(bs, byteorder='little')] *)
Definition int_from_bytes_little (bs : list Byte.byte) : Z :=
  fold_right (fun b acc => byte_value b + 256 * acc)%Z 0%Z bs.

(** The slice [xs[i:j]]. *)
Definition slice {A} (i j : nat) (xs : list A) : list A :=
  firstn (j - i) (skipn i xs).

End Py.

(** ** [src/utils/config.py] *)

Module Config.

Definition HEART_SCALE : R := 0.15.
Definition HEART_OFFSET_Z : R := 0.05.
Definition HEART_BEAT_SCALE_AMPLITUDE : R := 0.3.
Definition ANIMATION_SMOOTHING : R := 0.1.

End Config.

(** ** [src/heartrate/hr_parser.py] *)

Module HeartRateParser.

Record t := mk {
  smoothing_window : nat;
  recent_values : list Z;          (* deque(maxlen=smoothing_window) *)
  current_bpm : option Z;
  last_update_time : option R
}.

(** [HeartRateParser.__init__]; the default of [smoothing_window] is 5. *)
Definition init (smoothing_window : nat) : t :=
  mk smoothing_window [] None None.

Definition default_window : nat := 5.

(** [HeartRateParser.update]; [now] is the reading of [time.time()].  The
    sample is appended and the clock stored before the mean is computed, so
    both stay when the division raises; [current_bpm] is then left as it
    was. *)
Definition update (now : R) (heart_rate : Z) (self : t) : Py.result Z * t :=
  let recent := Py.deque_append (smoothing_window self) (recent_values self) heart_rate in
  if (0 <? length recent)%nat then
    match Py.int_truediv (Py.sum recent) (Z.of_nat (length recent)) with
    | Py.Return bpm =>
        (Py.Return bpm, mk (smoothing_window self) recent (Some bpm) (Some now))
    | Py.Raise e =>
        (Py.Raise e,
         mk (smoothing_window self) recent (current_bpm self) (Some now))
    end
  else
    (Py.Return heart_rate,
     mk (smoothing_window self) recent (Some heart_rate) (Some now)).

(** [HeartRateParser.get_bpm] *)
Definition get_bpm (self : t) : option Z := current_bpm self.

(** [HeartRateParser.get_beat_interval] *)
Definition get_beat_interval (self : t) : option R :=
  match current_bpm self with
  | None => None
  | Some bpm => if (bpm <=? 0)%Z then None else Some (60.0 / IZR bpm)
  end.

(** [HeartRateParser.is_stale]; [now] is the reading of [time.time()],
    the default of [timeout] is 5.0. *)
Definition is_stale (now : R) (timeout : R) (self : t) : bool :=
  match last_update_time self with
  | None => true
  | Some last => Py.gtb (now - last) timeout
  end.

(** [HeartRateParser.reset] *)
Definition reset (self : t) : t :=
  mk (smoothing_window self) [] None None.

(** A run of [update] calls, each with its clock reading, oldest first;
    the object is followed through every call, also one that raised. *)
Definition run_updates (calls : list (R * Z)) (self : t) : t :=
  fold_left (fun p c => snd (update (fst c) (snd c) p)) calls self.

End HeartRateParser.

(** ** [src/heartrate/animation_controller.py] *)

Module AnimationController.

Record t := mk {
  start_time : R;
  current_bpm : option R;     (* set from an int, then smoothed: a float *)
  target_bpm : option Z;
  beat_scale : R;
  animation_smoothing : R;
  last_heartbeat_time : option R;
  heartbeat_pulse_start : option R;
  pulse_duration : R
}.

(** [AnimationController.__init__]; [now] is the reading of [time.time()]. *)
Definition init (now : R) : t :=
  mk now None None 1.0 Config.ANIMATION_SMOOTHING None None 0.3.

Definition set_current_bpm (v : option R) (self : t) : t :=
  mk (start_time self) v (target_bpm self) (beat_scale self)
     (animation_smoothing self) (last_heartbeat_time self)
     (heartbeat_pulse_start self) (pulse_duration self).

Definition set_beat_scale (v : R) (self : t) : t :=
  mk (start_time self) (current_bpm self) (target_bpm self) v
     (animation_smoothing self) (last_heartbeat_time self)
     (heartbeat_pulse_start self) (pulse_duration self).

Definition set_heartbeat_pulse_start (v : option R) (self : t) : t :=
  mk (start_time self) (current_bpm self) (target_bpm self) (beat_scale self)
     (animation_smoothing self) (last_heartbeat_time self)
     v (pulse_duration self).

(** [AnimationController.update_bpm] *)
Definition update_bpm (bpm : option Z) (self : t) : t :=
  mk (start_time self) (current_bpm self) bpm (beat_scale self)
     (animation_smoothing self) (last_heartbeat_time self)
     (heartbeat_pulse_start self) (pulse_duration self).

(** [AnimationController.trigger_heartbeat]; the method reads the clock
    twice, [now1] for [last_heartbeat_time] and [now2] for
    [heartbeat_pulse_start]. *)
Definition trigger_heartbeat (now1 now2 : R) (self : t) : t :=
  mk (start_time self) (current_bpm self) (target_bpm self) (beat_scale self)
     (animation_smoothing self) (Some now1) (Some now2) (pulse_duration self).

(** The pulse of the event branch of [get_beat_scale] (lines 64-70), as a
    function of [progress] and of the amplitude. *)
Definition event_pulse (amplitude progress : R) : R :=
  if Py.ltb progress 0.3 then
    sin (progress * PI / 0.3) * amplitude
  else
    let decay_progress := (progress - 0.3) / 0.7 in
    cos (decay_progress * PI / 2) * amplitude.

(** The pulse of the BPM branch of [get_beat_scale] (lines 99-104), as a
    function of [phase] and of the amplitude. *)
Definition periodic_pulse (amplitude phase : R) : R :=
  if Py.ltb phase PI then
    sin phase * amplitude
  else
    sin phase * amplitude * 0.5.

(** Lines 80-86 of [get_beat_scale]: one step of the BPM smoothing. *)
Definition smooth_bpm (self : t) : t :=
  match target_bpm self with
  | Some target =>
      match current_bpm self with
      | None => set_current_bpm (Some (IZR target)) self
      | Some current =>
          let diff := IZR target - current in
          set_current_bpm (Some (current + diff * animation_smoothing self)) self
      end
  | None => self
  end.

(** Lines 92-95 of [get_beat_scale]: the beat phase, in [0, 2 pi). *)
Definition beat_phase (bpm elapsed : R) : R :=
  let beat_interval := 60.0 / bpm in
  Py.fmod elapsed beat_interval / beat_interval * 2.0 * PI.

(** Lines 78-109 of [get_beat_scale]: the BPM-based continuous animation. *)
Definition bpm_fallback (current_time : R) (self : t) : R * t :=
  let self := smooth_bpm self in
  match current_bpm self with
  | None => (1.0, set_beat_scale 1.0 self)
  | Some bpm =>
      if Py.leb bpm 0 then (1.0, set_beat_scale 1.0 self)
      else
        let elapsed := current_time - start_time self in
        let phase := beat_phase bpm elapsed in
        let pulse := periodic_pulse Config.HEART_BEAT_SCALE_AMPLITUDE phase in
        (1.0 + pulse, set_beat_scale (1.0 + pulse) self)
  end.

(** Lines 52-53 of [get_beat_scale]: the instant of the query is the
    argument when there is one, the clock otherwise. *)
Definition query_instant (clock : R) (current_time : option R) : R :=
  match current_time with
  | None => clock
  | Some c => c
  end.

(** [AnimationController.get_beat_scale]; [clock] is the reading of
    [time.time()], used when [current_time] is [None]. *)
Definition get_beat_scale (clock : R) (current_time : option R) (self : t)
  : R * t :=
  let current_time := query_instant clock current_time in
  match heartbeat_pulse_start self with
  | Some pulse_start =>
      let pulse_elapsed := current_time - pulse_start in
      if Py.ltb pulse_elapsed (pulse_duration self) then
        let progress := pulse_elapsed / pulse_duration self in
        let pulse := event_pulse Config.HEART_BEAT_SCALE_AMPLITUDE progress in
        (1.0 + pulse, set_beat_scale (1.0 + pulse) self)
      else
        bpm_fallback current_time (set_heartbeat_pulse_start None self)
  | None => bpm_fallback current_time self
  end.

(** [AnimationController.reset]; [now] is the reading of [time.time()]. *)
Definition reset (now : R) (self : t) : t :=
  mk now None None 1.0 (animation_smoothing self) None None
     (pulse_duration self).

(** Whether a query at [current_time] takes the event branch. *)
Definition pulse_active (current_time : R) (self : t) : bool :=
  match heartbeat_pulse_start self with
  | Some pulse_start =>
      Py.ltb (current_time - pulse_start) (pulse_duration self)
  | None => false
  end.

(** The calls a client makes on the controller. *)
Inductive call :=
| UpdateBpm (bpm : option Z)
| TriggerHeartbeat (now1 now2 : R)
| GetBeatScale (clock : R) (current_time : option R)
| Reset (now : R).

Definition do_call (c : call) (self : t) : t :=
  match c with
  | UpdateBpm bpm => update_bpm bpm self
  | TriggerHeartbeat now1 now2 => trigger_heartbeat now1 now2 self
  | GetBeatScale clock current_time =>
      snd (get_beat_scale clock current_time self)
  | Reset now => reset now self
  end.

Definition run (cs : list call) (self : t) : t :=
  fold_left (fun s c => do_call c s) cs self.

(** Calls under which an absent [target_bpm] stays absent: queries,
    heartbeat triggers and further [update_bpm(None)]. *)
Definition keeps_target (c : call) : bool :=
  match c with
  | GetBeatScale _ _ | TriggerHeartbeat _ _ | UpdateBpm None => true
  | UpdateBpm (Some _) | Reset _ => false
  end.

(** States of a run on a clock that never goes back: [reachable now self]
    when [self] results from calls made up to the instant [now].  A query
    may pass any explicit [current_time]. *)
Inductive reachable : R -> t -> Prop :=
| reach_init now : reachable now (init now)
| reach_later now now' self :
    reachable now self -> now <= now' -> reachable now' self
| reach_update_bpm now bpm self :
    reachable now self -> reachable now (update_bpm bpm self)
| reach_trigger now now1 now2 self :
    reachable now self -> now <= now1 -> now1 <= now2 ->
    reachable now2 (trigger_heartbeat now1 now2 self)
| reach_query now current_time self :
    reachable now self ->
    reachable now (snd (get_beat_scale now current_time self))
| reach_reset now self :
    reachable now self -> reachable now (reset now self).

End AnimationController.

(** ** numpy arrays of the shapes the sources use *)

Module Np.

Record vec2 := V2 { x2 : R; y2 : R }.
Record vec3 := V3 { x3 : R; y3 : R; z3 : R }.
Record vec4 := V4 { x4 : R; y4 : R; z4 : R; w4 : R }.

(** Matrices are stored by rows. *)
Record mat3 := M3 { m3r0 : vec3; m3r1 : vec3; m3r2 : vec3 }.
Record mat4 := M4 { m4r0 : vec4; m4r1 : vec4; m4r2 : vec4; m4r3 : vec4 }.

Definition add2 (a b : vec2) : vec2 := V2 (x2 a + x2 b) (y2 a + y2 b).
Definition scale2 (k : R) (a : vec2) : vec2 := V2 (k * x2 a) (k * y2 a).
Definition div2 (a : vec2) (k : R) : vec2 := V2 (x2 a / k) (y2 a / k).

Definition add3 (a b : vec3) : vec3 :=
  V3 (x3 a + x3 b) (y3 a + y3 b) (z3 a + z3 b).
Definition sub3 (a b : vec3) : vec3 :=
  V3 (x3 a - x3 b) (y3 a - y3 b) (z3 a - z3 b).
Definition neg3 (a : vec3) : vec3 := V3 (- x3 a) (- y3 a) (- z3 a).
Definition scale3 (k : R) (a : vec3) : vec3 :=
  V3 (k * x3 a) (k * y3 a) (k * z3 a).
Definition div3 (a : vec3) (k : R) : vec3 :=
  V3 (x3 a / k) (y3 a / k) (z3 a / k).

(** [np.dot] on two 3-vectors. *)
Definition dot (a b : vec3) : R := x3 a * x3 b + y3 a * y3 b + z3 a * z3 b.

(** [np.cross] *)
Definition cross (a b : vec3) : vec3 :=
  V3 (y3 a * z3 b - z3 a * y3 b)
     (z3 a * x3 b - x3 a * z3 b)
     (x3 a * y3 b - y3 a * x3 b).

(** [np.linalg.norm] of a 3-vector. *)
Definition norm (a : vec3) : R := sqrt (dot a a).

(** [np.eye(3)] and [np.eye(4)] *)
Definition eye3 : mat3 := M3 (V3 1 0 0) (V3 0 1 0) (V3 0 0 1).
Definition eye4 : mat4 :=
  M4 (V4 1 0 0 0) (V4 0 1 0 0) (V4 0 0 1 0) (V4 0 0 0 1).

Definition madd (a b : mat3) : mat3 :=
  M3 (add3 (m3r0 a) (m3r0 b)) (add3 (m3r1 a) (m3r1 b)) (add3 (m3r2 a) (m3r2 b)).

(** [k * m] and [m * k], entry by entry. *)
Definition mscale (k : R) (a : mat3) : mat3 :=
  M3 (scale3 k (m3r0 a)) (scale3 k (m3r1 a)) (scale3 k (m3r2 a)).

Definition col0 (a : mat3) : vec3 := V3 (x3 (m3r0 a)) (x3 (m3r1 a)) (x3 (m3r2 a)).
Definition col1 (a : mat3) : vec3 := V3 (y3 (m3r0 a)) (y3 (m3r1 a)) (y3 (m3r2 a)).
Definition col2 (a : mat3) : vec3 := V3 (z3 (m3r0 a)) (z3 (m3r1 a)) (z3 (m3r2 a)).

(** [m.T] *)
Definition transpose (a : mat3) : mat3 := M3 (col0 a) (col1 a) (col2 a).

(** [a @ b] *)
Definition matmul (a b : mat3) : mat3 :=
  let row r := V3 (dot r (col0 b)) (dot r (col1 b)) (dot r (col2 b)) in
  M3 (row (m3r0 a)) (row (m3r1 a)) (row (m3r2 a)).

(** [np.linalg.det] of a 3x3 matrix. *)
Definition det (a : mat3) : R := dot (m3r0 a) (cross (m3r1 a) (m3r2 a)).

(** [U[:, -1] *= -1]: the last column changes sign. *)
Definition negate_last_column (a : mat3) : mat3 :=
  let f r := V3 (x3 r) (y3 r) (-1 * z3 r) in
  M3 (f (m3r0 a)) (f (m3r1 a)) (f (m3r2 a)).

(** The upper-left 3x3 block [m[:3, :3]] and the column [m[:3, 3]]. *)
Definition block33 (m : mat4) : mat3 :=
  let f r := V3 (x4 r) (y4 r) (z4 r) in
  M3 (f (m4r0 m)) (f (m4r1 m)) (f (m4r2 m)).
Definition column3 (m : mat4) : vec3 :=
  V3 (w4 (m4r0 m)) (w4 (m4r1 m)) (w4 (m4r2 m)).

(** [m[:3, :3] = b] and [m[:3, 3] = p] *)
Definition set_block33 (b : mat3) (m : mat4) : mat4 :=
  let f r o := V4 (x3 r) (y3 r) (z3 r) (w4 o) in
  M4 (f (m3r0 b) (m4r0 m)) (f (m3r1 b) (m4r1 m)) (f (m3r2 b) (m4r2 m)) (m4r3 m).
Definition set_column3 (p : vec3) (m : mat4) : mat4 :=
  let f v o := V4 (x4 o) (y4 o) (z4 o) v in
  M4 (f (x3 p) (m4r0 m)) (f (y3 p) (m4r1 m)) (f (z3 p) (m4r2 m)) (m4r3 m).

(** A proper rotation: orthonormal with determinant +1. *)
Definition orthonormal (a : mat3) : Prop := matmul (transpose a) a = eye3.
Definition proper_rotation (a : mat3) : Prop := orthonormal a /\ det a = 1.

(** [np.zeros((4, 4))] *)
Definition zeros4 : mat4 :=
  M4 (V4 0 0 0 0) (V4 0 0 0 0) (V4 0 0 0 0) (V4 0 0 0 0).

Definition dot4 (a b : vec4) : R :=
  x4 a * x4 b + y4 a * y4 b + z4 a * z4 b + w4 a * w4 b.

(** [m @ v] for a 4x4 matrix and a 4-vector. *)
Definition matvec4 (m : mat4) (v : vec4) : vec4 :=
  V4 (dot4 (m4r0 m) v) (dot4 (m4r1 m) v) (dot4 (m4r2 m) v) (dot4 (m4r3 m) v).

(** [v @ m] for a 4-vector and a 4x4 matrix. *)
Definition vecmat4 (v : vec4) (m : mat4) : vec4 :=
  V4 (x4 v * x4 (m4r0 m) + y4 v * x4 (m4r1 m) + z4 v * x4 (m4r2 m) + w4 v * x4 (m4r3 m))
     (x4 v * y4 (m4r0 m) + y4 v * y4 (m4r1 m) + z4 v * y4 (m4r2 m) + w4 v * y4 (m4r3 m))
     (x4 v * z4 (m4r0 m) + y4 v * z4 (m4r1 m) + z4 v * z4 (m4r2 m) + w4 v * z4 (m4r3 m))
     (x4 v * w4 (m4r0 m) + y4 v * w4 (m4r1 m) + z4 v * w4 (m4r2 m) + w4 v * w4 (m4r3 m)).

(** [m @ v] for a 3x3 matrix and a 3-vector. *)
Definition matvec3 (m : mat3) (v : vec3) : vec3 :=
  V3 (dot (m3r0 m) v) (dot (m3r1 m) v) (dot (m3r2 m) v).

(** The homogeneous point [(x, y, z, 1)]. *)
Definition point4 (p : vec3) : vec4 := V4 (x3 p) (y3 p) (z3 p) 1.

End Np.

(** ** [src/utils/math_utils.py] *)

Module MathUtils.
Import Np.

(** [normalize_vector] *)
Definition normalize_vector (v : vec3) : vec3 :=
  let n := norm v in
  if Py.eqb n 0 then v else div3 v n.

(** [rotation_matrix_from_vectors] *)
Definition rotation_matrix_from_vectors (forward up : vec3) : mat3 :=
  let forward := normalize_vector forward in
  let up := normalize_vector up in
  let right := cross forward up in
  let right := normalize_vector right in
  let up := cross right forward in
  let up := normalize_vector up in
  M3 (V3 (x3 right) (x3 up) (- x3 forward))
     (V3 (y3 right) (y3 up) (- y3 forward))
     (V3 (z3 right) (z3 up) (- z3 forward)).

(** [create_transform_matrix]; the default of [scale] is 1.0. *)
Definition create_transform_matrix (position : vec3) (rotation : mat3)
    (scale : R) : mat4 :=
  let transform := eye4 in
  let transform := set_block33 (mscale scale rotation) transform in
  let transform := set_column3 position transform in
  transform.

(** [calculate_chest_rotation] *)
Definition calculate_chest_rotation
    (left_shoulder right_shoulder left_hip right_hip : vec3) : mat3 :=
  let shoulder_vec := sub3 right_shoulder left_shoulder in
  let hip_vec := sub3 right_hip left_hip in
  let torso_vec := div3 (add3 shoulder_vec hip_vec) 2.0 in
  let forward := V3 (- y3 torso_vec) (x3 torso_vec) 0 in
  let forward := normalize_vector forward in
  let up := V3 0 0 1 in
  rotation_matrix_from_vectors forward up.

(** [calculate_chest_position]; the default of [offset_z] is 0.05. *)
Definition calculate_chest_position
    (left_shoulder right_shoulder : vec3) (offset_z : R) : vec3 :=
  let chest_center := div3 (add3 left_shoulder right_shoulder) 2.0 in
  V3 (x3 chest_center) (y3 chest_center) (z3 chest_center - offset_z).

(** What a function that divides Python floats yields. *)
Inductive result (A : Type) :=
| Ok (a : A)
| RaisesZeroDivisionError.
Arguments Ok {A} a.
Arguments RaisesZeroDivisionError {A}.

(** [perspective_projection_matrix].  [near] and [far] are Python floats:
    the two divisions by [near - far] raise when they are equal.  (The
    divisions by [np.tan (...)] and by [aspect] go through numpy and do not
    raise.) *)
Definition perspective_projection_matrix (fov aspect near far : R)
  : result mat4 :=
  let fov_rad := fov * PI / 180 in                   (* np.radians(fov) *)
  let f := 1.0 / tan (fov_rad / 2.0) in
  if Py.eqb (near - far) 0 then RaisesZeroDivisionError
  else
    Ok (M4 (V4 (f / aspect) 0 0 0)
           (V4 0 f 0 0)
           (V4 0 0 ((far + near) / (near - far)) (-1.0))
           (V4 0 0 ((2.0 * far * near) / (near - far)) 0)).

(** [look_at_matrix]; the default of [up] is [(0, 0, 1)]. *)
Definition look_at_matrix (eye target up : vec3) : mat4 :=
  let forward := normalize_vector (sub3 target eye) in
  let right := normalize_vector (cross forward up) in
  let up := normalize_vector (cross right forward) in
  M4 (V4 (x3 right) (y3 right) (z3 right) (- dot right eye))
     (V4 (x3 up) (y3 up) (z3 up) (- dot up eye))
     (V4 (- x3 forward) (- y3 forward) (- z3 forward)
         (- dot (neg3 forward) eye))
     (V4 0 0 0 1).

End MathUtils.

(** ** [src/pose/chest_tracker.py] *)

Module ChestTracker.
Import Np MathUtils.

(** One MediaPipe landmark, and the sequence [landmarks.landmark]. *)
Record Landmark := mkLandmark { x : R; y : R; z : R; visibility : R }.
Definition Landmarks := list Landmark.

Definition LEFT_SHOULDER : nat := 11.
Definition RIGHT_SHOULDER : nat := 12.
Definition LEFT_HIP : nat := 23.
Definition RIGHT_HIP : nat := 24.
Definition NOSE : nat := 0.

Record t := mk {
  last_position : option vec3;
  last_rotation : option mat3;
  last_position_2d : option vec2;
  smoothing_factor : R
}.

(** [ChestTracker.__init__]; the default of [smoothing_factor] is 0.7. *)
Definition init (smoothing_factor : R) : t :=
  mk None None None smoothing_factor.

Definition default_smoothing_factor : R := 0.7.

(** Python exceptions the tracker can raise. *)
Inductive exn := ZeroDivisionError.

Inductive outcome (A : Type) :=
| Return (a : A)
| Raise (e : exn).
Arguments Return {A} a.
Arguments Raise {A} e.

(** [ChestTracker.extract_landmark_2d] *)
Definition extract_landmark_2d (landmarks : Landmarks) (index : nat)
  : option vec2 :=
  match nth_error landmarks index with
  | None => None                      (* index >= len(landmarks.landmark) *)
  | Some landmark =>
      if Py.ltb (visibility landmark) 0.5 then None
      else Some (V2 (x landmark) (y landmark))
  end.

(** [ChestTracker.extract_landmark_3d] *)
Definition extract_landmark_3d (landmarks : Landmarks) (index : nat)
  : option vec3 :=
  match nth_error landmarks index with
  | None => None
  | Some landmark =>
      if Py.ltb (visibility landmark) 0.5 then None
      else Some (V3 (x landmark) (y landmark) (z landmark))
  end.

Section WithSvd.

(** [np.linalg.svd] on a 3x3 matrix: the triple [(U, S, Vt)]. *)
Variable svd : mat3 -> mat3 * vec3 * mat3.

(** Lines 155-159 of [track_chest]: the blended matrix is replaced by
    [U @ Vt], with the last column of [U] negated when the determinant
    is negative. *)
Definition reorthonormalize (rotation : mat3) : mat3 :=
  let '(U, _, Vt) := svd rotation in
  let rotation := matmul U Vt in
  if Py.ltb (det rotation) 0 then
    let U := negate_last_column U in
    matmul U Vt
  else rotation.

(** [ChestTracker.track_chest] *)
Definition track_chest (world_landmarks : Landmarks) (self : t)
  : (option vec3 * option mat3) * t :=
  let left_shoulder := extract_landmark_3d world_landmarks LEFT_SHOULDER in
  let right_shoulder := extract_landmark_3d world_landmarks RIGHT_SHOULDER in
  let left_hip := extract_landmark_3d world_landmarks LEFT_HIP in
  let right_hip := extract_landmark_3d world_landmarks RIGHT_HIP in
  match left_shoulder, right_shoulder with
  | Some left_shoulder, Some right_shoulder =>
      let new_position :=
        calculate_chest_position left_shoulder right_shoulder
          Config.HEART_OFFSET_Z in
      let position :=
        match last_position self with
        | Some last =>
            add3 (scale3 (smoothing_factor self) last)
                 (scale3 (1.0 - smoothing_factor self) new_position)
        | None => new_position
        end in
      let new_rotation :=
        match left_hip, right_hip with
        | Some left_hip, Some right_hip =>
            calculate_chest_rotation left_shoulder right_shoulder
              left_hip right_hip
        | _, _ =>
            let shoulder_vec := sub3 right_shoulder left_shoulder in
            if Py.gtb (norm shoulder_vec) 0 then
              let forward := V3 0 0 (-1) in
              let up := V3 0 1 0 in
              rotation_matrix_from_vectors forward up
            else eye3
        end in
      let rotation :=
        match last_rotation self with
        | Some last =>
            let rotation :=
              madd (mscale (smoothing_factor self) last)
                   (mscale (1.0 - smoothing_factor self) new_rotation) in
            reorthonormalize rotation
        | None => new_rotation
        end in
      ((Some position, Some rotation),
       mk (Some position) (Some rotation) (last_position_2d self)
          (smoothing_factor self))
  | _, _ => ((last_position self, last_rotation self), self)
  end.

(** [ChestTracker.get_transform_matrix] *)
Definition get_transform_matrix (world_landmarks : Landmarks) (self : t)
  : option mat4 * t :=
  let '((position, rotation), self) := track_chest world_landmarks self in
  match position, rotation with
  | Some position, Some rotation =>
      (Some (create_transform_matrix position rotation Config.HEART_SCALE),
       self)
  | _, _ => (None, self)
  end.

End WithSvd.

(** [ChestTracker.get_chest_position_2d] *)
Definition get_chest_position_2d (normalized_landmarks : Landmarks)
    (frame_width frame_height : Z) (self : t) : option vec2 * t :=
  let left_shoulder_2d := extract_landmark_2d normalized_landmarks LEFT_SHOULDER in
  let right_shoulder_2d := extract_landmark_2d normalized_landmarks RIGHT_SHOULDER in
  let left_hip_2d := extract_landmark_2d normalized_landmarks LEFT_HIP in
  let right_hip_2d := extract_landmark_2d normalized_landmarks RIGHT_HIP in
  match left_shoulder_2d, right_shoulder_2d with
  | Some left_shoulder_2d, Some right_shoulder_2d =>
      let chest_center_normalized :=
        div2 (add2 left_shoulder_2d right_shoulder_2d) 2.0 in
      let chest_x := x2 chest_center_normalized * IZR frame_width in
      let chest_y := y2 chest_center_normalized * IZR frame_height in
      let chest_y :=
        match left_hip_2d, right_hip_2d with
        | Some left_hip_2d, Some right_hip_2d =>
            let shoulder_y := chest_y in
            let hip_center_y :=
              ((y2 left_hip_2d + y2 right_hip_2d) / 2.0) * IZR frame_height in
            let torso_height := hip_center_y - shoulder_y in
            chest_y + (torso_height * 0.25)
        | _, _ =>
            let shoulder_width :=
              Rabs ((x2 right_shoulder_2d - x2 left_shoulder_2d)
                    * IZR frame_width) in
            chest_y + (shoulder_width * 0.3)
        end in
      let shoulder_width :=
        Rabs ((x2 right_shoulder_2d - x2 left_shoulder_2d) * IZR frame_width) in
      let chest_x := chest_x + (shoulder_width * 0.15) in
      let chest_pos_2d := V2 chest_x chest_y in
      let chest_pos_2d :=
        match last_position_2d self with
        | Some last =>
            add2 (scale2 (smoothing_factor self) last)
                 (scale2 (1.0 - smoothing_factor self) chest_pos_2d)
        | None => chest_pos_2d
        end in
      (Some chest_pos_2d,
       mk (last_position self) (last_rotation self) (Some chest_pos_2d)
          (smoothing_factor self))
  | _, _ => (None, self)
  end.

(** [ChestTracker.get_transform_matrix_2d].  The frame sizes are Python
    ints: [frame_width / frame_height] raises when the height is 0, after
    [get_chest_position_2d] has stored the new anchor.  (The two divisions
    of the float32 anchor by the frame sizes do not raise; their values are
    overwritten before use.) *)
Definition get_transform_matrix_2d (normalized_landmarks : Landmarks)
    (frame_width frame_height : Z) (self : t) : outcome (option mat4) * t :=
  let '(chest_pos_2d, self) :=
    get_chest_position_2d normalized_landmarks frame_width frame_height self in
  match chest_pos_2d with
  | None => (Return None, self)
  | Some chest_pos_2d =>
      let norm_x := x2 chest_pos_2d / IZR frame_width in
      let norm_y := y2 chest_pos_2d / IZR frame_height in
      let ndc_x := norm_x * 2.0 - 1.0 in
      let ndc_y := 1.0 - norm_y * 2.0 in
      let viewing_distance := 1.0 in
      let fov_rad := 60.0 * PI / 180 in          (* np.radians(60.0) *)
      if (frame_height =? 0)%Z then (Raise ZeroDivisionError, self)
      else
        let aspect := IZR frame_width / IZR frame_height in
        let world_scale_x := viewing_distance * tan (fov_rad / 2.0) * aspect in
        let world_scale_y := viewing_distance * tan (fov_rad / 2.0) in
        let world_x := ndc_x * world_scale_x in
        let world_y := ndc_y * world_scale_y in
        let world_z := - viewing_distance in
        (* "TEMPORARY: Force heart to center of screen for testing" *)
        let world_x := 0.0 in
        let world_y := 0.0 in
        let world_z := -1.0 in
        let position := V3 world_x world_y world_z in
        let rotation := eye3 in
        (Return (Some (create_transform_matrix position rotation
                         Config.HEART_SCALE)), self)
  end.

(** [ChestTracker.reset] *)
Definition reset (self : t) : t :=
  mk None None None (smoothing_factor self).

(** A landmark is usable when its index is in range and its visibility
    is at least 0.5. *)
Definition visible (landmarks : Landmarks) (index : nat) : Prop :=
  exists l, nth_error landmarks index = Some l /\ 0.5 <= visibility l.

(** A landmark is absent when its index is out of range or its visibility
    is below 0.5. *)
Definition absent (landmarks : Landmarks) (index : nat) : Prop :=
  match nth_error landmarks index with
  | None => True
  | Some l => visibility l < 0.5
  end.

End ChestTracker.

(** ** [src/heartrate/polar_h10.py] *)

Module PolarH10.

(** [PolarH10._heart_rate_notification_handler], with a callback
    registered: the value handed to [on_heart_rate], or [None] when the
    handler returns without calling it. *)
Definition heart_rate_notification_handler (data : list Byte.byte) : option Z :=
  if (length data <? 2)%nat then None
  else
    match nth_error data 0, nth_error data 1 with
    | Some flags, Some second =>
        let heart_rate_format := (Z.land (Py.byte_value flags) 0x01 =? 0x01)%Z in
        let heart_rate :=
          if heart_rate_format && (3 <=? length data)%nat
          then Py.int_from_bytes_little (Py.slice 1 3 data)
          else Py.byte_value second in
        Some heart_rate
    | _, _ => None
    end.

End PolarH10.

(** ** [src/rendering/heart_renderer.py] *)

Module HeartRenderer.

(** [HeartRenderer.set_beat_scale]: the value stored in [self.beat_scale]. *)
Definition set_beat_scale (scale : R) : R :=
  Py.fmax 0.5 (Py.fmin 2.0 scale).

(** [HeartRenderer._setup_projection]: the projection matrix stored, for
    the renderer's [width] and [height]; the defaults are [fov = 60.0],
    [near = 0.1], [far = 10.0]. *)
Definition setup_projection (width height : Z) (fov near far : R)
  : MathUtils.result Np.mat4 :=
  let aspect := if (height >? 0)%Z then IZR width / IZR height else 1.0 in
  MathUtils.perspective_projection_matrix fov aspect near far.

End HeartRenderer.

(** ** [src/rendering/overlay_engine.py] *)

Module OverlayEngine.

(** [OverlayEngine.composite_frame], lines 111-124: the arguments
    [(center_x, center_y, size)] of the [_draw_heart] call on a frame of the
    given shape, or [None] when no heart is drawn. *)
Definition composite_frame_heart (height width : Z)
    (chest_position_2d : option (Z * Z)) (beat_scale : R)
  : option (Z * Z * Z) :=
  match chest_position_2d with
  | None => None
  | Some (x, y) =>
      let x := Z.max 0 (Z.min (width - 1) x) in
      let y := Z.max 0 (Z.min (height - 1) y) in
      let base_size := 120%Z in
      let animated_size := Py.int_of_float (IZR base_size * beat_scale) in
      Some (x, y, animated_size)
  end.

End OverlayEngine.

(** ** [src/ui/main_window.py]: the heart-rate callbacks *)

Module MainWindow.

Record t := mk {
  hr_parser : HeartRateParser.t;
  animation_controller : AnimationController.t
}.

(** [MainWindow.on_heart_rate_received], without the label update; [now] is
    the clock read by [update], [now1] and [now2] the two readings of
    [trigger_heartbeat].  The body runs inside [try ... except Exception],
    which only prints: when [update] raises, the parser keeps what it had
    already stored and the controller is not reached. *)
Definition on_heart_rate_received (now now1 now2 : R) (heart_rate : Z)
    (self : t) : t :=
  if ((heart_rate <? 30) || (heart_rate >? 220))%Z then self
  else
    match HeartRateParser.update now heart_rate (hr_parser self) with
    | (Py.Return bpm, parser) =>
        let controller :=
          AnimationController.update_bpm (Some bpm) (animation_controller self) in
        let controller :=
          AnimationController.trigger_heartbeat now1 now2 controller in
        mk parser controller
    | (Py.Raise _, parser) => mk parser (animation_controller self)
    end.

(** Lines 727-738 of [MainWindow.update_frame]: the scale handed to the
    overlay; [now] is the clock read by [is_stale], [now'] the one read by
    [get_beat_scale]. *)
Definition update_frame_beat_scale (now now' : R) (self : t) : R * t :=
  if negb (HeartRateParser.is_stale now 5.0 (hr_parser self)) then
    let '(beat_scale, controller) :=
      AnimationController.get_beat_scale now' None (animation_controller self) in
    (beat_scale, mk (hr_parser self) controller)
  else (1.0, self).

(** One heart-rate notification: the BLE handler, then the callback. *)
Definition on_notification (now now1 now2 : R) (data : list Byte.byte)
    (self : t) : t :=
  match PolarH10.heart_rate_notification_handler data with
  | Some heart_rate => on_heart_rate_received now now1 now2 heart_rate self
  | None => self
  end.

(** [MainWindow.__init__], lines 182-183: a parser with the default window
    and a controller created at the instant [now]. *)
Definition init (now : R) : t :=
  mk (HeartRateParser.init HeartRateParser.default_window)
     (AnimationController.init now).

(** [MainWindow.disconnect_heart_rate], lines 988-989: both objects are
    reset; [now] is the clock read by the controller's [reset]. *)
Definition disconnect_heart_rate (now : R) (self : t) : t :=
  mk (HeartRateParser.reset (hr_parser self))
     (AnimationController.reset now (animation_controller self)).

(** What reaches the heart-rate objects of the window. *)
Inductive event :=
| Received (now now1 now2 : R) (heart_rate : Z)
| Disconnected (now : R).

Definition handle (e : event) (self : t) : t :=
  match e with
  | Received now now1 now2 heart_rate =>
      on_heart_rate_received now now1 now2 heart_rate self
  | Disconnected now => disconnect_heart_rate now self
  end.

Definition run (events : list event) (self : t) : t :=
  fold_left (fun s e => handle e s) events self.

End MainWindow.

(** ** Vocabulary of the statements *)

(** The last [n] items of a sequence, in order. *)
Definition last_n {A} (n : nat) (l : list A) : list A :=
  skipn (length l - n) l.

(** The integer mean of a sequence, truncated towards zero. *)
Definition truncated_mean (l : list Z) : Z :=
  Z.quot (fold_right Z.add 0%Z l) (Z.of_nat (length l)).

(** ** Sample inputs *)

(** A decomposition that answers [(I, (1, 1, 1), I)]: the singular value
    decomposition of the identity matrix. *)
Definition svd_of_identity (m : Np.mat3) : Np.mat3 * Np.vec3 * Np.mat3 :=
  (Np.eye3, Np.V3 1 1 1, Np.eye3).

(** A pose of 33 landmarks, none of them visible enough. *)
Definition low_visibility_pose : ChestTracker.Landmarks :=
  repeat (ChestTracker.mkLandmark 0.5 0.5 0 0.2) 33.

(** A pose of 33 landmarks where only the two shoulders are visible:
    left shoulder at (0.4, 0.3), right shoulder at (0.6, 0.3). *)
Definition shoulders_only_pose : ChestTracker.Landmarks :=
  repeat (ChestTracker.mkLandmark 0.5 0.5 0 0.2) 11
  ++ [ChestTracker.mkLandmark 0.4 0.3 0 0.9; ChestTracker.mkLandmark 0.6 0.3 0 0.9]
  ++ repeat (ChestTracker.mkLandmark 0.5 0.5 0 0.2) 20.

(** The transform that puts the overlay at (0, 0, -1), unrotated, scaled by
    [Config.HEART_SCALE]. *)
Definition centered_transform : Np.mat4 :=
  Np.M4 (Np.V4 0.15 0 0 0)
        (Np.V4 0 0.15 0 0)
        (Np.V4 0 0 0.15 (-1))
        (Np.V4 0 0 0 1).

(** A controller at 72 BPM on which a heartbeat was just triggered, at the
    instant 100. *)
Definition just_triggered : AnimationController.t :=
  AnimationController.trigger_heartbeat 100 100
    (AnimationController.update_bpm (Some 72%Z) (AnimationController.init 0)).

(** A controller that has taken 60 BPM as its current BPM. *)
Definition beating_at_60 : AnimationController.t :=
  snd (AnimationController.get_beat_scale 1 None
         (AnimationController.update_bpm (Some 60%Z) (AnimationController.init 0))).

(** Queries and a heartbeat, with no new target among them. *)
Definition queries_and_a_heartbeat : list AnimationController.call :=
  [AnimationController.GetBeatScale 2 None;
   AnimationController.UpdateBpm None;
   AnimationController.TriggerHeartbeat 3 3;
   AnimationController.GetBeatScale 4 None;
   AnimationController.GetBeatScale 5 (Some 4.5)].

(** A tracker that already holds an anchor at the origin, unrotated. *)
Definition tracked_once : ChestTracker.t :=
  ChestTracker.mk (Some (Np.V3 0 0 0)) (Some Np.eye3) None 0.7.

(** The first and last component of the triple [np.linalg.svd] returns. *)
Definition svd_U (usv : Np.mat3 * Np.vec3 * Np.mat3) : Np.mat3 := fst (fst usv).
Definition svd_Vt (usv : Np.mat3 * Np.vec3 * Np.mat3) : Np.mat3 := snd usv.

(** [np.diag(S)] for the vector of singular values. *)
Definition diag3 (v : Np.vec3) : Np.mat3 :=
  Np.M3 (Np.V3 (Np.x3 v) 0 0) (Np.V3 0 (Np.y3 v) 0) (Np.V3 0 0 (Np.z3 v)).

(** Equality up to [eps], entry by entry. *)
Definition vec3_within (eps : R) (a b : Np.vec3) : Prop :=
  Rabs (Np.x3 a - Np.x3 b) <= eps /\
  Rabs (Np.y3 a - Np.y3 b) <= eps /\
  Rabs (Np.z3 a - Np.z3 b) <= eps.

Definition mat3_within (eps : R) (a b : Np.mat3) : Prop :=
  vec3_within eps (Np.m3r0 a) (Np.m3r0 b) /\
  vec3_within eps (Np.m3r1 a) (Np.m3r1 b) /\
  vec3_within eps (Np.m3r2 a) (Np.m3r2 b).

(** [a^T a = I] up to [eps]. *)
Definition orthonormal_within (eps : R) (a : Np.mat3) : Prop :=
  mat3_within eps (Np.matmul (Np.transpose a) a) Np.eye3.

(** A blended matrix that is far from a rotation (columns of length 3 and
    2, negative determinant), and the factors a decomposition returns for
    it when they are rounded to three decimals: [U] is the turn by 30
    degrees about z with 0.866 for its cosine, orthonormal within 0.0001,
    and [U @ diag(S) @ Vt] is the matrix. *)
Definition sheared_blend : Np.mat3 :=
  Np.M3 (Np.V3 2.598 (-1) 0) (Np.V3 1.5 1.732 0) (Np.V3 0 0 (-0.5)).

Definition svd_rounded (m : Np.mat3) : Np.mat3 * Np.vec3 * Np.mat3 :=
  (Np.M3 (Np.V3 0.866 (-0.5) 0) (Np.V3 0.5 0.866 0) (Np.V3 0 0 1),
   Np.V3 3 2 0.5,
   Np.M3 (Np.V3 1 0 0) (Np.V3 0 1 0) (Np.V3 0 0 (-1))).

(** What holds of every controller of a run on a monotone clock: the pulse
    lasts 0.3 s and a pending pulse did not start in the future. *)
Definition pulse_started_by (now : R) (s : AnimationController.t) : Prop :=
  AnimationController.pulse_duration s = 0.3 /\
  forall p, AnimationController.heartbeat_pulse_start s = Some p -> p <= now.

(** The heart rates [on_heart_rate_received] lets through. *)
Definition validated (heart_rate : Z) : Prop := (30 <= heart_rate <= 220)%Z.

(** What the window's heart-rate objects satisfy after any run of events:
    the parser's window holds validated rates only, its smoothed BPM is a
    validated rate, and the controller's target is that BPM. *)
Definition rates_validated (s : MainWindow.t) : Prop :=
  HeartRateParser.smoothing_window (MainWindow.hr_parser s) = 5%nat /\
  (length (HeartRateParser.recent_values (MainWindow.hr_parser s)) <= 5)%nat /\
  Forall validated (HeartRateParser.recent_values (MainWindow.hr_parser s)) /\
  match HeartRateParser.get_bpm (MainWindow.hr_parser s) with
  | Some bpm =>
      validated bpm /\
      AnimationController.target_bpm (MainWindow.animation_controller s)
      = Some bpm
  | None =>
      AnimationController.target_bpm (MainWindow.animation_controller s) = None
  end.

(** A run of [get_beat_scale] calls, each with its clock reading and its
    [current_time] argument, oldest first. *)
Definition run_queries (qs : list (R * option R)) (s : AnimationController.t)
  : AnimationController.t :=
  AnimationController.run
    (map (fun q => AnimationController.GetBeatScale (fst q) (snd q)) qs) s.

(** [n] calls of [get_chest_position_2d] in a row on the same landmarks
    and frame size: the tracker after the last one. *)
Definition repeat_position_2d (n : nat) (lms : ChestTracker.Landmarks)
    (w h : Z) (s : ChestTracker.t) : ChestTracker.t :=
  Nat.iter n (fun s => snd (ChestTracker.get_chest_position_2d lms w h s)) s.

(** [n] calls of [track_chest] in a row on the same landmarks. *)
Definition repeat_track_chest (svd : Np.mat3 -> Np.mat3 * Np.vec3 * Np.mat3)
    (n : nat) (lms : ChestTracker.Landmarks) (s : ChestTracker.t)
  : ChestTracker.t :=
  Nat.iter n (fun s => snd (ChestTracker.track_chest svd lms s)) s.

(** [shoulders_only_pose] with the two shoulders exchanged. *)
Definition swapped_shoulders_pose : ChestTracker.Landmarks :=
  repeat (ChestTracker.mkLandmark 0.5 0.5 0 0.2) 11
  ++ [ChestTracker.mkLandmark 0.6 0.3 0 0.9; ChestTracker.mkLandmark 0.4 0.3 0 0.9]
  ++ repeat (ChestTracker.mkLandmark 0.5 0.5 0 0.2) 20.

(** A pose of 33 landmarks with shoulders and hips visible. *)
Definition torso_pose : ChestTracker.Landmarks :=
  repeat (ChestTracker.mkLandmark 0.5 0.5 0 0.2) 11
  ++ [ChestTracker.mkLandmark 0.4 0.3 (-0.1) 0.9;
      ChestTracker.mkLandmark 0.6 0.3 (-0.1) 0.9]
  ++ repeat (ChestTracker.mkLandmark 0.5 0.5 0 0.2) 10
  ++ [ChestTracker.mkLandmark 0.45 0.7 0 0.9;
      ChestTracker.mkLandmark 0.55 0.7 0 0.9]
  ++ repeat (ChestTracker.mkLandmark 0.5 0.5 0 0.2) 8.

(** The zero vector and the zero matrix. *)
Definition zero3 : Np.vec3 := Np.V3 0 0 0.
Definition zeros3 : Np.mat3 := Np.M3 zero3 zero3 zero3.

(** * Proofs *)

(** ** Python primitives *)

Lemma py_ltb_true (a b : R) : Py.ltb a b = true <-> a < b.
Proof. unfold Py.ltb. destruct (Rlt_dec a b); split; intros; try easy. Qed.

Lemma py_gtb_true (a b : R) : Py.gtb a b = true <-> a > b.
Proof. unfold Py.gtb. rewrite py_ltb_true. unfold Rgt. tauto. Qed.

Lemma py_sum_fold_right (xs : list Z) : Py.sum xs = fold_right Z.add 0%Z xs.
Proof.
  unfold Py.sum. apply fold_symmetric; intros; lia.
Qed.

(** ** [int(a / b)]: where the binary64 quotient truncates to the exact one *)

Section TrueDivision.

Local Open Scope Z_scope.

(** Rounding to nearest moves at most half a unit, and never below the
    floor of the quotient or above its floor plus one. *)
Lemma round_half_even_bounds (n d : Z) :
  0 < d ->
  n / d <= Py.round_half_even n d <= n / d + 1 /\
  2 * Py.round_half_even n d * d <= 2 * n + d.
Proof.
  intros Hd. unfold Py.round_half_even.
  pose proof (Z.div_mod n d ltac:(lia)) as Hdm.
  pose proof (Z.mod_pos_bound n d Hd) as Hr.
  destruct (Z.ltb_spec (2 * (n mod d)) d);
    [| destruct (Z.ltb_spec d (2 * (n mod d)));
       [| destruct (Z.even (n / d))]]; nia.
Qed.

(** What the proofs below use of the three constants of the format. *)
Lemma binary64_constants :
  0 < 2 ^ 53 /\ 0 < 2 ^ 1074 /\ 2 * 2 ^ 53 < 2 ^ 1074 /\
  2 ^ 53 * 2 ^ 1074 < 2 ^ 2098 /\
  (forall s, 0 <= s <= 1074 -> 2 ^ 1074 = 2 ^ s * 2 ^ (1074 - s)) /\
  (forall s, 1074 < s -> 2 ^ 53 * 2 ^ 1074 <= 2 ^ (s + 52)) /\
  (forall s, 0 <= s -> 2 ^ (s + 53) = 2 ^ s * 2 ^ 53 /\
                       2 * 2 ^ (s + 52) = 2 ^ s * 2 ^ 53).
Proof.
  repeat lazymatch goal with |- _ /\ _ => split end; try reflexivity.
  - intros s Hs. rewrite <- Z.pow_add_r by lia.
    replace (s + (1074 - s)) with 1074 by lia. reflexivity.
  - intros s Hs. rewrite <- Z.pow_add_r by lia.
    apply Z.pow_le_mono_r; lia.
  - intros s Hs. split.
    + now rewrite Z.pow_add_r by lia.
    + rewrite <- Z.pow_succ_r by lia. rewrite <- Z.pow_add_r by lia.
      f_equal. lia.
Qed.

(** Below [2^53] the float nearest to [n / d] lies between [n / d] rounded
    down and the next integer, excluded: the quotient [k + r / d] is at
    least [1 / d] below [k + 1], more than half the spacing of the floats
    there, and [k] itself is a float. *)
Lemma int_truediv_nonneg (n d : Z) :
  0 <= n < 2 ^ 53 -> 0 < d ->
  Py.int_truediv n d = Py.Return (n / d).
Proof.
  intros Hn Hd. unfold Py.int_truediv.
  rewrite (proj2 (Z.eqb_neq d 0)) by lia.
  rewrite (Z.abs_eq n) by lia. rewrite (Z.abs_eq d) by lia.
  destruct binary64_constants as (HQ & HP & HQP & HQT & Hsplit & Hbig & Hsmall).
  set (P := 2 ^ 1074) in *. set (T := 2 ^ 2098) in *. set (Q := 2 ^ 53) in *.
  clearbody P T Q.
  set (units := n * P / d).
  set (s := Z.max 0 (Z.log2 units - 52)).
  set (m := Py.round_half_even (n * P) (d * 2 ^ s)).
  assert (Hs0 : 0 <= s) by (unfold s; lia).
  assert (H2s : 0 < 2 ^ s) by (apply Z.pow_pos_nonneg; lia).
  assert (Hunits : units * d <= n * P < (units + 1) * d).
  { unfold units. pose proof (Z.div_mod (n * P) d ltac:(lia)).
    pose proof (Z.mod_pos_bound (n * P) d Hd). nia. }
  assert (Hunits0 : 0 <= units) by (unfold units; apply Z.div_pos; nia).
  assert (Hlt : units < 2 ^ (s + 53) /\ (0 < s -> 2 ^ (s + 52) <= units)).
  { destruct (Z.eq_dec units 0) as [E | E].
    - split.
      + rewrite E. apply Z.pow_pos_nonneg; lia.
      + intros Hs. exfalso. unfold s in Hs. rewrite E in Hs. simpl in Hs. lia.
    - pose proof (Z.log2_spec units ltac:(lia)) as [Hl1 Hl2].
      pose proof (Z.log2_nonneg units) as Hl0.
      split.
      + eapply Z.lt_le_trans; [exact Hl2 |].
        apply Z.pow_le_mono_r; [lia |]. unfold s. lia.
      + intros Hs. replace (s + 52) with (Z.log2 units) by (unfold s in *; lia).
        exact Hl1. }
  destruct Hlt as [Hlt Hge].
  assert (Hs1 : s <= 1074).
  { destruct (Z_le_gt_dec s 1074) as [H | H]; [exact H | exfalso].
    specialize (Hge ltac:(lia)). specialize (Hbig s ltac:(lia)). nia. }
  assert (Hs_zero : s = 0 -> 2 ^ s = 1) by (intros ->; reflexivity).
  clearbody s.
  pose proof (Hsplit s ltac:(lia)) as HPP.
  destruct (Hsmall s Hs0) as [Hs53 Hs52].
  rewrite Hs53 in Hlt. clear Hsplit Hbig Hsmall Hs53.
  set (P' := 2 ^ (1074 - s)) in *.
  assert (HP' : 0 < P') by (apply Z.pow_pos_nonneg; lia).
  set (S := 2 ^ s) in *. set (S52 := 2 ^ (s + 52)) in *.
  clearbody P' S S52.
  set (k := n / d).
  assert (Hk : k * d <= n < (k + 1) * d).
  { unfold k. pose proof (Z.div_mod n d ltac:(lia)).
    pose proof (Z.mod_pos_bound n d Hd). nia. }
  assert (Hk0 : 0 <= k) by (unfold k; apply Z.div_pos; lia).
  assert (HD : 0 < d * S) by nia.
  destruct (round_half_even_bounds (n * P) (d * S) HD) as [[Hm1 Hm3] Hm2].
  fold m in Hm1, Hm2, Hm3.
  assert (Hlow : k * P' <= m).
  { eapply Z.le_trans; [| exact Hm1].
    apply Z.div_le_lower_bound; [exact HD |]. rewrite HPP. nia. }
  assert (Hup : m < (k + 1) * P').
  { destruct (Z_lt_ge_dec (d * S) (2 * P)) as [HDP | HDP].
    - assert (E : (k + 1) * P' * (d * S) = (k + 1) * d * P)
        by (rewrite HPP; ring).
      assert (2 * m * (d * S) < 2 * ((k + 1) * P') * (d * S)); [| nia].
      nia.
    - assert (Hs : s = 0).
      { destruct (Z.eq_dec s 0) as [E | E]; [exact E | exfalso].
        specialize (Hge ltac:(lia)).
        assert (2 * S52 * d <= 2 * (n * P)) by nia.
        assert (S * Q * d < 2 * Q * P); [| nia].
        rewrite <- Hs52. nia. }
      specialize (Hs_zero Hs).
      assert (k = 0) by (unfold k; apply Z.div_small; nia).
      assert (HS1 : P' = P) by nia.
      fold units in Hm3. nia. }
  clearbody m.
  assert (Hval : k * P <= m * S < (k + 1) * P) by (rewrite HPP; nia).
  assert (Hno : m * S < T) by nia.
  rewrite (proj2 (Z.leb_gt _ _) Hno).
  f_equal.
  assert (Hq : m * S / P = k).
  { symmetry. apply (Z.div_unique_pos _ _ _ (m * S - k * P)); lia. }
  rewrite Hq.
  destruct (Z.eq_dec n 0) as [-> | Hn0].
  - unfold k. rewrite Z.div_0_l by lia. reflexivity.
  - rewrite (Z.sgn_pos n) by lia. rewrite (Z.sgn_pos d) by lia. lia.
Qed.

(** [int(a / b)] is the exact quotient truncated towards zero as long as
    [a] is below [2^53] in magnitude. *)
Lemma int_truediv_exact (a b : Z) :
  Z.abs a < 2 ^ 53 -> b <> 0 ->
  Py.int_truediv a b = Py.Return (Z.quot a b).
Proof.
  intros Ha Hb.
  assert (Hpos : forall n d, 0 <= n < 2 ^ 53 -> 0 < d ->
            forall a b, Z.abs a = n -> Z.abs b = d ->
            Py.int_truediv a b
            = Py.Return (Z.sgn a * Z.sgn b * (n / d))).
  { intros n d Hn Hd a' b' Ea Eb.
    pose proof (int_truediv_nonneg n d Hn Hd) as H.
    unfold Py.int_truediv in *.
    rewrite (proj2 (Z.eqb_neq d 0)) in H by lia.
    rewrite (proj2 (Z.eqb_neq b' 0)) by lia.
    rewrite Ea, Eb. rewrite (Z.abs_eq n), (Z.abs_eq d) in H by lia.
    set (P := 2 ^ 1074) in *. set (T := 2 ^ 2098) in *.
    set (V := Py.round_half_even _ _ * _) in *.
    clearbody P T V.
    destruct (T <=? V); [discriminate |].
    injection H as H. f_equal.
    destruct (Z.eq_dec n 0) as [E0 | E0].
    - assert (a' = 0) by lia. subst a'.
      change (Z.sgn 0) with 0. now rewrite !Z.mul_0_l.
    - rewrite (Z.sgn_pos n), (Z.sgn_pos d) in H by lia.
      rewrite !Z.mul_1_l in H. now rewrite H. }
  rewrite (Hpos (Z.abs a) (Z.abs b)) by lia.
  f_equal. rewrite (Z.quot_div a b Hb). reflexivity.
Qed.

End TrueDivision.

(** Evaluated, with the values Python gives on the same arguments. *)
Example int_truediv_examples :
  Py.int_truediv 211 3 = Py.Return 70%Z /\
  Py.int_truediv (-7) 2 = Py.Return (-3)%Z /\
  Py.int_truediv (2 ^ 53 + 1) 1 = Py.Return (2 ^ 53)%Z /\
  Py.int_truediv (2 ^ 54 + 6) 1 = Py.Return (2 ^ 54 + 8)%Z /\
  Py.int_truediv (3 * 2 ^ 53 + 3) 3 = Py.Return (2 ^ 53)%Z /\
  Py.int_truediv 1 (2 ^ 1080) = Py.Return 0%Z /\
  Py.int_truediv (2 ^ 1024) 1 = Py.Raise Py.OverflowError /\
  Py.int_truediv 1 0 = Py.Raise Py.ZeroDivisionError.
Proof. vm_compute. repeat split. Qed.

Lemma deque_append_length {A} (w : nat) (d : list A) (x : A) :
  (length d <= w)%nat -> (length (Py.deque_append w d x) <= w)%nat.
Proof.
  intros Hd. unfold Py.deque_append.
  destruct (Nat.ltb_spec w (length (d ++ [x]))) as [Hlt | Hle]; [| exact Hle].
  rewrite length_app in Hlt. simpl in Hlt.
  destruct d as [| y d]; simpl in *; [lia |].
  rewrite length_app. simpl. lia.
Qed.

Lemma tl_skipn {A} (k : nat) (l : list A) : tl (skipn k l) = skipn (S k) l.
Proof.
  revert k. induction l as [| a l IH]; intros k.
  - destruct k; reflexivity.
  - destruct k as [| k]; [reflexivity |].
    change (tl (skipn k l) = skipn (S k) l). apply IH.
Qed.

Lemma skipn_snoc {A} (k : nat) (l : list A) (x : A) :
  (k <= length l)%nat -> skipn k (l ++ [x]) = skipn k l ++ [x].
Proof.
  intros Hk. rewrite skipn_app.
  replace (k - length l)%nat with 0%nat by lia. reflexivity.
Qed.

(** Appending to a window that holds the last [min n w] items of a history
    yields the last [min (n + 1) w] items of the extended history. *)
Lemma deque_append_last_n {A} (w : nat) (hist : list A) (x : A) :
  Py.deque_append w (last_n (Nat.min (length hist) w) hist) x
  = last_n (Nat.min (length (hist ++ [x])) w) (hist ++ [x]).
Proof.
  unfold Py.deque_append, last_n.
  rewrite (length_app hist [x]). simpl length.
  destruct (Nat.le_gt_cases w (length hist)) as [Hw | Hw].
  - rewrite !Nat.min_r by lia.
    rewrite <- skipn_snoc by lia.
    rewrite length_skipn, length_app. simpl length.
    rewrite (proj2 (Nat.ltb_lt w _)) by lia.
    rewrite tl_skipn. f_equal. lia.
  - rewrite !Nat.min_l by lia.
    rewrite !Nat.sub_diag. simpl skipn.
    rewrite length_app. simpl length.
    rewrite (proj2 (Nat.ltb_ge w _)) by lia.
    reflexivity.
Qed.

Lemma run_updates_snoc (calls : list (R * Z)) (c : R * Z) (s : HeartRateParser.t) :
  HeartRateParser.run_updates (calls ++ [c]) s
  = snd (HeartRateParser.update (fst c) (snd c) (HeartRateParser.run_updates calls s)).
Proof. unfold HeartRateParser.run_updates. rewrite fold_left_app. reflexivity. Qed.

(** The window after any run of updates on a fresh parser: the last
    [min N w] submitted values, oldest first. *)
(** Whatever [update] answers, it has stored the sample and the clock. *)
Lemma update_stores_sample (now : R) (heart_rate : Z) (s : HeartRateParser.t) :
  let s' := snd (HeartRateParser.update now heart_rate s) in
  HeartRateParser.smoothing_window s' = HeartRateParser.smoothing_window s /\
  HeartRateParser.recent_values s'
  = Py.deque_append (HeartRateParser.smoothing_window s)
      (HeartRateParser.recent_values s) heart_rate /\
  HeartRateParser.last_update_time s' = Some now.
Proof.
  unfold HeartRateParser.update.
  destruct (0 <? _)%nat; [destruct (Py.int_truediv _ _) |]; repeat split.
Qed.

(** When the window is not empty after the append and its sum is below
    [2^53] in magnitude, [update] returns and stores the truncated mean. *)
Lemma update_exact (now : R) (heart_rate : Z) (s : HeartRateParser.t) :
  let recent :=
    Py.deque_append (HeartRateParser.smoothing_window s)
      (HeartRateParser.recent_values s) heart_rate in
  (1 <= length recent)%nat ->
  (Z.abs (Py.sum recent) < 2 ^ 53)%Z ->
  HeartRateParser.update now heart_rate s
  = (Py.Return (truncated_mean recent),
     HeartRateParser.mk (HeartRateParser.smoothing_window s) recent
       (Some (truncated_mean recent)) (Some now)).
Proof.
  intros recent Hlen Hsum. unfold HeartRateParser.update. fold recent.
  rewrite (proj2 (Nat.ltb_lt 0 _)) by lia.
  rewrite int_truediv_exact by (try exact Hsum; lia).
  unfold truncated_mean. rewrite <- py_sum_fold_right. reflexivity.
Qed.

Lemma run_updates_window (w : nat) (calls : list (R * Z)) :
  let s := HeartRateParser.run_updates calls (HeartRateParser.init w) in
  HeartRateParser.smoothing_window s = w /\
  HeartRateParser.recent_values s
  = last_n (Nat.min (length calls) w) (map snd calls).
Proof.
  induction calls as [| c calls IH] using rev_ind; simpl.
  - split; reflexivity.
  - rewrite run_updates_snoc. destruct IH as [IHw IHr].
    destruct (update_stores_sample (fst c) (snd c)
                (HeartRateParser.run_updates calls (HeartRateParser.init w)))
      as (Hw & Hr & _).
    rewrite Hw, Hr. split; [exact IHw |].
    rewrite IHw, IHr, map_app. simpl map.
    rewrite <- (length_map snd calls) at 1.
    rewrite deque_append_last_n.
    rewrite !length_app, length_map. reflexivity.
Qed.

Lemma last_n_length {A} (n : nat) (l : list A) :
  length (last_n n l) = Nat.min n (length l).
Proof. unfold last_n. rewrite length_skipn. lia. Qed.

(** C2, as stated, fails: the mean goes through a binary64 float before it
    is truncated.  One call with [2^53 + 1] on a fresh parser leaves that
    value alone in the window, whose truncated integer mean is the value
    itself, while [update] returns, and [get_bpm] reports, [2^53]. *)
Lemma large_sample_mean_is_rounded :
  let big := (2 ^ 53 + 1)%Z in
  let fresh := HeartRateParser.init HeartRateParser.default_window in
  let after := HeartRateParser.run_updates [(0, big)] fresh in
  HeartRateParser.recent_values after = [big] /\
  truncated_mean (last_n (Nat.min 1 5) [big]) = big /\
  fst (HeartRateParser.update 0 big fresh) = Py.Return (2 ^ 53)%Z /\
  HeartRateParser.get_bpm after = Some (2 ^ 53)%Z /\
  HeartRateParser.get_bpm after
  <> Some (truncated_mean (last_n (Nat.min 1 5) [big])).
Proof.
  intros big fresh after.
  assert (Hdiv : Py.int_truediv big 1 = Py.Return (2 ^ 53)%Z)
    by (vm_compute; reflexivity).
  assert (Hupd : HeartRateParser.update 0 big fresh
                 = (Py.Return (2 ^ 53)%Z,
                    HeartRateParser.mk 5 [big] (Some (2 ^ 53)%Z) (Some 0))).
  { unfold HeartRateParser.update, fresh, HeartRateParser.init,
      HeartRateParser.default_window, Py.deque_append.
    cbn [HeartRateParser.smoothing_window HeartRateParser.recent_values
         app length Nat.ltb Nat.leb].
    change (Py.sum [big]) with big. change (Z.of_nat 1) with 1%Z.
    rewrite Hdiv. reflexivity. }
  assert (Hafter : after = HeartRateParser.mk 5 [big] (Some (2 ^ 53)%Z) (Some 0)).
  { unfold after, HeartRateParser.run_updates. cbn [fold_left fst snd].
    now rewrite Hupd. }
  assert (Hmean : truncated_mean (last_n (Nat.min 1 5) [big]) = big)
    by (vm_compute; reflexivity).
  rewrite Hafter, Hupd, Hmean. cbn [fst HeartRateParser.recent_values
    HeartRateParser.get_bpm HeartRateParser.current_bpm].
  repeat split.
  intros H. injection H as H. vm_compute in H. discriminate.
Qed.

(** C2, amended.  After the N-th [update] on a fresh parser (window 5), the
    window is the last [min N 5] submitted values in submission order
    (fixed-capacity FIFO); and when the sum of those values is below [2^53]
    in magnitude, both the value returned by that call and [get_bpm] are
    their integer mean, truncated. *)
Theorem update_current_is_truncated_window_mean
    (calls : list (R * Z)) (now : R) (bpm : Z) :
  let N := length (calls ++ [(now, bpm)]) in
  let submitted := map snd (calls ++ [(now, bpm)]) in
  let window := last_n (Nat.min N 5) submitted in
  let before := HeartRateParser.run_updates calls
                  (HeartRateParser.init HeartRateParser.default_window) in
  let after := HeartRateParser.run_updates (calls ++ [(now, bpm)])
                  (HeartRateParser.init HeartRateParser.default_window) in
  HeartRateParser.recent_values after = window /\
  length (HeartRateParser.recent_values after) = Nat.min N 5 /\
  ((Z.abs (Py.sum window) < 2 ^ 53)%Z ->
   HeartRateParser.get_bpm after = Some (truncated_mean window) /\
   fst (HeartRateParser.update now bpm before)
   = Py.Return (truncated_mean window)).
Proof.
  intros N submitted window before after.
  destruct (run_updates_window HeartRateParser.default_window
              (calls ++ [(now, bpm)])) as [_ Hwin].
  fold after in Hwin. fold N submitted in Hwin.
  change HeartRateParser.default_window with 5%nat in Hwin.
  fold window in Hwin.
  assert (HN : (1 <= N)%nat).
  { unfold N. rewrite length_app. simpl. lia. }
  assert (Hlen : length (HeartRateParser.recent_values after) = Nat.min N 5).
  { rewrite Hwin. unfold window. rewrite last_n_length. unfold submitted, N.
    rewrite length_map. lia. }
  assert (Hupd : after = snd (HeartRateParser.update now bpm before)).
  { unfold after, before. rewrite run_updates_snoc. reflexivity. }
  split; [exact Hwin |]. split; [exact Hlen |].
  intros Hsum.
  destruct (update_stores_sample now bpm before) as (_ & Hrec & _).
  rewrite <- Hupd, Hwin in Hrec.
  pose proof (update_exact now bpm before) as Hex.
  cbv zeta in Hex. rewrite <- Hrec in Hex.
  rewrite Hex in Hupd |- *.
  - rewrite Hupd. split; reflexivity.
  - rewrite <- Hwin, Hlen. lia.
  - exact Hsum.
  - rewrite <- Hwin, Hlen. lia.
  - exact Hsum.
Qed.

Lemma update_current_is_truncated_window_mean_witness :
  HeartRateParser.get_bpm
    (HeartRateParser.run_updates ([(0, 60%Z); (1, 71%Z)] ++ [(2, 80%Z)])
       (HeartRateParser.init HeartRateParser.default_window))
  = Some 70%Z.
Proof.
  refine (proj1 (proj2 (proj2
            (update_current_is_truncated_window_mean
               [(0, 60%Z); (1, 71%Z)] 2 80%Z)) _)).
  vm_compute. reflexivity.
Defined.

Example update_window_example :
  let s := HeartRateParser.run_updates
             [(0, 60%Z); (1, 70%Z); (2, 80%Z); (3, 90%Z); (4, 100%Z); (5, 111%Z)]
             (HeartRateParser.init 5) in
  HeartRateParser.recent_values s = [70%Z; 80%Z; 90%Z; 100%Z; 111%Z] /\
  HeartRateParser.get_bpm s = Some 90%Z.
Proof. split; reflexivity. Qed.

Example update_truncates_example :
  fst (HeartRateParser.update 1 62%Z
         (snd (HeartRateParser.update 0 61%Z (HeartRateParser.init 5))))
  = Py.Return 61%Z /\
  fst (HeartRateParser.update 1 (-2)%Z
         (snd (HeartRateParser.update 0 (-5)%Z (HeartRateParser.init 5))))
  = Py.Return (-3)%Z.
Proof. split; reflexivity. Qed.

(** A sample too large for a float: [update] raises [OverflowError] after
    it has stored the sample and the clock, and [get_bpm] still has no
    value. *)
Example update_overflow_example :
  HeartRateParser.update 7 (2 ^ 1024)%Z (HeartRateParser.init 5)
  = (Py.Raise Py.OverflowError,
     HeartRateParser.mk 5 [(2 ^ 1024)%Z] None (Some 7)).
Proof.
  assert (Hdiv : Py.int_truediv (2 ^ 1024) 1 = Py.Raise Py.OverflowError)
    by (vm_compute; reflexivity).
  unfold HeartRateParser.update, HeartRateParser.init, Py.deque_append.
  cbn [HeartRateParser.smoothing_window HeartRateParser.recent_values
       HeartRateParser.current_bpm app length Nat.ltb Nat.leb].
  change (Py.sum [(2 ^ 1024)%Z]) with (2 ^ 1024)%Z.
  change (Z.of_nat 1) with 1%Z.
  rewrite Hdiv. reflexivity.
Qed.

Lemma reset_is_fresh (s : HeartRateParser.t) :
  HeartRateParser.reset s
  = HeartRateParser.init (HeartRateParser.smoothing_window s).
Proof. reflexivity. Qed.

(** ** Beat signal processor: staleness *)

Lemma run_updates_last_update_time
    (calls : list (R * Z)) (now : R) (bpm : Z) (s : HeartRateParser.t) :
  HeartRateParser.last_update_time
    (HeartRateParser.run_updates (calls ++ [(now, bpm)]) s) = Some now.
Proof. rewrite run_updates_snoc. apply update_stores_sample. Qed.

(** C9. [is_stale] is true on a parser that never received a sample (fresh,
    or reset); after a sample at [last], it is true exactly when
    [now - last > timeout]; and with no further update it stays true at
    every later instant. *)
Theorem is_stale_spec (s : HeartRateParser.t) (timeout : R) :
  (forall w now, HeartRateParser.is_stale now timeout (HeartRateParser.init w) = true) /\
  (forall now, HeartRateParser.is_stale now timeout (HeartRateParser.reset s) = true) /\
  (forall calls last bpm now,
     HeartRateParser.is_stale now timeout
       (HeartRateParser.run_updates (calls ++ [(last, bpm)]) s) = true
     <-> now - last > timeout) /\
  (forall now now',
     HeartRateParser.is_stale now timeout s = true -> now <= now' ->
     HeartRateParser.is_stale now' timeout s = true).
Proof.
  repeat split.
  - intros H. unfold HeartRateParser.is_stale in H.
    rewrite run_updates_last_update_time in H. now apply py_gtb_true.
  - intros H. unfold HeartRateParser.is_stale.
    rewrite run_updates_last_update_time. now apply py_gtb_true.
  - intros now now' Hs Hle. unfold HeartRateParser.is_stale in *.
    destruct (HeartRateParser.last_update_time s) as [last |]; [| reflexivity].
    apply py_gtb_true in Hs. apply py_gtb_true. lra.
Qed.

(** ** Anchor tracker: missing shoulders *)

Lemma extract_landmark_3d_absent (lms : ChestTracker.Landmarks) (i : nat) :
  ChestTracker.absent lms i -> ChestTracker.extract_landmark_3d lms i = None.
Proof.
  unfold ChestTracker.absent, ChestTracker.extract_landmark_3d.
  destruct (nth_error lms i) as [l |]; [| reflexivity].
  intros H. apply py_ltb_true in H. now rewrite H.
Qed.

Lemma extract_landmark_2d_absent (lms : ChestTracker.Landmarks) (i : nat) :
  ChestTracker.absent lms i -> ChestTracker.extract_landmark_2d lms i = None.
Proof.
  unfold ChestTracker.absent, ChestTracker.extract_landmark_2d.
  destruct (nth_error lms i) as [l |]; [| reflexivity].
  intros H. apply py_ltb_true in H. now rewrite H.
Qed.

Lemma py_ltb_false (a b : R) : Py.ltb a b = false <-> b <= a.
Proof.
  unfold Py.ltb. destruct (Rlt_dec a b); split; intros; try easy; lra.
Qed.

Lemma extract_landmark_2d_visible (lms : ChestTracker.Landmarks) (i : nat) l :
  nth_error lms i = Some l -> 0.5 <= ChestTracker.visibility l ->
  ChestTracker.extract_landmark_2d lms i
  = Some (Np.V2 (ChestTracker.x l) (ChestTracker.y l)).
Proof.
  intros Hn Hv. unfold ChestTracker.extract_landmark_2d. rewrite Hn.
  apply py_ltb_false in Hv. now rewrite Hv.
Qed.

Lemma extract_landmark_2d_some (lms : ChestTracker.Landmarks) (i : nat) v :
  ChestTracker.extract_landmark_2d lms i = Some v -> ChestTracker.visible lms i.
Proof.
  unfold ChestTracker.extract_landmark_2d, ChestTracker.visible.
  destruct (nth_error lms i) as [l |]; [| discriminate].
  destruct (Py.ltb (ChestTracker.visibility l) 0.5) eqn:E; [discriminate |].
  intros _. exists l. split; [reflexivity |]. now apply py_ltb_false.
Qed.

(** C4. When a shoulder landmark is absent (out of range, or visibility
    below 0.5), [track_chest] returns the stored (position, rotation) pair
    and leaves the tracker as it was; on a fresh tracker that pair is
    (None, None).  [get_chest_position_2d] returns None in that case, also
    leaving the tracker as it was. *)
Theorem missing_shoulder_holds_last_known
    (svd : Np.mat3 -> Np.mat3 * Np.vec3 * Np.mat3)
    (lms : ChestTracker.Landmarks) (self : ChestTracker.t) (w h : Z)
    (Habsent : ChestTracker.absent lms ChestTracker.LEFT_SHOULDER \/
               ChestTracker.absent lms ChestTracker.RIGHT_SHOULDER) :
  ChestTracker.track_chest svd lms self
  = ((ChestTracker.last_position self, ChestTracker.last_rotation self), self) /\
  (forall sf, ChestTracker.track_chest svd lms (ChestTracker.init sf)
              = ((None, None), ChestTracker.init sf)) /\
  ChestTracker.get_chest_position_2d lms w h self = (None, self) /\
  (forall sf, fst (ChestTracker.get_transform_matrix svd lms (ChestTracker.init sf))
              = None).
Proof.
  assert (H3 : ChestTracker.extract_landmark_3d lms ChestTracker.LEFT_SHOULDER = None \/
               ChestTracker.extract_landmark_3d lms ChestTracker.RIGHT_SHOULDER = None).
  { destruct Habsent as [H | H]; [left | right];
      now apply extract_landmark_3d_absent. }
  assert (H2 : ChestTracker.extract_landmark_2d lms ChestTracker.LEFT_SHOULDER = None \/
               ChestTracker.extract_landmark_2d lms ChestTracker.RIGHT_SHOULDER = None).
  { destruct Habsent as [H | H]; [left | right];
      now apply extract_landmark_2d_absent. }
  assert (Htrack : forall s, ChestTracker.track_chest svd lms s
            = ((ChestTracker.last_position s, ChestTracker.last_rotation s), s)).
  { intros s. unfold ChestTracker.track_chest.
    destruct H3 as [E | E]; rewrite E;
      [| destruct (ChestTracker.extract_landmark_3d lms ChestTracker.LEFT_SHOULDER)];
      reflexivity. }
  repeat split.
  - apply Htrack.
  - intros sf. apply Htrack.
  - unfold ChestTracker.get_chest_position_2d.
    destruct H2 as [E | E]; rewrite E;
      [| destruct (ChestTracker.extract_landmark_2d lms ChestTracker.LEFT_SHOULDER)];
      reflexivity.
  - intros sf. unfold ChestTracker.get_transform_matrix.
    rewrite Htrack. reflexivity.
Qed.

Lemma missing_shoulder_holds_last_known_witness :
  ChestTracker.track_chest svd_of_identity low_visibility_pose (ChestTracker.init 0.7)
  = ((None, None), ChestTracker.init 0.7).
Proof.
  refine (proj1 (missing_shoulder_holds_last_known svd_of_identity low_visibility_pose
                   (ChestTracker.init 0.7) 1000 1000 _)).
  left. unfold ChestTracker.absent. simpl. lra.
Defined.

(** ** Anchor tracker: the 2D path *)

Lemma get_chest_position_2d_some lms w h self p self' :
  ChestTracker.get_chest_position_2d lms w h self = (Some p, self') ->
  ChestTracker.visible lms ChestTracker.LEFT_SHOULDER /\
  ChestTracker.visible lms ChestTracker.RIGHT_SHOULDER.
Proof.
  unfold ChestTracker.get_chest_position_2d.
  destruct (ChestTracker.extract_landmark_2d lms ChestTracker.LEFT_SHOULDER)
    as [l |] eqn:El; [| discriminate].
  destruct (ChestTracker.extract_landmark_2d lms ChestTracker.RIGHT_SHOULDER)
    as [r |] eqn:Er; [| discriminate].
  intros _. split; eapply extract_landmark_2d_some; eassumption.
Qed.

Lemma get_chest_position_2d_visible lms w h self :
  ChestTracker.visible lms ChestTracker.LEFT_SHOULDER ->
  ChestTracker.visible lms ChestTracker.RIGHT_SHOULDER ->
  exists p, fst (ChestTracker.get_chest_position_2d lms w h self) = Some p.
Proof.
  intros (l & Hl & Hvl) (r & Hr & Hvr).
  unfold ChestTracker.get_chest_position_2d.
  rewrite (extract_landmark_2d_visible _ _ _ Hl Hvl).
  rewrite (extract_landmark_2d_visible _ _ _ Hr Hvr).
  eexists. reflexivity.
Qed.

Lemma create_transform_matrix_centered :
  MathUtils.create_transform_matrix (Np.V3 0.0 0.0 (-1.0)) Np.eye3 Config.HEART_SCALE
  = centered_transform.
Proof.
  unfold MathUtils.create_transform_matrix, centered_transform, Config.HEART_SCALE.
  unfold Np.set_column3, Np.set_block33, Np.mscale, Np.scale3, Np.eye3, Np.eye4.
  simpl. repeat f_equal; lra.
Qed.

(** C3. Whenever [get_transform_matrix_2d] returns a matrix, it is the
    constant [centered_transform]: translation (0, 0, -1), upper block the
    identity scaled by [Config.HEART_SCALE]; neither the landmarks nor the
    frame size nor the stored anchor enter it.  It does return that matrix
    whenever both shoulders are visible and the frame height is not 0, and
    it only returns a matrix when both shoulders are visible. *)
Theorem transform_2d_ignores_anchor
    (lms : ChestTracker.Landmarks) (w h : Z) (self : ChestTracker.t) :
  (forall M self',
     ChestTracker.get_transform_matrix_2d lms w h self
     = (ChestTracker.Return (Some M), self') ->
     M = centered_transform /\
     Np.column3 M = Np.V3 0 0 (-1) /\
     Np.block33 M = Np.mscale Config.HEART_SCALE Np.eye3 /\
     ChestTracker.visible lms ChestTracker.LEFT_SHOULDER /\
     ChestTracker.visible lms ChestTracker.RIGHT_SHOULDER) /\
  (ChestTracker.visible lms ChestTracker.LEFT_SHOULDER ->
   ChestTracker.visible lms ChestTracker.RIGHT_SHOULDER ->
   h <> 0%Z ->
   fst (ChestTracker.get_transform_matrix_2d lms w h self)
   = ChestTracker.Return (Some centered_transform)).
Proof.
  split.
  - intros M self' Hret. unfold ChestTracker.get_transform_matrix_2d in Hret.
    destruct (ChestTracker.get_chest_position_2d lms w h self)
      as [[p |] s1] eqn:E2; [| discriminate].
    destruct (h =? 0)%Z; [discriminate |].
    injection Hret as HM Hs. rewrite create_transform_matrix_centered in HM.
    subst M. apply get_chest_position_2d_some in E2.
    split; [reflexivity |]. split; [reflexivity |].
    split; [| exact E2].
    unfold centered_transform, Np.block33, Np.mscale, Np.scale3, Np.eye3,
      Config.HEART_SCALE.
    simpl. repeat f_equal; lra.
  - intros Hl Hr Hh.
    destruct (get_chest_position_2d_visible lms w h self Hl Hr) as [p Hp].
    unfold ChestTracker.get_transform_matrix_2d.
    destruct (ChestTracker.get_chest_position_2d lms w h self) as [q s1].
    simpl in Hp. subst q.
    rewrite (proj2 (Z.eqb_neq h 0) Hh).
    rewrite create_transform_matrix_centered. reflexivity.
Qed.

Lemma transform_2d_ignores_anchor_witness :
  fst (ChestTracker.get_transform_matrix_2d shoulders_only_pose 1000 1000
         (ChestTracker.init 0.7))
  = ChestTracker.Return (Some centered_transform).
Proof.
  apply (proj2 (transform_2d_ignores_anchor shoulders_only_pose 1000 1000
                  (ChestTracker.init 0.7))).
  - eexists. split; [reflexivity | simpl; lra].
  - eexists. split; [reflexivity | simpl; lra].
  - lia.
Defined.

(** C8. Left shoulder (0.4, 0.3), right shoulder (0.6, 0.3), both visible,
    hips not both visible, frame 1000 x 1000, no stored anchor: the anchor
    returned (and stored) is (530, 360). *)
Theorem anchor_2d_shoulders_only
    (lms : ChestTracker.Landmarks) (self : ChestTracker.t)
    (ls rs : ChestTracker.Landmark)
    (Hls : nth_error lms ChestTracker.LEFT_SHOULDER = Some ls)
    (Hrs : nth_error lms ChestTracker.RIGHT_SHOULDER = Some rs)
    (Hlx : ChestTracker.x ls = 0.4) (Hly : ChestTracker.y ls = 0.3)
    (Hrx : ChestTracker.x rs = 0.6) (Hry : ChestTracker.y rs = 0.3)
    (Hlv : 0.5 <= ChestTracker.visibility ls)
    (Hrv : 0.5 <= ChestTracker.visibility rs)
    (Hhips : ChestTracker.absent lms ChestTracker.LEFT_HIP \/
             ChestTracker.absent lms ChestTracker.RIGHT_HIP)
    (Hfresh : ChestTracker.last_position_2d self = None) :
  fst (ChestTracker.get_chest_position_2d lms 1000 1000 self)
  = Some (Np.V2 530 360) /\
  ChestTracker.last_position_2d
    (snd (ChestTracker.get_chest_position_2d lms 1000 1000 self))
  = Some (Np.V2 530 360).
Proof.
  unfold ChestTracker.get_chest_position_2d.
  rewrite (extract_landmark_2d_visible _ _ _ Hls Hlv).
  rewrite (extract_landmark_2d_visible _ _ _ Hrs Hrv).
  rewrite Hfresh, Hlx, Hly, Hrx, Hry. cbn [Np.x2 Np.y2 Np.add2 Np.div2].
  assert (Hw : Rabs ((0.6 - 0.4) * 1000) = 200).
  { rewrite Rabs_pos_eq; lra. }
  rewrite Hw.
  assert (Hy : forall o : option Np.vec2 * option Np.vec2,
     match o with
     | (Some _, None) | (None, _) => True
     | (Some _, Some _) => False
     end ->
     (match fst o, snd o with
      | Some left_hip_2d, Some right_hip_2d =>
          (0.3 + 0.3) / 2.0 * 1000
          + ((Np.y2 left_hip_2d + Np.y2 right_hip_2d) / 2.0 * 1000
             - (0.3 + 0.3) / 2.0 * 1000) * 0.25
      | _, _ => (0.3 + 0.3) / 2.0 * 1000 + 200 * 0.3
      end) = 360).
  { intros [[a |] [b |]]; simpl; intros H; try contradiction; lra. }
  specialize (Hy (ChestTracker.extract_landmark_2d lms ChestTracker.LEFT_HIP,
                  ChestTracker.extract_landmark_2d lms ChestTracker.RIGHT_HIP)).
  cbn [fst snd] in Hy |- *.
  rewrite Hy.
  - split; simpl; do 2 f_equal; lra.
  - destruct Hhips as [H | H]; apply extract_landmark_2d_absent in H; rewrite H;
      [| destruct (ChestTracker.extract_landmark_2d lms ChestTracker.LEFT_HIP)];
      exact I.
Qed.

(** With a stored anchor the new one is blended in: 70% of (500, 300) and
    30% of (530, 360). *)
Example anchor_2d_smoothing_example :
  fst (ChestTracker.get_chest_position_2d shoulders_only_pose 1000 1000
         (ChestTracker.mk None None (Some (Np.V2 500 300)) 0.7))
  = Some (Np.V2 509 318).
Proof.
  unfold ChestTracker.get_chest_position_2d.
  rewrite (extract_landmark_2d_visible shoulders_only_pose
             ChestTracker.LEFT_SHOULDER _ eq_refl) by (simpl; lra).
  rewrite (extract_landmark_2d_visible shoulders_only_pose
             ChestTracker.RIGHT_SHOULDER _ eq_refl) by (simpl; lra).
  rewrite (extract_landmark_2d_absent shoulders_only_pose ChestTracker.LEFT_HIP)
    by (unfold ChestTracker.absent; simpl; lra).
  cbn [fst ChestTracker.last_position_2d ChestTracker.smoothing_factor
       ChestTracker.x ChestTracker.y Np.x2 Np.y2 Np.add2 Np.div2 Np.scale2].
  replace (Rabs ((0.6 - 0.4) * 1000)) with 200 by (rewrite Rabs_pos_eq; lra).
  unfold Np.add2, Np.scale2. simpl.
  do 2 f_equal; lra.
Qed.

Lemma anchor_2d_shoulders_only_witness :
  fst (ChestTracker.get_chest_position_2d shoulders_only_pose 1000 1000
         (ChestTracker.init 0.7))
  = Some (Np.V2 530 360).
Proof.
  refine (proj1 (anchor_2d_shoulders_only shoulders_only_pose
                   (ChestTracker.init 0.7)
                   (ChestTracker.mkLandmark 0.4 0.3 0 0.9)
                   (ChestTracker.mkLandmark 0.6 0.3 0 0.9)
                   eq_refl eq_refl eq_refl eq_refl eq_refl eq_refl _ _ _ eq_refl)).
  - simpl. lra.
  - simpl. lra.
  - left. unfold ChestTracker.absent. simpl. lra.
Defined.

(** ** Beat animation engine: the two pulse curves *)

Lemma py_leb_true (a b : R) : Py.leb a b = true <-> a <= b.
Proof. unfold Py.leb. destruct (Rle_dec a b); split; intros; try easy. Qed.

Lemma py_leb_false (a b : R) : Py.leb a b = false <-> b < a.
Proof.
  unfold Py.leb. destruct (Rle_dec a b); split; intros; try easy; lra.
Qed.

Lemma event_pulse_rise (A p : R) :
  p < 0.3 -> AnimationController.event_pulse A p = sin (p * PI / 0.3) * A.
Proof.
  intros Hp. unfold AnimationController.event_pulse.
  now rewrite (proj2 (py_ltb_true p 0.3) Hp).
Qed.

Lemma event_pulse_decay (A p : R) :
  0.3 <= p ->
  AnimationController.event_pulse A p = cos ((p - 0.3) / 0.7 * PI / 2) * A.
Proof.
  intros Hp. unfold AnimationController.event_pulse.
  now rewrite (proj2 (py_ltb_false p 0.3) Hp).
Qed.

Lemma event_pulse_at_0 (A : R) : AnimationController.event_pulse A 0 = 0.
Proof.
  rewrite event_pulse_rise by lra.
  replace (0 * PI / 0.3) with 0 by lra. rewrite sin_0. lra.
Qed.

Lemma event_pulse_at_boundary (A : R) : AnimationController.event_pulse A 0.3 = A.
Proof.
  rewrite event_pulse_decay by lra.
  replace ((0.3 - 0.3) / 0.7 * PI / 2) with 0 by lra. rewrite cos_0. lra.
Qed.

(** Just below the boundary the rise curve is back near zero:
    [sin (p pi / 0.3) = sin (pi (0.3 - p) / 0.3) <= pi (0.3 - p) / 0.3]. *)
Lemma rise_sine_small (p : R) :
  0 <= p < 0.3 ->
  0 <= sin (p * PI / 0.3) <= PI * (0.3 - p) / 0.3.
Proof.
  intros [H0 H1]. pose proof PI_RGT_0 as Hpi.
  replace (p * PI / 0.3) with (PI - PI * (0.3 - p) / 0.3) by lra.
  rewrite sin_PI_x.
  assert (Hx : 0 < PI * (0.3 - p) / 0.3) by nra.
  assert (Hx' : PI * (0.3 - p) / 0.3 <= PI) by nra.
  split.
  - apply sin_ge_0; lra.
  - left. now apply sin_lt_x.
Qed.

Lemma event_pulse_range (A p : R) :
  0 <= A -> 0 <= p <= 1 -> 0 <= AnimationController.event_pulse A p <= A.
Proof.
  intros HA [H0 H1]. pose proof PI_RGT_0 as Hpi.
  destruct (Rlt_le_dec p 0.3) as [Hlt | Hge].
  - rewrite event_pulse_rise by assumption.
    assert (Hs : 0 <= sin (p * PI / 0.3)) by (apply sin_ge_0; nra).
    pose proof (SIN_bound (p * PI / 0.3)) as [_ Hs1]. nra.
  - rewrite event_pulse_decay by assumption.
    assert (Hc : 0 <= cos ((p - 0.3) / 0.7 * PI / 2)) by (apply cos_ge_0; nra).
    pose proof (COS_bound ((p - 0.3) / 0.7 * PI / 2)) as [_ Hc1]. nra.
Qed.

Lemma event_pulse_positive (A p : R) :
  0 < A -> 0 < p < 1 -> 0 < AnimationController.event_pulse A p.
Proof.
  intros HA [H0 H1]. pose proof PI_RGT_0 as Hpi.
  destruct (Rlt_le_dec p 0.3) as [Hlt | Hge].
  - rewrite event_pulse_rise by assumption.
    assert (Hs : 0 < sin (p * PI / 0.3)) by (apply sin_gt_0; nra). nra.
  - rewrite event_pulse_decay by assumption.
    assert (Hc : 0 < cos ((p - 0.3) / 0.7 * PI / 2)) by (apply cos_gt_0; nra).
    nra.
Qed.

(** Away from the instants after the pulse start, the rise curve only obeys
    the bound of the sine. *)
Lemma event_pulse_abs_bound (A p : R) :
  0 <= A -> p <= 1 -> - A <= AnimationController.event_pulse A p <= A.
Proof.
  intros HA H1. pose proof PI_RGT_0 as Hpi.
  destruct (Rlt_le_dec p 0.3) as [Hlt | Hge].
  - rewrite event_pulse_rise by assumption.
    pose proof (SIN_bound (p * PI / 0.3)) as [Hs0 Hs1]. nra.
  - rewrite event_pulse_decay by assumption.
    pose proof (COS_bound ((p - 0.3) / 0.7 * PI / 2)) as [Hc0 Hc1]. nra.
Qed.

Lemma py_fmod_range (x y : R) : 0 < y -> 0 <= Py.fmod x y < y.
Proof.
  intros Hy. unfold Py.fmod.
  destruct (Zfloor_bound (x / y)) as [Hlo Hhi].
  assert (Hx : x = x / y * y) by (field; lra).
  split; nra.
Qed.

Lemma beat_phase_range (bpm elapsed : R) :
  0 < bpm -> 0 <= AnimationController.beat_phase bpm elapsed < 2 * PI.
Proof.
  intros Hb. unfold AnimationController.beat_phase.
  pose proof PI_RGT_0 as Hpi.
  assert (Hi : 0 < 60.0 / bpm) by (apply Rdiv_lt_0_compat; lra).
  destruct (py_fmod_range elapsed (60.0 / bpm) Hi) as [Hlo Hhi].
  set (r := Py.fmod elapsed (60.0 / bpm)) in *.
  set (b := 60.0 / bpm) in *.
  assert (Hq0 : 0 <= r / b) by (apply Rle_mult_inv_pos; lra).
  assert (Hq1 : r / b < 1).
  { apply (Rmult_lt_reg_r b); [lra |].
    replace (r / b * b) with r by (field; lra). lra. }
  split; nra.
Qed.

Lemma periodic_pulse_range (A phase : R) :
  0 <= A -> 0 <= phase < 2 * PI ->
  - (A / 2) <= AnimationController.periodic_pulse A phase <= A.
Proof.
  intros HA [H0 H1]. unfold AnimationController.periodic_pulse.
  pose proof (SIN_bound phase) as [Hs0 Hs1].
  destruct (Py.ltb phase PI) eqn:E.
  - apply py_ltb_true in E.
    assert (Hs : 0 <= sin phase) by (apply sin_ge_0; lra). nra.
  - apply py_ltb_false in E.
    assert (Hs : sin phase <= 0) by (apply sin_le_0; lra). nra.
Qed.

(** ** Beat animation engine: the query *)

Lemma get_beat_scale_event clock ct s start :
  AnimationController.heartbeat_pulse_start s = Some start ->
  AnimationController.query_instant clock ct - start
    < AnimationController.pulse_duration s ->
  AnimationController.get_beat_scale clock ct s
  = (let scale :=
       1.0 + AnimationController.event_pulse Config.HEART_BEAT_SCALE_AMPLITUDE
               ((AnimationController.query_instant clock ct - start)
                / AnimationController.pulse_duration s) in
     (scale, AnimationController.set_beat_scale scale s)).
Proof.
  intros Hs Hlt. unfold AnimationController.get_beat_scale. rewrite Hs.
  now rewrite (proj2 (py_ltb_true _ _) Hlt).
Qed.

Lemma get_beat_scale_expired clock ct s start :
  AnimationController.heartbeat_pulse_start s = Some start ->
  AnimationController.pulse_duration s
    <= AnimationController.query_instant clock ct - start ->
  AnimationController.get_beat_scale clock ct s
  = AnimationController.bpm_fallback (AnimationController.query_instant clock ct)
      (AnimationController.set_heartbeat_pulse_start None s).
Proof.
  intros Hs Hge. unfold AnimationController.get_beat_scale. rewrite Hs.
  now rewrite (proj2 (py_ltb_false _ _) Hge).
Qed.

Lemma get_beat_scale_no_pulse clock ct s :
  AnimationController.heartbeat_pulse_start s = None ->
  AnimationController.get_beat_scale clock ct s
  = AnimationController.bpm_fallback (AnimationController.query_instant clock ct) s.
Proof.
  intros Hs. unfold AnimationController.get_beat_scale. now rewrite Hs.
Qed.

(** A query that does not take the event branch is the BPM fallback on the
    controller with the pulse start cleared. *)
Lemma get_beat_scale_inactive clock ct s :
  AnimationController.pulse_active (AnimationController.query_instant clock ct) s
    = false ->
  AnimationController.get_beat_scale clock ct s
  = AnimationController.bpm_fallback (AnimationController.query_instant clock ct)
      (AnimationController.set_heartbeat_pulse_start None s).
Proof.
  unfold AnimationController.pulse_active. intros H.
  destruct (AnimationController.heartbeat_pulse_start s) as [start |] eqn:Hs.
  - apply py_ltb_false in H. now apply get_beat_scale_expired with start.
  - rewrite get_beat_scale_no_pulse by assumption.
    destruct s; simpl in *; subst; reflexivity.
Qed.

Lemma amplitude_value : Config.HEART_BEAT_SCALE_AMPLITUDE = 0.3.
Proof. reflexivity. Qed.

Lemma bpm_fallback_range (t : R) (s : AnimationController.t) :
  1 - Config.HEART_BEAT_SCALE_AMPLITUDE / 2
  <= fst (AnimationController.bpm_fallback t s)
  <= 1 + Config.HEART_BEAT_SCALE_AMPLITUDE.
Proof.
  unfold AnimationController.bpm_fallback.
  destruct (AnimationController.current_bpm (AnimationController.smooth_bpm s))
    as [bpm |].
  - destruct (Py.leb bpm 0) eqn:E.
    + simpl. rewrite amplitude_value. lra.
    + apply py_leb_false in E. cbn [fst].
      pose proof (periodic_pulse_range Config.HEART_BEAT_SCALE_AMPLITUDE
                    (AnimationController.beat_phase bpm
                       (t - AnimationController.start_time
                              (AnimationController.smooth_bpm s)))) as H.
      rewrite amplitude_value in *.
      specialize (H ltac:(lra) (beat_phase_range _ _ E)). lra.
  - simpl. rewrite amplitude_value. lra.
Qed.

Lemma smooth_bpm_fields (s : AnimationController.t) :
  let s' := AnimationController.smooth_bpm s in
  AnimationController.start_time s' = AnimationController.start_time s /\
  AnimationController.target_bpm s' = AnimationController.target_bpm s /\
  AnimationController.heartbeat_pulse_start s'
    = AnimationController.heartbeat_pulse_start s /\
  AnimationController.pulse_duration s' = AnimationController.pulse_duration s.
Proof.
  unfold AnimationController.smooth_bpm.
  destruct (AnimationController.target_bpm s) eqn:Et;
    [destruct (AnimationController.current_bpm s) |]; simpl; auto.
Qed.

Lemma bpm_fallback_fields (t : R) (s : AnimationController.t) :
  let s' := snd (AnimationController.bpm_fallback t s) in
  AnimationController.start_time s' = AnimationController.start_time s /\
  AnimationController.target_bpm s' = AnimationController.target_bpm s /\
  AnimationController.heartbeat_pulse_start s'
    = AnimationController.heartbeat_pulse_start s /\
  AnimationController.pulse_duration s' = AnimationController.pulse_duration s.
Proof.
  pose proof (smooth_bpm_fields s) as H. cbv zeta in H |- *.
  unfold AnimationController.bpm_fallback.
  destruct (AnimationController.current_bpm (AnimationController.smooth_bpm s))
    as [bpm |]; [destruct (Py.leb bpm 0) |]; simpl; exact H.
Qed.

(** With no target the smoothing step does nothing. *)
Lemma smooth_bpm_no_target (s : AnimationController.t) :
  AnimationController.target_bpm s = None -> AnimationController.smooth_bpm s = s.
Proof.
  intros H. unfold AnimationController.smooth_bpm. now rewrite H.
Qed.

Lemma bpm_fallback_no_target (t : R) (s : AnimationController.t) :
  AnimationController.target_bpm s = None ->
  AnimationController.current_bpm (snd (AnimationController.bpm_fallback t s))
  = AnimationController.current_bpm s.
Proof.
  intros H. unfold AnimationController.bpm_fallback.
  rewrite (smooth_bpm_no_target s H).
  destruct (AnimationController.current_bpm s) as [bpm |] eqn:E;
    [destruct (Py.leb bpm 0) |]; simpl; congruence.
Qed.

(** C1. The event-pulse scale is 1.0 at progress 0.  At progress 0.3 it is
    [1.0 + amplitude], while just below 0.3 the rise curve has come back to
    within [|amplitude| * pi * (0.3 - p) / 0.3] of 1.0: for every nonzero
    amplitude the scale is not continuous at the boundary. *)
Theorem event_pulse_jumps_at_boundary (amplitude : R) (Hamp : amplitude <> 0) :
  1.0 + AnimationController.event_pulse amplitude 0 = 1.0 /\
  1.0 + AnimationController.event_pulse amplitude 0.3 = 1.0 + amplitude /\
  (forall p, 0 <= p < 0.3 ->
     Rabs (1.0 + AnimationController.event_pulse amplitude p - 1.0)
     <= Rabs amplitude * (PI * (0.3 - p) / 0.3)) /\
  ~ continuity_pt
      (fun progress => 1.0 + AnimationController.event_pulse amplitude progress)
      0.3.
Proof.
  assert (Hnear : forall p, 0 <= p < 0.3 ->
     Rabs (1.0 + AnimationController.event_pulse amplitude p - 1.0)
     <= Rabs amplitude * (PI * (0.3 - p) / 0.3)).
  { intros p Hp. rewrite event_pulse_rise by lra.
    destruct (rise_sine_small p Hp) as [Hs0 Hs1].
    replace (1.0 + sin (p * PI / 0.3) * amplitude - 1.0)
      with (amplitude * sin (p * PI / 0.3)) by lra.
    rewrite Rabs_mult, (Rabs_pos_eq (sin _)) by assumption.
    apply Rmult_le_compat_l; [apply Rabs_pos | assumption]. }
  split; [rewrite event_pulse_at_0; lra |].
  split; [rewrite event_pulse_at_boundary; lra |].
  split; [exact Hnear |].
  intros Hcont.
  assert (Habs : 0 < Rabs amplitude) by now apply Rabs_pos_lt.
  destruct (Hcont (Rabs amplitude / 2) ltac:(lra)) as (alp & Halp & Hlim).
  set (d := Rmin (alp / 2) 0.01).
  assert (Hd0 : 0 < d) by (unfold d; apply Rmin_glb_lt; lra).
  assert (Hd1 : d <= alp / 2) by apply Rmin_l.
  assert (Hd2 : d <= 0.01) by apply Rmin_r.
  specialize (Hlim (0.3 - d)).
  assert (Hpre : D_x no_cond 0.3 (0.3 - d) /\ Rdist (0.3 - d) 0.3 < alp).
  { split.
    - split; [exact I | lra].
    - unfold Rdist. replace (0.3 - d - 0.3) with (- d) by lra.
      rewrite Rabs_Ropp, Rabs_pos_eq; lra. }
  specialize (Hlim Hpre). simpl in Hlim. unfold Rdist in Hlim.
  rewrite event_pulse_at_boundary in Hlim.
  specialize (Hnear (0.3 - d) ltac:(lra)).
  replace (0.3 - (0.3 - d)) with d in Hnear by lra.
  pose proof PI_4 as Hpi4. pose proof PI_RGT_0 as Hpi0.
  assert (Hsmall : Rabs amplitude * (PI * d / 0.3) <= Rabs amplitude * 0.14).
  { apply Rmult_le_compat_l; [lra |]. nra. }
  set (e := AnimationController.event_pulse amplitude (0.3 - d)) in *.
  replace (1.0 + e - 1.0) with e in Hnear by lra.
  replace (1.0 + e - (1.0 + amplitude)) with (e - amplitude) in Hlim by lra.
  pose proof (Rabs_triang_inv amplitude e) as Htri.
  rewrite (Rabs_minus_sym amplitude e) in Htri. lra.
Qed.

Lemma event_pulse_jumps_at_boundary_witness :
  ~ continuity_pt
      (fun progress =>
         1.0 + AnimationController.event_pulse Config.HEART_BEAT_SCALE_AMPLITUDE
                 progress)
      0.3.
Proof.
  refine (proj2 (proj2 (proj2
    (event_pulse_jumps_at_boundary Config.HEART_BEAT_SCALE_AMPLITUDE _)))).
  unfold Config.HEART_BEAT_SCALE_AMPLITUDE. lra.
Defined.

(** The jump seen through the controller: a heartbeat is triggered at the
    instant 100; the query at 100.087 (progress 0.29) returns less than 1.05,
    the query at 100.09 (progress 0.3) returns 1.3. *)
Example get_beat_scale_around_boundary :
  fst (AnimationController.get_beat_scale 100.087 None just_triggered) < 1.05 /\
  fst (AnimationController.get_beat_scale 100.09 None just_triggered) = 1.3.
Proof.
  unfold just_triggered. split.
  - erewrite get_beat_scale_event; [| reflexivity | simpl; lra].
    cbn [fst AnimationController.query_instant AnimationController.pulse_duration
         AnimationController.trigger_heartbeat AnimationController.update_bpm
         AnimationController.init].
    replace ((100.087 - 100) / 0.3) with 0.29 by lra.
    rewrite event_pulse_rise, amplitude_value by lra.
    destruct (rise_sine_small 0.29 ltac:(lra)) as [_ Hs].
    pose proof PI_4. lra.
  - erewrite get_beat_scale_event; [| reflexivity | simpl; lra].
    cbn [fst AnimationController.query_instant AnimationController.pulse_duration
         AnimationController.trigger_heartbeat AnimationController.update_bpm
         AnimationController.init].
    replace ((100.09 - 100) / 0.3) with 0.3 by lra.
    rewrite event_pulse_at_boundary, amplitude_value. lra.
Qed.

(** C7, as stated, fails: the query at the very instant of the trigger
    returns exactly 1.0, which is not above 1.0. *)
Lemma query_at_trigger_instant_not_above_one :
  ~ (fst (AnimationController.get_beat_scale 100 None just_triggered) > 1.0).
Proof.
  unfold just_triggered.
  erewrite get_beat_scale_event; [| reflexivity | simpl; lra].
  cbn [fst AnimationController.query_instant AnimationController.pulse_duration
       AnimationController.trigger_heartbeat AnimationController.update_bpm
       AnimationController.init].
  replace ((100 - 100) / 0.3) with 0 by lra.
  rewrite event_pulse_at_0. lra.
Qed.

(** The value of the BPM fallback only reads the epoch, the two BPM fields
    and the smoothing coefficient. *)
Lemma bpm_fallback_value_reads (t : R) (s1 s2 : AnimationController.t) :
  AnimationController.start_time s1 = AnimationController.start_time s2 ->
  AnimationController.current_bpm s1 = AnimationController.current_bpm s2 ->
  AnimationController.target_bpm s1 = AnimationController.target_bpm s2 ->
  AnimationController.animation_smoothing s1
    = AnimationController.animation_smoothing s2 ->
  fst (AnimationController.bpm_fallback t s1)
  = fst (AnimationController.bpm_fallback t s2).
Proof.
  destruct s1, s2. simpl. intros -> -> -> ->.
  unfold AnimationController.bpm_fallback, AnimationController.smooth_bpm.
  simpl.
  destruct target_bpm0 as [target |]; [destruct current_bpm0 as [cur |] |];
    simpl.
  - destruct (Py.leb _ 0); reflexivity.
  - destruct (Py.leb _ 0); reflexivity.
  - destruct current_bpm0 as [cur |]; [destruct (Py.leb _ 0) |]; reflexivity.
Qed.

(** C7, amended.  After [trigger_heartbeat], the query at the instant of the
    pulse start returns exactly 1.0; every query strictly inside the pulse
    window returns more than 1.0; every query once [pulse_duration] has
    elapsed clears the pulse start and returns the value of the BPM
    fallback, the one the controller would give without the heartbeat. *)
Theorem trigger_then_query
    (s : AnimationController.t) (now1 now2 : R)
    (Hdur : 0 < AnimationController.pulse_duration s) :
  let s' := AnimationController.trigger_heartbeat now1 now2 s in
  fst (AnimationController.get_beat_scale now2 None s') = 1.0 /\
  (forall clock ct,
     now2 < AnimationController.query_instant clock ct
          < now2 + AnimationController.pulse_duration s ->
     fst (AnimationController.get_beat_scale clock ct s') > 1.0) /\
  (forall clock ct,
     now2 + AnimationController.pulse_duration s
       <= AnimationController.query_instant clock ct ->
     AnimationController.get_beat_scale clock ct s'
     = AnimationController.bpm_fallback
         (AnimationController.query_instant clock ct)
         (AnimationController.set_heartbeat_pulse_start None s') /\
     fst (AnimationController.get_beat_scale clock ct s')
     = fst (AnimationController.bpm_fallback
              (AnimationController.query_instant clock ct) s) /\
     AnimationController.heartbeat_pulse_start
       (snd (AnimationController.get_beat_scale clock ct s')) = None).
Proof.
  intros s'.
  assert (Hstart : AnimationController.heartbeat_pulse_start s' = Some now2)
    by reflexivity.
  assert (Hd : AnimationController.pulse_duration s'
               = AnimationController.pulse_duration s) by reflexivity.
  split; [| split].
  - rewrite (get_beat_scale_event _ _ _ _ Hstart) by (simpl; lra).
    cbn [fst AnimationController.query_instant]. rewrite Hd.
    replace ((now2 - now2) / AnimationController.pulse_duration s) with 0
      by (field; lra).
    rewrite event_pulse_at_0. lra.
  - intros clock ct [Hlo Hhi].
    rewrite (get_beat_scale_event _ _ _ _ Hstart) by (rewrite Hd; lra).
    cbn [fst]. rewrite Hd.
    set (t := AnimationController.query_instant clock ct) in *.
    set (d := AnimationController.pulse_duration s) in *.
    assert (Hp0 : 0 < (t - now2) / d) by (apply Rdiv_lt_0_compat; lra).
    assert (Hp1 : (t - now2) / d < 1).
    { apply (Rmult_lt_reg_r d); [lra |].
      replace ((t - now2) / d * d) with (t - now2) by (field; lra). lra. }
    pose proof (event_pulse_positive Config.HEART_BEAT_SCALE_AMPLITUDE
                  ((t - now2) / d)) as Hpos.
    rewrite amplitude_value in *. specialize (Hpos ltac:(lra) (conj Hp0 Hp1)).
    lra.
  - intros clock ct Hge.
    assert (Hexp : AnimationController.get_beat_scale clock ct s'
              = AnimationController.bpm_fallback
                  (AnimationController.query_instant clock ct)
                  (AnimationController.set_heartbeat_pulse_start None s')).
    { apply get_beat_scale_expired with now2; [exact Hstart | rewrite Hd; lra]. }
    split; [exact Hexp |]. rewrite Hexp. split.
    + apply bpm_fallback_value_reads; reflexivity.
    + destruct (bpm_fallback_fields
                  (AnimationController.query_instant clock ct)
                  (AnimationController.set_heartbeat_pulse_start None s'))
        as (_ & _ & Hps & _).
      rewrite Hps. reflexivity.
Qed.

Lemma trigger_then_query_witness :
  fst (AnimationController.get_beat_scale 100 None just_triggered) = 1.0.
Proof.
  refine (proj1 (trigger_then_query
                   (AnimationController.update_bpm (Some 72%Z)
                      (AnimationController.init 0)) 100 100 _)).
  simpl. lra.
Defined.

(** ** Beat animation engine: absent target *)

Lemma get_beat_scale_fields clock ct (s : AnimationController.t) :
  let s' := snd (AnimationController.get_beat_scale clock ct s) in
  AnimationController.start_time s' = AnimationController.start_time s /\
  AnimationController.target_bpm s' = AnimationController.target_bpm s /\
  AnimationController.pulse_duration s' = AnimationController.pulse_duration s /\
  (forall p, AnimationController.heartbeat_pulse_start s' = Some p ->
             AnimationController.heartbeat_pulse_start s = Some p).
Proof.
  cbv zeta. unfold AnimationController.get_beat_scale.
  destruct (AnimationController.heartbeat_pulse_start s) as [start |] eqn:Hs.
  - destruct (Py.ltb _ _).
    + simpl. rewrite Hs. auto.
    + destruct (bpm_fallback_fields (AnimationController.query_instant clock ct)
                  (AnimationController.set_heartbeat_pulse_start None s))
        as (H1 & H2 & H3 & H4).
      rewrite H1, H2, H3, H4. simpl. repeat split; auto. discriminate.
  - destruct (bpm_fallback_fields (AnimationController.query_instant clock ct) s)
      as (H1 & H2 & H3 & H4).
    rewrite H1, H2, H3, H4, Hs. repeat split; auto.
Qed.

Lemma get_beat_scale_no_target clock ct (s : AnimationController.t) :
  AnimationController.target_bpm s = None ->
  AnimationController.current_bpm
    (snd (AnimationController.get_beat_scale clock ct s))
  = AnimationController.current_bpm s.
Proof.
  intros Ht. unfold AnimationController.get_beat_scale.
  destruct (AnimationController.heartbeat_pulse_start s) as [start |].
  - destruct (Py.ltb _ _); [reflexivity |].
    now rewrite bpm_fallback_no_target.
  - now apply bpm_fallback_no_target.
Qed.

Lemma run_keeps_target (cs : list AnimationController.call)
    (s : AnimationController.t) :
  forallb AnimationController.keeps_target cs = true ->
  AnimationController.target_bpm s = None ->
  let s' := AnimationController.run cs s in
  AnimationController.target_bpm s' = None /\
  AnimationController.current_bpm s' = AnimationController.current_bpm s /\
  AnimationController.start_time s' = AnimationController.start_time s.
Proof.
  revert s. induction cs as [| c cs IH]; intros s Hk Ht; simpl in *.
  - auto.
  - apply andb_prop in Hk. destruct Hk as [Hc Hk].
    assert (Hstep : AnimationController.target_bpm (AnimationController.do_call c s) = None /\
                    AnimationController.current_bpm (AnimationController.do_call c s)
                    = AnimationController.current_bpm s /\
                    AnimationController.start_time (AnimationController.do_call c s)
                    = AnimationController.start_time s).
    { destruct c as [[bpm |] | n1 n2 | clock ct | n]; try discriminate; simpl.
      - auto.
      - auto.
      - destruct (get_beat_scale_fields clock ct s) as (H1 & H2 & _).
        rewrite H1, H2, (get_beat_scale_no_target clock ct s Ht). auto. }
    destruct Hstep as (Ht' & Hc' & Hs').
    destruct (IH _ Hk Ht') as (IH1 & IH2 & IH3).
    fold (AnimationController.run cs (AnimationController.do_call c s)).
    rewrite IH2, IH3. auto.
Qed.

Lemma beat_phase_quarter (bpm : R) (k : Z) :
  0 < bpm ->
  AnimationController.beat_phase bpm ((IZR k + 1 / 4) * (60.0 / bpm)) = PI / 2.
Proof.
  intros Hb. unfold AnimationController.beat_phase, Py.fmod.
  assert (Hi : 0 < 60.0 / bpm) by (apply Rdiv_lt_0_compat; lra).
  set (b := 60.0 / bpm) in *.
  replace ((IZR k + 1 / 4) * b / b) with (IZR k + 1 / 4) by (field; lra).
  rewrite (Zfloor_eq k) by lra.
  replace ((IZR k + 1 / 4) * b - IZR k * b) with (b / 4) by lra.
  replace (b / 4 / b) with (1 / 4); [lra |].
  clearbody b. generalize dependent b. intros b Hb'. field. lra.
Qed.

Lemma periodic_pulse_peak (A : R) :
  AnimationController.periodic_pulse A (PI / 2) = A.
Proof.
  unfold AnimationController.periodic_pulse. pose proof PI_RGT_0.
  rewrite (proj2 (py_ltb_true (PI / 2) PI)) by lra.
  rewrite sin_PI2. lra.
Qed.

(** C6. After [update_bpm None], whatever queries, heartbeat triggers and
    further [update_bpm None] follow, [current_bpm] keeps its value (the smoothing step is skipped);
    a query outside a pulse then returns the periodic scale at that frozen
    BPM, not 1.0: a quarter of a beat interval into each period it peaks at
    [1 + amplitude]. *)
Theorem absent_target_freezes_bpm
    (s : AnimationController.t) (cs : list AnimationController.call)
    (Hkeep : forallb AnimationController.keeps_target cs = true) :
  let s' := AnimationController.run cs (AnimationController.update_bpm None s) in
  AnimationController.current_bpm s' = AnimationController.current_bpm s /\
  (forall clock ct bpm,
     AnimationController.current_bpm s = Some bpm -> 0 < bpm ->
     AnimationController.pulse_active
       (AnimationController.query_instant clock ct) s' = false ->
     fst (AnimationController.get_beat_scale clock ct s')
     = 1.0 + AnimationController.periodic_pulse Config.HEART_BEAT_SCALE_AMPLITUDE
               (AnimationController.beat_phase bpm
                  (AnimationController.query_instant clock ct
                   - AnimationController.start_time s)) /\
     AnimationController.current_bpm
       (snd (AnimationController.get_beat_scale clock ct s')) = Some bpm) /\
  (forall clock ct bpm (k : Z),
     AnimationController.current_bpm s = Some bpm -> 0 < bpm ->
     AnimationController.pulse_active
       (AnimationController.query_instant clock ct) s' = false ->
     AnimationController.query_instant clock ct
     = AnimationController.start_time s + (IZR k + 1 / 4) * (60.0 / bpm) ->
     fst (AnimationController.get_beat_scale clock ct s')
     = 1.0 + Config.HEART_BEAT_SCALE_AMPLITUDE).
Proof.
  intros s'.
  destruct (run_keeps_target cs (AnimationController.update_bpm None s)
              Hkeep eq_refl) as (Ht & Hc & Hst).
  fold s' in Ht, Hc, Hst.
  change (AnimationController.current_bpm (AnimationController.update_bpm None s))
    with (AnimationController.current_bpm s) in Hc.
  change (AnimationController.start_time (AnimationController.update_bpm None s))
    with (AnimationController.start_time s) in Hst.
  assert (Hscale : forall clock ct bpm,
     AnimationController.current_bpm s = Some bpm -> 0 < bpm ->
     AnimationController.pulse_active
       (AnimationController.query_instant clock ct) s' = false ->
     fst (AnimationController.get_beat_scale clock ct s')
     = 1.0 + AnimationController.periodic_pulse Config.HEART_BEAT_SCALE_AMPLITUDE
               (AnimationController.beat_phase bpm
                  (AnimationController.query_instant clock ct
                   - AnimationController.start_time s))).
  { intros clock ct bpm Hb Hpos Hin.
    rewrite (get_beat_scale_inactive clock ct s' Hin).
    unfold AnimationController.bpm_fallback.
    rewrite smooth_bpm_no_target by exact Ht.
    cbn [AnimationController.current_bpm
         AnimationController.set_heartbeat_pulse_start
         AnimationController.start_time].
    rewrite Hc, Hb, Hst.
    rewrite (proj2 (py_leb_false bpm 0) Hpos). reflexivity. }
  split; [exact Hc |]. split.
  - intros clock ct bpm Hb Hpos Hin. split; [now apply Hscale |].
    rewrite get_beat_scale_no_target by exact Ht. congruence.
  - intros clock ct bpm k Hb Hpos Hin Hq.
    rewrite (Hscale clock ct bpm Hb Hpos Hin), Hq.
    replace (AnimationController.start_time s + (IZR k + 1 / 4) * (60.0 / bpm)
             - AnimationController.start_time s)
      with ((IZR k + 1 / 4) * (60.0 / bpm)) by lra.
    rewrite beat_phase_quarter by assumption.
    now rewrite periodic_pulse_peak.
Qed.

Lemma absent_target_freezes_bpm_witness :
  AnimationController.current_bpm
    (AnimationController.run queries_and_a_heartbeat
       (AnimationController.update_bpm None beating_at_60))
  = AnimationController.current_bpm beating_at_60.
Proof.
  exact (proj1 (absent_target_freezes_bpm beating_at_60
                  queries_and_a_heartbeat eq_refl)).
Defined.

(** ** Beat animation engine: range of the scale *)

Lemma reachable_pulse_started_by (now : R) (s : AnimationController.t) :
  AnimationController.reachable now s -> pulse_started_by now s.
Proof.
  induction 1 as [now | now now' s Hr IH Hle | now bpm s Hr IH
                 | now now1 now2 s Hr IH H1 H2 | now ct s Hr IH | now s Hr IH];
    unfold pulse_started_by in *.
  - split; [reflexivity | discriminate].
  - destruct IH as [Hd Hp]. split; [exact Hd |].
    intros p Hs. specialize (Hp p Hs). lra.
  - exact IH.
  - destruct IH as [Hd Hp]. split; [exact Hd |].
    simpl. intros p Hs. injection Hs as <-. lra.
  - destruct IH as [Hd Hp].
    destruct (get_beat_scale_fields now ct s) as (_ & _ & Hd' & Hp').
    split; [congruence |]. intros p Hs. apply Hp. now apply Hp'.
  - destruct IH as [Hd Hp]. split; [exact Hd | discriminate].
Qed.

(** On a monotone clock a pending pulse never starts after the instant of
    a later query. *)
Lemma pending_pulse_not_after_query
    (now : R) (s : AnimationController.t) (t : R) :
  AnimationController.reachable now s -> now <= t ->
  forall p, AnimationController.heartbeat_pulse_start s = Some p -> p <= t.
Proof.
  intros Hreach Hle p Hp.
  destruct (reachable_pulse_started_by now s Hreach) as [_ H].
  specialize (H p Hp). lra.
Qed.

Lemma just_triggered_reachable : AnimationController.reachable 100 just_triggered.
Proof.
  unfold just_triggered.
  apply AnimationController.reach_trigger with (now := 0); [| lra | lra].
  apply AnimationController.reach_update_bpm.
  apply AnimationController.reach_init.
Qed.

(** C10, as stated, fails: a heartbeat is triggered at the instant 100 and
    the scale is queried with [current_time = 99.955]; the elapsed time is
    negative, the progress is -0.15, the pulse is [0.3 * sin (- pi / 2)] and
    the scale is 0.7, below [1 - amplitude / 2 = 0.85]. *)
Lemma query_before_pulse_start_below_range :
  AnimationController.reachable 100 just_triggered /\
  fst (AnimationController.get_beat_scale 100 (Some 99.955) just_triggered) = 0.7 /\
  ~ (1 - Config.HEART_BEAT_SCALE_AMPLITUDE / 2
     <= fst (AnimationController.get_beat_scale 100 (Some 99.955) just_triggered)
     <= 1 + Config.HEART_BEAT_SCALE_AMPLITUDE).
Proof.
  split; [exact just_triggered_reachable |].
  assert (H : fst (AnimationController.get_beat_scale 100 (Some 99.955)
                     just_triggered) = 0.7).
  { unfold just_triggered.
    erewrite get_beat_scale_event; [| reflexivity | simpl; lra].
    cbn [fst AnimationController.query_instant AnimationController.pulse_duration
         AnimationController.trigger_heartbeat AnimationController.update_bpm
         AnimationController.init].
    replace ((99.955 - 100) / 0.3) with (-0.15) by lra.
    rewrite event_pulse_rise, amplitude_value by lra.
    replace (-0.15 * PI / 0.3) with (- (PI / 2)) by lra.
    rewrite sin_neg, sin_PI2. lra. }
  split; [exact H |]. rewrite H, amplitude_value. lra.
Qed.

(** C10, amended.  For every reachable state and every query instant that
    is not earlier than the start of a pending heartbeat pulse, the scale
    lies in [1 - amplitude/2, 1 + amplitude], that is in [0.85, 1.3]: within
    [1, 1.3] in event-pulse mode and within [0.85, 1.3] in the BPM fallback.
    With no BPM known and no pulse active the scale is exactly 1.0. *)
Theorem beat_scale_range
    (now : R) (s : AnimationController.t) (clock : R) (ct : option R)
    (Hreach : AnimationController.reachable now s)
    (Hstart : forall p, AnimationController.heartbeat_pulse_start s = Some p ->
                        p <= AnimationController.query_instant clock ct) :
  let scale := fst (AnimationController.get_beat_scale clock ct s) in
  let amplitude := Config.HEART_BEAT_SCALE_AMPLITUDE in
  1 - amplitude / 2 <= scale <= 1 + amplitude /\
  0.85 <= scale <= 1.3 /\
  (AnimationController.pulse_active
     (AnimationController.query_instant clock ct) s = true ->
   1 <= scale <= 1.3) /\
  (AnimationController.current_bpm s = None ->
   AnimationController.target_bpm s = None ->
   AnimationController.pulse_active
     (AnimationController.query_instant clock ct) s = false ->
   scale = 1.0).
Proof.
  intros scale amplitude.
  destruct (reachable_pulse_started_by now s Hreach) as [Hd _].
  set (t := AnimationController.query_instant clock ct) in *.
  assert (Hfall : AnimationController.pulse_active t s = false ->
                  0.85 <= scale <= 1.3).
  { intros Hin. unfold scale.
    rewrite (get_beat_scale_inactive clock ct s Hin).
    pose proof (bpm_fallback_range t
                  (AnimationController.set_heartbeat_pulse_start None s)) as H.
    rewrite amplitude_value in H. fold t. lra. }
  assert (Hevent : AnimationController.pulse_active t s = true ->
                   1 <= scale <= 1.3).
  { unfold AnimationController.pulse_active. intros Hact.
    destruct (AnimationController.heartbeat_pulse_start s) as [p |] eqn:Hs;
      [| discriminate].
    apply py_ltb_true in Hact. specialize (Hstart p eq_refl).
    unfold scale. rewrite (get_beat_scale_event clock ct s p Hs Hact).
    cbn [fst]. fold t. rewrite Hd in *.
    assert (Hp0 : 0 <= (t - p) / 0.3) by (apply Rle_mult_inv_pos; lra).
    assert (Hp1 : (t - p) / 0.3 <= 1) by lra.
    pose proof (event_pulse_range Config.HEART_BEAT_SCALE_AMPLITUDE
                  ((t - p) / 0.3)) as H.
    rewrite amplitude_value in *. specialize (H ltac:(lra) (conj Hp0 Hp1)).
    lra. }
  assert (Hrange : 0.85 <= scale <= 1.3).
  { destruct (AnimationController.pulse_active t s) eqn:E.
    - specialize (Hevent eq_refl). lra.
    - now apply Hfall. }
  split; [| split; [exact Hrange | split; [exact Hevent |]]].
  - unfold amplitude. rewrite amplitude_value. lra.
  - intros Hc Ht Hin. unfold scale.
    rewrite (get_beat_scale_inactive clock ct s Hin).
    unfold AnimationController.bpm_fallback.
    rewrite smooth_bpm_no_target by exact Ht.
    cbn [AnimationController.current_bpm
         AnimationController.set_heartbeat_pulse_start].
    rewrite Hc. reflexivity.
Qed.

Lemma beat_scale_range_witness :
  0.85 <= fst (AnimationController.get_beat_scale 100.05 None just_triggered)
       <= 1.3.
Proof.
  refine (proj1 (proj2 (beat_scale_range 100 just_triggered 100.05 None
                          just_triggered_reachable _))).
  intros p Hp. injection Hp as <-. simpl. lra.
Defined.

(** Without the clock assumption the event curve still obeys the bound of
    the sine: every query, at any instant, returns a scale within
    [1 - amplitude, 1 + amplitude]. *)
Lemma beat_scale_range_any_instant
    (s : AnimationController.t) (clock : R) (ct : option R) :
  0 < AnimationController.pulse_duration s ->
  1 - Config.HEART_BEAT_SCALE_AMPLITUDE
  <= fst (AnimationController.get_beat_scale clock ct s)
  <= 1 + Config.HEART_BEAT_SCALE_AMPLITUDE.
Proof.
  intros Hd.
  set (t := AnimationController.query_instant clock ct).
  destruct (AnimationController.pulse_active t s) eqn:E.
  - unfold AnimationController.pulse_active in E.
    destruct (AnimationController.heartbeat_pulse_start s) as [p |] eqn:Hs;
      [| discriminate].
    apply py_ltb_true in E.
    rewrite (get_beat_scale_event clock ct s p Hs E). cbn [fst]. fold t.
    assert (Hp1 : (t - p) / AnimationController.pulse_duration s <= 1).
    { apply (Rmult_le_reg_r (AnimationController.pulse_duration s)); [lra |].
      replace ((t - p) / AnimationController.pulse_duration s
               * AnimationController.pulse_duration s)
        with (t - p) by (field; lra). lra. }
    pose proof (event_pulse_abs_bound Config.HEART_BEAT_SCALE_AMPLITUDE
                  ((t - p) / AnimationController.pulse_duration s)) as H.
    rewrite amplitude_value in *. specialize (H ltac:(lra) Hp1). lra.
  - rewrite (get_beat_scale_inactive clock ct s E).
    pose proof (bpm_fallback_range t
                  (AnimationController.set_heartbeat_pulse_start None s)) as H.
    rewrite amplitude_value in *. fold t. lra.
Qed.

(** ** Linear algebra on 3x3 matrices *)

Ltac mat3_ring :=
  repeat match goal with
         | m : Np.mat3 |- _ => destruct m as [[? ? ?] [? ? ?] [? ? ?]]
         | v : Np.vec3 |- _ => destruct v as [? ? ?]
         end;
  unfold Np.matmul, Np.transpose, Np.det, Np.negate_last_column, Np.mscale,
    Np.madd, Np.scale3, Np.add3, Np.cross, Np.dot, Np.col0, Np.col1, Np.col2,
    Np.eye3;
  cbn [Np.m3r0 Np.m3r1 Np.m3r2 Np.x3 Np.y3 Np.z3];
  first [ solve [ring] | solve [f_equal; f_equal; ring] ].

Lemma matmul_assoc (a b c : Np.mat3) :
  Np.matmul (Np.matmul a b) c = Np.matmul a (Np.matmul b c).
Proof. mat3_ring. Qed.

Lemma transpose_matmul (a b : Np.mat3) :
  Np.transpose (Np.matmul a b) = Np.matmul (Np.transpose b) (Np.transpose a).
Proof. mat3_ring. Qed.

Lemma matmul_eye_l (a : Np.mat3) : Np.matmul Np.eye3 a = a.
Proof. mat3_ring. Qed.

Lemma matmul_eye_r (a : Np.mat3) : Np.matmul a Np.eye3 = a.
Proof. mat3_ring. Qed.

Lemma det_matmul (a b : Np.mat3) : Np.det (Np.matmul a b) = Np.det a * Np.det b.
Proof. mat3_ring. Qed.

Lemma det_transpose (a : Np.mat3) : Np.det (Np.transpose a) = Np.det a.
Proof. mat3_ring. Qed.

Lemma det_eye3 : Np.det Np.eye3 = 1.
Proof. mat3_ring. Qed.

Lemma det_negate_last_column (a : Np.mat3) :
  Np.det (Np.negate_last_column a) = - Np.det a.
Proof. mat3_ring. Qed.

Lemma det_mscale (k : R) (a : Np.mat3) :
  Np.det (Np.mscale k a) = k * k * k * Np.det a.
Proof. mat3_ring. Qed.

Lemma gram_mscale (k : R) (a : Np.mat3) :
  Np.matmul (Np.transpose (Np.mscale k a)) (Np.mscale k a)
  = Np.mscale (k * k) (Np.matmul (Np.transpose a) a).
Proof. mat3_ring. Qed.

Lemma gram_negate_last_column (a : Np.mat3) :
  Np.orthonormal a -> Np.orthonormal (Np.negate_last_column a).
Proof.
  unfold Np.orthonormal. intros H.
  destruct a as [[a00 a01 a02] [a10 a11 a12] [a20 a21 a22]].
  unfold Np.matmul, Np.transpose, Np.negate_last_column, Np.dot, Np.col0,
    Np.col1, Np.col2, Np.eye3 in *.
  cbn [Np.m3r0 Np.m3r1 Np.m3r2 Np.x3 Np.y3 Np.z3] in *.
  injection H as H00 H01 H02 H10 H11 H12 H20 H21 H22.
  f_equal; f_equal; lra.
Qed.

Lemma orthonormal_matmul (a b : Np.mat3) :
  Np.orthonormal a -> Np.orthonormal b -> Np.orthonormal (Np.matmul a b).
Proof.
  unfold Np.orthonormal. intros Ha Hb.
  rewrite transpose_matmul, matmul_assoc, <- (matmul_assoc (Np.transpose a)).
  now rewrite Ha, matmul_eye_l.
Qed.

Lemma orthonormal_det (a : Np.mat3) :
  Np.orthonormal a -> Np.det a = 1 \/ Np.det a = -1.
Proof.
  unfold Np.orthonormal. intros H.
  assert (Hsq : Np.det a * Np.det a = 1).
  { rewrite <- (det_transpose a) at 1. rewrite <- det_matmul, H.
    apply det_eye3. }
  assert (Hf : (Np.det a - 1) * (Np.det a + 1) = 0) by lra.
  apply Rmult_integral in Hf. destruct Hf; [left | right]; lra.
Qed.

(** ** Anchor tracker: rotation correction and the built transform *)

Lemma reorthonormalize_proper (svd : Np.mat3 -> Np.mat3 * Np.vec3 * Np.mat3)
    (blended : Np.mat3) :
  Np.orthonormal (svd_U (svd blended)) ->
  Np.orthonormal (svd_Vt (svd blended)) ->
  Np.proper_rotation (ChestTracker.reorthonormalize svd blended).
Proof.
  unfold ChestTracker.reorthonormalize, svd_U, svd_Vt.
  destruct (svd blended) as [[U S] Vt]. cbn [fst snd]. intros HU HV.
  pose proof (orthonormal_matmul U Vt HU HV) as Hrot.
  destruct (Py.ltb (Np.det (Np.matmul U Vt)) 0) eqn:E.
  - apply py_ltb_true in E.
    pose proof (gram_negate_last_column U HU) as HU'.
    split; [now apply orthonormal_matmul |].
    rewrite det_matmul, det_negate_last_column.
    rewrite det_matmul in E.
    destruct (orthonormal_det _ Hrot) as [H1 | H1];
      rewrite det_matmul in H1; lra.
  - apply py_ltb_false in E.
    split; [exact Hrot |].
    destruct (orthonormal_det _ Hrot) as [H1 | H1]; lra.
Qed.

Lemma block33_create_transform_matrix (p : Np.vec3) (r : Np.mat3) (scale : R) :
  Np.block33 (MathUtils.create_transform_matrix p r scale) = Np.mscale scale r.
Proof. destruct r as [[? ? ?] [? ? ?] [? ? ?]], p. reflexivity. Qed.

Lemma mscale_1 (a : Np.mat3) : Np.mscale 1.0 a = a.
Proof.
  destruct a as [[? ? ?] [? ? ?] [? ? ?]]. unfold Np.mscale, Np.scale3. simpl.
  f_equal; f_equal; lra.
Qed.

Lemma extract_landmark_3d_visible (lms : ChestTracker.Landmarks) (i : nat) l :
  nth_error lms i = Some l -> 0.5 <= ChestTracker.visibility l ->
  ChestTracker.extract_landmark_3d lms i
  = Some (Np.V3 (ChestTracker.x l) (ChestTracker.y l) (ChestTracker.z l)).
Proof.
  intros Hn Hv. unfold ChestTracker.extract_landmark_3d. rewrite Hn.
  apply py_ltb_false in Hv. now rewrite Hv.
Qed.

(** With both shoulders usable and a stored rotation, the rotation that
    [track_chest] returns and stores is the corrected blend. *)
Lemma track_chest_rotation_is_corrected_blend
    (svd : Np.mat3 -> Np.mat3 * Np.vec3 * Np.mat3)
    (lms : ChestTracker.Landmarks) (self : ChestTracker.t) (last : Np.mat3) :
  ChestTracker.visible lms ChestTracker.LEFT_SHOULDER ->
  ChestTracker.visible lms ChestTracker.RIGHT_SHOULDER ->
  ChestTracker.last_rotation self = Some last ->
  exists new_rotation,
    let blended :=
      Np.madd (Np.mscale (ChestTracker.smoothing_factor self) last)
              (Np.mscale (1.0 - ChestTracker.smoothing_factor self) new_rotation) in
    snd (fst (ChestTracker.track_chest svd lms self))
    = Some (ChestTracker.reorthonormalize svd blended) /\
    ChestTracker.last_rotation (snd (ChestTracker.track_chest svd lms self))
    = Some (ChestTracker.reorthonormalize svd blended).
Proof.
  intros (l & Hl & Hvl) (r & Hr & Hvr) Hlast.
  unfold ChestTracker.track_chest.
  rewrite (extract_landmark_3d_visible _ _ _ Hl Hvl).
  rewrite (extract_landmark_3d_visible _ _ _ Hr Hvr).
  rewrite Hlast. cbn [fst snd ChestTracker.last_rotation].
  eexists. split; reflexivity.
Qed.

Lemma py_eqb_false (a b : R) : a <> b -> Py.eqb a b = false.
Proof. intros H. unfold Py.eqb. now destruct (Req_dec_T a b). Qed.

Lemma normalize_vector_unit (v : Np.vec3) :
  Np.dot v v = 1 -> MathUtils.normalize_vector v = v.
Proof.
  intros H. unfold MathUtils.normalize_vector, Np.norm.
  rewrite H, sqrt_1, py_eqb_false by lra.
  destruct v. unfold Np.div3. simpl. f_equal; lra.
Qed.

(** The shoulder-line fallback of [track_chest] builds the identity. *)
Lemma fallback_rotation_is_identity :
  MathUtils.rotation_matrix_from_vectors (Np.V3 0 0 (-1)) (Np.V3 0 1 0) = Np.eye3.
Proof.
  unfold MathUtils.rotation_matrix_from_vectors.
  rewrite (normalize_vector_unit (Np.V3 0 0 (-1)))
    by (unfold Np.dot; simpl; lra).
  rewrite (normalize_vector_unit (Np.V3 0 1 0))
    by (unfold Np.dot; simpl; lra).
  replace (Np.cross (Np.V3 0 0 (-1)) (Np.V3 0 1 0)) with (Np.V3 1 0 0)
    by (unfold Np.cross; simpl; f_equal; lra).
  rewrite (normalize_vector_unit (Np.V3 1 0 0))
    by (unfold Np.dot; simpl; lra).
  replace (Np.cross (Np.V3 1 0 0) (Np.V3 0 0 (-1))) with (Np.V3 0 1 0)
    by (unfold Np.cross; simpl; f_equal; lra).
  rewrite (normalize_vector_unit (Np.V3 0 1 0))
    by (unfold Np.dot; simpl; lra).
  unfold Np.eye3. simpl. f_equal; f_equal; lra.
Qed.

Lemma reorthonormalize_svd_of_identity (m : Np.mat3) :
  ChestTracker.reorthonormalize svd_of_identity m = Np.eye3.
Proof.
  unfold ChestTracker.reorthonormalize, svd_of_identity.
  rewrite matmul_eye_l, det_eye3.
  rewrite (proj2 (py_ltb_false 1 0)) by lra. reflexivity.
Qed.

(** On [tracked_once] and [shoulders_only_pose] the blended matrix is the
    identity, of which [svd_of_identity] is the decomposition. *)
Lemma blend_of_identities (k : R) :
  Np.madd (Np.mscale k Np.eye3) (Np.mscale (1.0 - k) Np.eye3) = Np.eye3.
Proof.
  unfold Np.madd, Np.mscale, Np.scale3, Np.add3, Np.eye3. simpl.
  f_equal; f_equal; lra.
Qed.

(** C5, as stated, fails: the tracker builds its transform with
    [Config.HEART_SCALE], so the upper-left block of the built transform is
    0.15 times a rotation.  Here the stored rotation and the new one are the
    identity, the corrected blend is the identity, and the block is
    [0.15 * I]. *)
Lemma built_rotation_block_not_a_rotation :
  exists M,
    fst (ChestTracker.get_transform_matrix svd_of_identity shoulders_only_pose
           tracked_once) = Some M /\
    Np.block33 M = Np.mscale 0.15 Np.eye3 /\
    ~ Np.orthonormal (Np.block33 M) /\
    Np.det (Np.block33 M) <> 1.
Proof.
  unfold ChestTracker.get_transform_matrix, ChestTracker.track_chest.
  rewrite (extract_landmark_3d_visible shoulders_only_pose
             ChestTracker.LEFT_SHOULDER _ eq_refl) by (simpl; lra).
  rewrite (extract_landmark_3d_visible shoulders_only_pose
             ChestTracker.RIGHT_SHOULDER _ eq_refl) by (simpl; lra).
  rewrite (extract_landmark_3d_absent shoulders_only_pose ChestTracker.LEFT_HIP)
    by (unfold ChestTracker.absent; simpl; lra).
  cbn [ChestTracker.last_position ChestTracker.last_rotation tracked_once].
  rewrite fallback_rotation_is_identity.
  rewrite reorthonormalize_svd_of_identity.
  cbn [fst]. eexists. split; [reflexivity |].
  rewrite block33_create_transform_matrix.
  split; [reflexivity |]. split.
  - unfold Np.orthonormal. rewrite gram_mscale, matmul_eye_l.
    unfold Np.mscale, Np.scale3, Np.transpose, Np.col0, Np.col1, Np.col2,
      Np.eye3, Config.HEART_SCALE.
    simpl. intros H. injection H as H00 _ _ _ _ _ _ _ _. lra.
  - rewrite det_mscale, det_eye3. unfold Config.HEART_SCALE. lra.
Qed.

(** *** Rotations up to epsilon *)

Lemma rabs_le_iff (x b : R) : Rabs x <= b <-> - b <= x <= b.
Proof. unfold Rabs. destruct (Rcase_abs x); lra. Qed.

(** One term [a * g * b] of a quadratic form whose coefficient [g] is at
    most [delta] in magnitude. *)
Lemma term_bound (delta g a b : R) :
  Rabs g <= delta ->
  - (delta * (a * a + b * b) / 2) <= a * g * b <= delta * (a * a + b * b) / 2.
Proof.
  intros Hg. apply rabs_le_iff in Hg.
  pose proof (Rle_0_sqr (a - b)) as Hm. pose proof (Rle_0_sqr (a + b)) as Hp.
  unfold Rsqr in Hm, Hp.
  assert (H1 : 0 <= (delta + g) * ((a - b) * (a - b)))
    by (apply Rmult_le_pos; lra).
  assert (H2 : 0 <= (delta - g) * ((a + b) * (a + b)))
    by (apply Rmult_le_pos; lra).
  assert (H3 : 0 <= (delta - g) * ((a - b) * (a - b)))
    by (apply Rmult_le_pos; lra).
  assert (H4 : 0 <= (delta + g) * ((a + b) * (a + b)))
    by (apply Rmult_le_pos; lra).
  split; lra.
Qed.

(** One entry of [B^T (I + G) B]: it is within [delta + 3 delta s] of [c]
    when the entries of [G] are within [delta], the two columns of [B]
    have squared length at most [s] and their product is within [delta]
    of [c]. *)
Lemma gram_entry_bound (delta s c a0 a1 a2 b0 b1 b2
                        g00 g01 g02 g10 g11 g12 g20 g21 g22 : R) :
  Rabs g00 <= delta -> Rabs g01 <= delta -> Rabs g02 <= delta ->
  Rabs g10 <= delta -> Rabs g11 <= delta -> Rabs g12 <= delta ->
  Rabs g20 <= delta -> Rabs g21 <= delta -> Rabs g22 <= delta ->
  a0 * a0 + a1 * a1 + a2 * a2 <= s ->
  b0 * b0 + b1 * b1 + b2 * b2 <= s ->
  Rabs (a0 * b0 + a1 * b1 + a2 * b2 - c) <= delta ->
  Rabs (a0 * b0 + a1 * b1 + a2 * b2
        + (a0 * g00 * b0 + a0 * g01 * b1 + a0 * g02 * b2
           + a1 * g10 * b0 + a1 * g11 * b1 + a1 * g12 * b2
           + a2 * g20 * b0 + a2 * g21 * b1 + a2 * g22 * b2) - c)
  <= delta + 3 * delta * s.
Proof.
  intros H00 H01 H02 H10 H11 H12 H20 H21 H22 Ha Hb Hc.
  assert (Hd : 0 <= delta) by (pose proof (Rabs_pos g00); lra).
  pose proof (term_bound delta g00 a0 b0 H00).
  pose proof (term_bound delta g01 a0 b1 H01).
  pose proof (term_bound delta g02 a0 b2 H02).
  pose proof (term_bound delta g10 a1 b0 H10).
  pose proof (term_bound delta g11 a1 b1 H11).
  pose proof (term_bound delta g12 a1 b2 H12).
  pose proof (term_bound delta g20 a2 b0 H20).
  pose proof (term_bound delta g21 a2 b1 H21).
  pose proof (term_bound delta g22 a2 b2 H22).
  apply rabs_le_iff in Hc.
  assert (Hs : delta * (3 * (a0 * a0 + a1 * a1 + a2 * a2)
                        + 3 * (b0 * b0 + b1 * b1 + b2 * b2)) / 2
               <= 3 * delta * s) by nra.
  apply rabs_le_iff. split; lra.
Qed.

Ltac unfold_within :=
  unfold orthonormal_within, mat3_within, vec3_within, Np.matmul, Np.transpose,
    Np.negate_last_column, Np.dot, Np.col0, Np.col1, Np.col2, Np.eye3 in *;
  cbn [Np.m3r0 Np.m3r1 Np.m3r2 Np.x3 Np.y3 Np.z3] in *.

(** Negating the last column changes signs in the Gram matrix, not
    magnitudes. *)
Lemma orthonormal_within_negate_last_column (delta : R) (a : Np.mat3) :
  orthonormal_within delta a ->
  orthonormal_within delta (Np.negate_last_column a).
Proof.
  destruct a as [[a00 a01 a02] [a10 a11 a12] [a20 a21 a22]].
  unfold_within.
  intros ((H00 & H01 & H02) & (H10 & H11 & H12) & (H20 & H21 & H22)).
  repeat match goal with
         | H : Rabs _ <= _ |- _ => apply rabs_le_iff in H
         end.
  repeat split; apply rabs_le_iff; lra.
Qed.

(** The product of two matrices orthonormal within [delta] is orthonormal
    within [delta + 3 delta (1 + delta)]. *)
Lemma orthonormal_within_matmul (delta : R) (a b : Np.mat3) :
  orthonormal_within delta a -> orthonormal_within delta b ->
  orthonormal_within (delta + 3 * delta * (1 + delta)) (Np.matmul a b).
Proof.
  destruct a as [[a00 a01 a02] [a10 a11 a12] [a20 a21 a22]].
  destruct b as [[b00 b01 b02] [b10 b11 b12] [b20 b21 b22]].
  unfold_within.
  intros ((A00 & A01 & A02) & (A10 & A11 & A12) & (A20 & A21 & A22)).
  intros ((B00 & B01 & B02) & (B10 & B11 & B12) & (B20 & B21 & B22)).
  assert (C0 : b00 * b00 + b10 * b10 + b20 * b20 <= 1 + delta)
    by (apply rabs_le_iff in B00; lra).
  assert (C1 : b01 * b01 + b11 * b11 + b21 * b21 <= 1 + delta)
    by (apply rabs_le_iff in B11; lra).
  assert (C2 : b02 * b02 + b12 * b12 + b22 * b22 <= 1 + delta)
    by (apply rabs_le_iff in B22; lra).
  repeat split.
  all: match goal with
       | |- Rabs (?e - ?c) <= _ => idtac
       end.
  - pose proof (gram_entry_bound delta (1 + delta) 1 b00 b10 b20 b00 b10 b20
                  _ _ _ _ _ _ _ _ _ A00 A01 A02 A10 A11 A12 A20 A21 A22
                  C0 C0 B00) as H.
    apply rabs_le_iff in H. apply rabs_le_iff. split; lra.
  - pose proof (gram_entry_bound delta (1 + delta) 0 b00 b10 b20 b01 b11 b21
                  _ _ _ _ _ _ _ _ _ A00 A01 A02 A10 A11 A12 A20 A21 A22
                  C0 C1 B01) as H.
    apply rabs_le_iff in H. apply rabs_le_iff. split; lra.
  - pose proof (gram_entry_bound delta (1 + delta) 0 b00 b10 b20 b02 b12 b22
                  _ _ _ _ _ _ _ _ _ A00 A01 A02 A10 A11 A12 A20 A21 A22
                  C0 C2 B02) as H.
    apply rabs_le_iff in H. apply rabs_le_iff. split; lra.
  - pose proof (gram_entry_bound delta (1 + delta) 0 b01 b11 b21 b00 b10 b20
                  _ _ _ _ _ _ _ _ _ A00 A01 A02 A10 A11 A12 A20 A21 A22
                  C1 C0 B10) as H.
    apply rabs_le_iff in H. apply rabs_le_iff. split; lra.
  - pose proof (gram_entry_bound delta (1 + delta) 1 b01 b11 b21 b01 b11 b21
                  _ _ _ _ _ _ _ _ _ A00 A01 A02 A10 A11 A12 A20 A21 A22
                  C1 C1 B11) as H.
    apply rabs_le_iff in H. apply rabs_le_iff. split; lra.
  - pose proof (gram_entry_bound delta (1 + delta) 0 b01 b11 b21 b02 b12 b22
                  _ _ _ _ _ _ _ _ _ A00 A01 A02 A10 A11 A12 A20 A21 A22
                  C1 C2 B12) as H.
    apply rabs_le_iff in H. apply rabs_le_iff. split; lra.
  - pose proof (gram_entry_bound delta (1 + delta) 0 b02 b12 b22 b00 b10 b20
                  _ _ _ _ _ _ _ _ _ A00 A01 A02 A10 A11 A12 A20 A21 A22
                  C2 C0 B20) as H.
    apply rabs_le_iff in H. apply rabs_le_iff. split; lra.
  - pose proof (gram_entry_bound delta (1 + delta) 0 b02 b12 b22 b01 b11 b21
                  _ _ _ _ _ _ _ _ _ A00 A01 A02 A10 A11 A12 A20 A21 A22
                  C2 C1 B21) as H.
    apply rabs_le_iff in H. apply rabs_le_iff. split; lra.
  - pose proof (gram_entry_bound delta (1 + delta) 1 b02 b12 b22 b02 b12 b22
                  _ _ _ _ _ _ _ _ _ A00 A01 A02 A10 A11 A12 A20 A21 A22
                  C2 C2 B22) as H.
    apply rabs_le_iff in H. apply rabs_le_iff. split; lra.
Qed.

Lemma prod2_bound (eps x y : R) :
  Rabs x <= eps -> Rabs y <= eps -> - (eps * eps) <= x * y <= eps * eps.
Proof.
  intros Hx Hy. apply rabs_le_iff in Hx, Hy.
  assert (0 <= (eps - x) * (eps - y)) by (apply Rmult_le_pos; lra).
  assert (0 <= (eps + x) * (eps + y)) by (apply Rmult_le_pos; lra).
  assert (0 <= (eps - x) * (eps + y)) by (apply Rmult_le_pos; lra).
  assert (0 <= (eps + x) * (eps - y)) by (apply Rmult_le_pos; lra).
  split; lra.
Qed.

Lemma prod3_bound (eps x y z : R) :
  Rabs x <= eps -> Rabs y <= eps -> Rabs z <= eps ->
  - (eps * eps * eps) <= x * y * z <= eps * eps * eps.
Proof.
  intros Hx Hy Hz.
  pose proof (prod2_bound eps x y Hx Hy) as Hxy.
  apply rabs_le_iff in Hz.
  assert (0 <= (eps * eps - x * y) * (eps - z)) by (apply Rmult_le_pos; lra).
  assert (0 <= (eps * eps + x * y) * (eps + z)) by (apply Rmult_le_pos; lra).
  assert (0 <= (eps * eps - x * y) * (eps + z)) by (apply Rmult_le_pos; lra).
  assert (0 <= (eps * eps + x * y) * (eps - z)) by (apply Rmult_le_pos; lra).
  split; lra.
Qed.

(** The determinant of a matrix within [eps] of the identity. *)
Lemma det_near_identity (eps : R) (m : Np.mat3) :
  mat3_within eps m Np.eye3 ->
  Rabs (Np.det m - 1)
  <= 3 * eps + 6 * (eps * eps) + 6 * (eps * eps * eps).
Proof.
  destruct m as [[a b c] [d e f] [g h i]].
  unfold mat3_within, vec3_within, Np.det, Np.dot, Np.cross, Np.eye3.
  cbn [Np.m3r0 Np.m3r1 Np.m3r2 Np.x3 Np.y3 Np.z3].
  intros ((Ha & Hb & Hc) & (Hd & He & Hf) & (Hg & Hh & Hi)).
  set (a' := a - 1) in *. set (e' := e - 1) in *. set (i' := i - 1) in *.
  replace (b - 0) with b in Hb by ring. replace (c - 0) with c in Hc by ring.
  replace (d - 0) with d in Hd by ring. replace (f - 0) with f in Hf by ring.
  replace (g - 0) with g in Hg by ring. replace (h - 0) with h in Hh by ring.
  replace (a * (e * i - f * h) + b * (f * g - d * i) + c * (d * h - e * g) - 1)
    with (a' + e' + i'
          + (a' * e' + a' * i' + e' * i' - f * h - b * d - c * g)
          + (a' * e' * i' - a' * f * h - b * d * i' + b * f * g
             + c * d * h - c * e' * g))
    by (unfold a', e', i'; ring).
  clearbody a' e' i'.
  pose proof (prod2_bound eps a' e' Ha He).
  pose proof (prod2_bound eps a' i' Ha Hi).
  pose proof (prod2_bound eps e' i' He Hi).
  pose proof (prod2_bound eps f h Hf Hh).
  pose proof (prod2_bound eps b d Hb Hd).
  pose proof (prod2_bound eps c g Hc Hg).
  pose proof (prod3_bound eps a' e' i' Ha He Hi).
  pose proof (prod3_bound eps a' f h Ha Hf Hh).
  pose proof (prod3_bound eps b d i' Hb Hd Hi).
  pose proof (prod3_bound eps b f g Hb Hf Hg).
  pose proof (prod3_bound eps c d h Hc Hd Hh).
  pose proof (prod3_bound eps c e' g Hc He Hg).
  apply rabs_le_iff in Ha, He, Hi.
  apply rabs_le_iff. split; lra.
Qed.

Lemma near_one_of_square (x eta : R) :
  0 <= x -> Rabs (x * x - 1) <= eta -> Rabs (x - 1) <= eta.
Proof.
  intros Hx H. apply rabs_le_iff in H. apply rabs_le_iff.
  destruct (Rle_dec x 1) as [Hle | Hgt].
  - assert (0 <= (1 - x) * x) by (apply Rmult_le_pos; lra). split; lra.
  - assert (0 <= (x - 1) * x) by (apply Rmult_le_pos; lra). split; lra.
Qed.

(** The correction step on factors orthonormal within [delta]: the sign
    test makes the determinant non-negative, and its square is the
    determinant of the Gram matrix. *)
Lemma reorthonormalize_within (svd : Np.mat3 -> Np.mat3 * Np.vec3 * Np.mat3)
    (blended : Np.mat3) (delta : R) :
  orthonormal_within delta (svd_U (svd blended)) ->
  orthonormal_within delta (svd_Vt (svd blended)) ->
  let rotation := ChestTracker.reorthonormalize svd blended in
  let eps := delta + 3 * delta * (1 + delta) in
  orthonormal_within eps rotation /\
  Rabs (Np.det rotation - 1)
  <= 3 * eps + 6 * (eps * eps) + 6 * (eps * eps * eps).
Proof.
  unfold ChestTracker.reorthonormalize, svd_U, svd_Vt.
  destruct (svd blended) as [[U S] Vt]. cbn [fst snd]. intros HU HV.
  cbv zeta.
  set (eps := delta + 3 * delta * (1 + delta)).
  assert (Hnear : forall r, orthonormal_within eps r -> 0 <= Np.det r ->
            Rabs (Np.det r - 1)
            <= 3 * eps + 6 * (eps * eps) + 6 * (eps * eps * eps)).
  { intros r Hr Hpos. apply near_one_of_square; [exact Hpos |].
    pose proof (det_near_identity _ _ Hr) as Hd.
    rewrite det_matmul, det_transpose in Hd. exact Hd. }
  destruct (Py.ltb (Np.det (Np.matmul U Vt)) 0) eqn:E.
  - apply py_ltb_true in E.
    pose proof (orthonormal_within_negate_last_column _ _ HU) as HU'.
    pose proof (orthonormal_within_matmul _ _ _ HU' HV) as Hrot.
    split; [exact Hrot |]. apply Hnear; [exact Hrot |].
    rewrite det_matmul, det_negate_last_column.
    rewrite det_matmul in E. lra.
  - apply py_ltb_false in E.
    pose proof (orthonormal_within_matmul _ _ _ HU HV) as Hrot.
    split; [exact Hrot |]. apply Hnear; [exact Hrot | lra].
Qed.

Lemma mat3_within_weaken (eps eps' : R) (a b : Np.mat3) :
  eps <= eps' -> mat3_within eps a b -> mat3_within eps' a b.
Proof.
  intros Hle. unfold mat3_within, vec3_within.
  intros ((H00 & H01 & H02) & (H10 & H11 & H12) & (H20 & H21 & H22)).
  repeat split; eapply Rle_trans; eauto.
Qed.

Lemma mat3_within_mscale (k eps : R) (a b : Np.mat3) :
  0 <= k -> mat3_within eps a b ->
  mat3_within (k * eps) (Np.mscale k a) (Np.mscale k b).
Proof.
  intros Hk.
  destruct a as [[a00 a01 a02] [a10 a11 a12] [a20 a21 a22]].
  destruct b as [[b00 b01 b02] [b10 b11 b12] [b20 b21 b22]].
  unfold mat3_within, vec3_within, Np.mscale, Np.scale3.
  cbn [Np.m3r0 Np.m3r1 Np.m3r2 Np.x3 Np.y3 Np.z3].
  assert (Hs : forall x y, Rabs (x - y) <= eps -> Rabs (k * x - k * y) <= k * eps).
  { intros x y H. replace (k * x - k * y) with (k * (x - y)) by ring.
    rewrite Rabs_mult, (Rabs_pos_eq k Hk).
    apply Rmult_le_compat_l; assumption. }
  intros ((H00 & H01 & H02) & (H10 & H11 & H12) & (H20 & H21 & H22)).
  repeat split; apply Hs; assumption.
Qed.

Lemma mat3_within_0 (a b : Np.mat3) : mat3_within 0 a b -> a = b.
Proof.
  destruct a as [[a00 a01 a02] [a10 a11 a12] [a20 a21 a22]].
  destruct b as [[b00 b01 b02] [b10 b11 b12] [b20 b21 b22]].
  unfold mat3_within, vec3_within.
  cbn [Np.m3r0 Np.m3r1 Np.m3r2 Np.x3 Np.y3 Np.z3].
  intros ((H00 & H01 & H02) & (H10 & H11 & H12) & (H20 & H21 & H22)).
  repeat match goal with
         | H : Rabs _ <= _ |- _ => apply rabs_le_iff in H
         end.
  f_equal; f_equal; lra.
Qed.

(** For factors orthonormal within [delta <= 0.01], the two error bounds of
    the correction step are linear in [delta]. *)
Lemma correction_bounds_linear (delta : R) :
  0 <= delta <= 0.01 ->
  let eps := delta + 3 * delta * (1 + delta) in
  eps <= 5 * delta /\
  3 * eps + 6 * (eps * eps) + 6 * (eps * eps * eps) <= 14 * delta.
Proof.
  intros [H0 H1] eps.
  assert (Hdd : delta * delta <= 0.01 * delta)
    by (apply Rmult_le_compat_r; lra).
  assert (Hsq : 0 <= delta * delta) by (apply Rmult_le_pos; lra).
  assert (He : 0 <= eps <= 4.03 * delta) by (unfold eps; split; lra).
  assert (He2 : eps * eps <= 0.0403 * eps)
    by (apply Rmult_le_compat_r; lra).
  assert (He2' : 0 <= eps * eps) by (apply Rmult_le_pos; lra).
  assert (He3 : eps * eps * eps <= 0.0403 * (eps * eps)).
  { replace (eps * eps * eps) with (eps * (eps * eps)) by ring.
    apply Rmult_le_compat_r; lra. }
  split; lra.
Qed.

(** C5, amended.  Whatever the blended matrix, when the factors [U] and [Vt]
    that the decomposition returns for it are orthonormal up to
    [delta <= 0.01], the rotation [R] the correction step produces satisfies
    [R^T R = I] up to [5 delta] and [det R = 1] up to [14 delta]; the
    upper-left block of the transform built from it is [scale * R], so its
    Gram matrix is [scale^2 * I] and its determinant [scale^3] up to the
    same relative errors.  With exactly orthonormal factors all of these
    are equalities, and the block is itself a proper rotation when the
    transform is built with scale 1. *)
Theorem corrected_rotation_in_built_transform
    (svd : Np.mat3 -> Np.mat3 * Np.vec3 * Np.mat3)
    (blended : Np.mat3) (position : Np.vec3) (scale delta : R)
    (Hdelta : 0 <= delta <= 0.01)
    (HU : orthonormal_within delta (svd_U (svd blended)))
    (HVt : orthonormal_within delta (svd_Vt (svd blended))) :
  let rotation := ChestTracker.reorthonormalize svd blended in
  let block :=
    Np.block33 (MathUtils.create_transform_matrix position rotation scale) in
  orthonormal_within (5 * delta) rotation /\
  Rabs (Np.det rotation - 1) <= 14 * delta /\
  block = Np.mscale scale rotation /\
  mat3_within (scale * scale * (5 * delta))
    (Np.matmul (Np.transpose block) block)
    (Np.mscale (scale * scale) Np.eye3) /\
  Rabs (Np.det block - scale * scale * scale)
  <= Rabs (scale * scale * scale) * (14 * delta) /\
  (delta = 0 ->
   Np.proper_rotation rotation /\
   Np.matmul (Np.transpose block) block = Np.mscale (scale * scale) Np.eye3 /\
   Np.det block = scale * scale * scale /\
   (scale = 1.0 -> Np.proper_rotation block)).
Proof.
  intros rotation block.
  destruct (reorthonormalize_within svd blended delta HU HVt) as [Hgram Hdet].
  destruct (correction_bounds_linear delta Hdelta) as [Heps Heta].
  cbv zeta in *. fold rotation in Hgram, Hdet.
  assert (Hgram5 : orthonormal_within (5 * delta) rotation)
    by (eapply mat3_within_weaken; eassumption).
  assert (Hdet14 : Rabs (Np.det rotation - 1) <= 14 * delta)
    by (eapply Rle_trans; eassumption).
  assert (Hblock : block = Np.mscale scale rotation)
    by apply block33_create_transform_matrix.
  split; [exact Hgram5 |]. split; [exact Hdet14 |]. split; [exact Hblock |].
  rewrite Hblock. split; [| split].
  - rewrite gram_mscale. apply mat3_within_mscale; [| exact Hgram5].
    pose proof (Rle_0_sqr scale) as Hs. exact Hs.
  - rewrite det_mscale.
    replace (scale * scale * scale * Np.det rotation - scale * scale * scale)
      with (scale * scale * scale * (Np.det rotation - 1)) by ring.
    rewrite Rabs_mult. apply Rmult_le_compat_l; [apply Rabs_pos | exact Hdet14].
  - intros ->.
    assert (Hrot : Np.proper_rotation rotation).
    { apply reorthonormalize_proper; apply mat3_within_0; assumption. }
    destruct Hrot as [Horth Hone].
    split; [split; assumption |]. split; [| split].
    + rewrite gram_mscale. now rewrite Horth.
    + rewrite det_mscale, Hone. ring.
    + intros ->. rewrite mscale_1. split; assumption.
Qed.

Ltac within_by_computation :=
  unfold orthonormal_within, mat3_within, vec3_within, svd_U, svd_Vt,
    svd_rounded, Np.matmul, Np.transpose, Np.dot, Np.col0, Np.col1, Np.col2,
    Np.eye3;
  cbn [fst snd Np.m3r0 Np.m3r1 Np.m3r2 Np.x3 Np.y3 Np.z3];
  repeat split; apply rabs_le_iff; lra.

Lemma corrected_rotation_in_built_transform_witness :
  let rotation := ChestTracker.reorthonormalize svd_rounded sheared_blend in
  let block :=
    Np.block33 (MathUtils.create_transform_matrix (Np.V3 0 0.1 (-1)) rotation
                  Config.HEART_SCALE) in
  orthonormal_within (5 * 0.0001) rotation /\
  Rabs (Np.det rotation - 1) <= 14 * 0.0001 /\
  block = Np.mscale Config.HEART_SCALE rotation.
Proof.
  pose proof (corrected_rotation_in_built_transform svd_rounded sheared_blend
                (Np.V3 0 0.1 (-1)) Config.HEART_SCALE 0.0001) as H.
  cbv zeta in *.
  destruct H as (H1 & H2 & H3 & _).
  - lra.
  - within_by_computation.
  - within_by_computation.
  - split; [exact H1 |]. split; [exact H2 | exact H3].
Defined.

(** The sample decomposition multiplies back to the sample matrix, which
    is not orthonormal; its [U] is not exactly orthonormal either; the
    determinant test takes the branch that negates the last column of [U];
    and the corrected rotation is the turn about z. *)
Example rounded_svd_sample :
  let '(U, sigma, Vt) := svd_rounded sheared_blend in
  Np.matmul (Np.matmul U (diag3 sigma)) Vt = sheared_blend /\
  ~ Np.orthonormal sheared_blend /\
  ~ Np.orthonormal U /\
  Np.det (Np.matmul U Vt) < 0 /\
  ChestTracker.reorthonormalize svd_rounded sheared_blend
  = Np.M3 (Np.V3 0.866 (-0.5) 0) (Np.V3 0.5 0.866 0) (Np.V3 0 0 1).
Proof.
  cbn [svd_rounded].
  assert (Hdet : Np.det (Np.matmul
            (Np.M3 (Np.V3 0.866 (-0.5) 0) (Np.V3 0.5 0.866 0) (Np.V3 0 0 1))
            (Np.M3 (Np.V3 1 0 0) (Np.V3 0 1 0) (Np.V3 0 0 (-1)))) < 0).
  { unfold Np.det, Np.matmul, Np.transpose, Np.dot, Np.cross, Np.col0,
      Np.col1, Np.col2.
    cbn [Np.m3r0 Np.m3r1 Np.m3r2 Np.x3 Np.y3 Np.z3]. lra. }
  split; [| split; [| split; [| split]]].
  - unfold sheared_blend, diag3, Np.matmul, Np.transpose, Np.dot, Np.col0,
      Np.col1, Np.col2.
    cbn [Np.m3r0 Np.m3r1 Np.m3r2 Np.x3 Np.y3 Np.z3]. f_equal; f_equal; lra.
  - unfold Np.orthonormal, sheared_blend, Np.matmul, Np.transpose, Np.dot,
      Np.col0, Np.col1, Np.col2, Np.eye3.
    cbn [Np.m3r0 Np.m3r1 Np.m3r2 Np.x3 Np.y3 Np.z3].
    intros H. injection H as H00 _ _ _ _ _ _ _ _. lra.
  - unfold Np.orthonormal, Np.matmul, Np.transpose, Np.dot,
      Np.col0, Np.col1, Np.col2, Np.eye3.
    cbn [Np.m3r0 Np.m3r1 Np.m3r2 Np.x3 Np.y3 Np.z3].
    intros H. injection H as H00 _ _ _ _ _ _ _ _. lra.
  - exact Hdet.
  - unfold ChestTracker.reorthonormalize. cbn [svd_rounded].
    rewrite (proj2 (py_ltb_true _ _) Hdet).
    unfold Np.negate_last_column, Np.matmul, Np.transpose, Np.dot, Np.col0,
      Np.col1, Np.col2.
    cbn [Np.m3r0 Np.m3r1 Np.m3r2 Np.x3 Np.y3 Np.z3]. f_equal; f_equal; lra.
Qed.

(** * Further properties of the sources *)

(** ** [hr_parser.py]: the smoothed value *)

Lemma quot_between (s n lo hi : Z) :
  (0 < n)%Z -> (n * lo <= s <= n * hi)%Z -> (lo <= Z.quot s n <= hi)%Z.
Proof.
  intros Hn [Hlo Hhi].
  pose proof (Z.quot_rem' s n) as Hqr.
  destruct (Z_le_gt_dec 0 s) as [Hs | Hs].
  - pose proof (Z.rem_bound_pos s n Hs Hn) as Hr. nia.
  - pose proof (Z.rem_bound_pos_neg s n Hn ltac:(lia)) as Hr. nia.
Qed.

Lemma sum_between (l : list Z) (lo hi : Z) :
  Forall (fun v => (lo <= v <= hi)%Z) l ->
  (Z.of_nat (length l) * lo <= fold_right Z.add 0%Z l
   <= Z.of_nat (length l) * hi)%Z.
Proof.
  induction 1 as [| v l Hv _ IH]; simpl fold_right; simpl length; [lia |].
  rewrite Nat2Z.inj_succ. lia.
Qed.

(** A window of at most [w] values within [lo, hi] has a sum below [2^53]
    in magnitude when [w * lo] and [w * hi] are. *)
Lemma window_sum_exact (w : nat) (window : list Z) (lo hi : Z) :
  (length window <= w)%nat ->
  Forall (fun v => (lo <= v <= hi)%Z) window ->
  (- 2 ^ 53 < Z.of_nat w * lo)%Z -> (Z.of_nat w * hi < 2 ^ 53)%Z ->
  (Z.abs (Py.sum window) < 2 ^ 53)%Z.
Proof.
  intros Hlen Hrange Hlo Hhi.
  rewrite py_sum_fold_right.
  pose proof (sum_between window lo hi Hrange) as Hsum.
  set (Q := (2 ^ 53)%Z) in *.
  assert (HQ : (0 < Q)%Z) by reflexivity. clearbody Q.
  set (n := Z.of_nat (length window)) in *.
  assert (Hn : (0 <= n <= Z.of_nat w)%Z) by lia.
  set (S := fold_right Z.add 0%Z window) in *. clearbody n S.
  assert (Hup : (S < Q)%Z).
  { destruct (Z_le_gt_dec 0 hi); nia. }
  assert (Hdown : (- Q < S)%Z).
  { destruct (Z_le_gt_dec lo 0); nia. }
  lia.
Qed.

Lemma update_returns_within_range
    (w : nat) (calls : list (R * Z)) (now : R) (bpm lo hi : Z) :
  (1 <= w)%nat ->
  (- 2 ^ 53 < Z.of_nat w * lo)%Z -> (Z.of_nat w * hi < 2 ^ 53)%Z ->
  Forall (fun v => (lo <= v <= hi)%Z)
    (last_n (Nat.min (length (calls ++ [(now, bpm)])) w)
       (map snd (calls ++ [(now, bpm)]))) ->
  exists smoothed,
    HeartRateParser.update now bpm
      (HeartRateParser.run_updates calls (HeartRateParser.init w))
    = (Py.Return smoothed,
       HeartRateParser.run_updates (calls ++ [(now, bpm)])
         (HeartRateParser.init w)) /\
    HeartRateParser.get_bpm
      (HeartRateParser.run_updates (calls ++ [(now, bpm)])
         (HeartRateParser.init w)) = Some smoothed /\
    (lo <= smoothed <= hi)%Z.
Proof.
  intros Hw Hlo Hhi Hrange.
  destruct (run_updates_window w (calls ++ [(now, bpm)])) as [_ Hwin].
  rewrite run_updates_snoc in *. cbn [fst snd] in *.
  set (before := HeartRateParser.run_updates calls (HeartRateParser.init w)) in *.
  destruct (update_stores_sample now bpm before) as (_ & Hrec & _).
  rewrite Hwin in Hrec.
  set (window := last_n _ _) in *.
  assert (Hlen : (1 <= length window <= w)%nat).
  { unfold window. rewrite last_n_length, length_map, length_app. simpl. lia. }
  pose proof (update_exact now bpm before) as Hex.
  cbv zeta in Hex. rewrite <- Hrec in Hex.
  rewrite Hex.
  - exists (truncated_mean window). cbn [snd]. split; [reflexivity |].
    split; [reflexivity |].
    unfold truncated_mean. apply quot_between; [lia |].
    now apply sum_between.
  - lia.
  - apply (window_sum_exact w window lo hi); [lia | assumption ..].
Qed.

(** The smoothed BPM never leaves the range of the samples it averages:
    when the values in the window (the last [min N w] submitted, [w >= 1])
    lie in [lo, hi], and [w * lo] and [w * hi] are below [2^53] in
    magnitude, so do the value [update] returns and [get_bpm]. *)
Theorem smoothed_bpm_within_window_range
    (w : nat) (calls : list (R * Z)) (now : R) (bpm lo hi : Z)
    (Hw : (1 <= w)%nat)
    (Hlo : (- 2 ^ 53 < Z.of_nat w * lo)%Z)
    (Hhi : (Z.of_nat w * hi < 2 ^ 53)%Z)
    (Hrange : Forall (fun v => (lo <= v <= hi)%Z)
                (last_n (Nat.min (length (calls ++ [(now, bpm)])) w)
                   (map snd (calls ++ [(now, bpm)])))) :
  let before := HeartRateParser.run_updates calls (HeartRateParser.init w) in
  exists smoothed,
    fst (HeartRateParser.update now bpm before) = Py.Return smoothed /\
    HeartRateParser.get_bpm (snd (HeartRateParser.update now bpm before))
    = Some smoothed /\
    (lo <= smoothed <= hi)%Z.
Proof.
  intros before.
  destruct (update_returns_within_range w calls now bpm lo hi Hw Hlo Hhi Hrange)
    as (smoothed & Hupd & Hget & Hbetween).
  fold before in Hupd. exists smoothed.
  rewrite Hupd. cbn [fst snd]. repeat split; try assumption; lia.
Qed.

Lemma smoothed_bpm_within_window_range_witness :
  exists smoothed,
    fst (HeartRateParser.update 2%R 80%Z
           (HeartRateParser.run_updates [(0%R, 60%Z); (1%R, 71%Z)]
              (HeartRateParser.init 5))) = Py.Return smoothed /\
    HeartRateParser.get_bpm
      (snd (HeartRateParser.update 2%R 80%Z
              (HeartRateParser.run_updates [(0%R, 60%Z); (1%R, 71%Z)]
                 (HeartRateParser.init 5)))) = Some smoothed /\
    (60 <= smoothed <= 80)%Z.
Proof.
  apply (smoothed_bpm_within_window_range 5 [(0, 60%Z); (1, 71%Z)]
           2 80%Z 60%Z 80%Z).
  - lia.
  - vm_compute. reflexivity.
  - vm_compute. reflexivity.
  - simpl. repeat constructor; lia.
Defined.

(** With [smoothing_window = 0] the deque stays empty and [update] takes its
    else-branch: every call returns, and stores, the raw value it was given. *)
Theorem zero_window_passes_raw_value (calls : list (R * Z)) (now : R) (bpm : Z) :
  let before := HeartRateParser.run_updates calls (HeartRateParser.init 0) in
  HeartRateParser.recent_values before = [] /\
  HeartRateParser.update now bpm before
  = (Py.Return bpm, HeartRateParser.mk 0 [] (Some bpm) (Some now)).
Proof.
  intros before.
  destruct (run_updates_window 0 calls) as [Hw Hwin]. fold before in Hw, Hwin.
  rewrite Nat.min_0_r in Hwin. unfold last_n in Hwin.
  rewrite Nat.sub_0_r, skipn_all in Hwin.
  split; [exact Hwin |].
  unfold HeartRateParser.update. rewrite Hw, Hwin. reflexivity.
Qed.

(** When the window (size at least 1) holds rates within [lo, hi],
    [lo >= 1] and [w * hi] is below [2^53], [get_beat_interval] answers an
    interval between [60 / hi] and [60 / lo] seconds. *)
Theorem beat_interval_within_rate_range
    (w : nat) (calls : list (R * Z)) (now : R) (bpm lo hi : Z)
    (Hw : (1 <= w)%nat) (Hlo : (1 <= lo)%Z)
    (Hhi : (Z.of_nat w * hi < 2 ^ 53)%Z)
    (Hrange : Forall (fun v => (lo <= v <= hi)%Z)
                (last_n (Nat.min (length (calls ++ [(now, bpm)])) w)
                   (map snd (calls ++ [(now, bpm)])))) :
  exists interval,
    HeartRateParser.get_beat_interval
      (HeartRateParser.run_updates (calls ++ [(now, bpm)]) (HeartRateParser.init w))
    = Some interval /\
    60 / IZR hi <= interval <= 60 / IZR lo.
Proof.
  assert (Hlo' : (- 2 ^ 53 < Z.of_nat w * lo)%Z).
  { assert (0 < 2 ^ 53)%Z by reflexivity. nia. }
  destruct (update_returns_within_range w calls now bpm lo hi Hw Hlo' Hhi Hrange)
    as (smoothed & _ & Hget & Hs).
  unfold HeartRateParser.get_beat_interval.
  unfold HeartRateParser.get_bpm in Hget. rewrite Hget.
  rewrite (proj2 (Z.leb_gt smoothed 0)) by lia.
  eexists. split; [reflexivity |].
  assert (H1 : 1 <= IZR lo) by (apply IZR_le in Hlo; exact Hlo).
  assert (H2 : IZR lo <= IZR smoothed) by (apply IZR_le; lia).
  assert (H3 : IZR smoothed <= IZR hi) by (apply IZR_le; lia).
  assert (Hi1 : / IZR hi <= / IZR smoothed) by (apply Rinv_le_contravar; lra).
  assert (Hi2 : / IZR smoothed <= / IZR lo) by (apply Rinv_le_contravar; lra).
  replace 60.0 with 60 by lra.
  unfold Rdiv. lra.
Qed.

Lemma beat_interval_within_rate_range_witness :
  exists interval,
    HeartRateParser.get_beat_interval
      (HeartRateParser.run_updates ([(0, 60%Z); (1, 71%Z)] ++ [(2, 80%Z)])
         (HeartRateParser.init 5))
    = Some interval /\
    60 / 80 <= interval <= 60 / 60.
Proof.
  apply (beat_interval_within_rate_range 5 [(0, 60%Z); (1, 71%Z)] 2 80%Z 60%Z 80%Z).
  - lia.
  - lia.
  - vm_compute. reflexivity.
  - simpl. repeat constructor; lia.
Defined.

(** ** [polar_h10.py]: decoding a heart-rate notification *)

Lemma byte_value_range (b : Byte.byte) : (0 <= Py.byte_value b <= 255)%Z.
Proof.
  unfold Py.byte_value. pose proof (Byte.to_N_bounded b). lia.
Qed.

Lemma flag_bit0 (x : Z) : (Z.land x 0x01 =? 0x01)%Z = Z.testbit x 0.
Proof.
  change 1%Z with (Z.ones 1) at 1.
  rewrite Z.land_ones by lia. rewrite Z.bit0_odd, Zodd_mod.
  reflexivity.
Qed.

(** How the handler decodes a notification: with bit 0 of the flags clear,
    the heart rate is the second byte, whatever follows; with bit 0 set and
    at least three bytes, it is the little-endian 16-bit value of bytes 1
    and 2.  No other bit of the flags matters. *)
Theorem notification_decoding (flags lo hi : Byte.byte) (rest : list Byte.byte) :
  (Z.testbit (Py.byte_value flags) 0 = false ->
   PolarH10.heart_rate_notification_handler (flags :: lo :: rest)
   = Some (Py.byte_value lo)) /\
  (Z.testbit (Py.byte_value flags) 0 = true ->
   PolarH10.heart_rate_notification_handler (flags :: lo :: hi :: rest)
   = Some (Py.byte_value lo + 256 * Py.byte_value hi)%Z).
Proof.
  unfold PolarH10.heart_rate_notification_handler. split; intros Hbit.
  - cbn [length nth_error Nat.ltb Nat.leb].
    rewrite flag_bit0, Hbit. reflexivity.
  - cbn [length nth_error Nat.ltb Nat.leb].
    rewrite flag_bit0, Hbit.
    cbn [andb Py.slice Nat.sub skipn firstn Py.int_from_bytes_little fold_right].
    f_equal. lia.
Qed.

(** Edge cases of the handler: fewer than two bytes deliver nothing; a
    16-bit flag on a two-byte notification falls back to the single byte;
    whatever is delivered lies in 0..65535. *)
Theorem notification_edge_cases (data : list Byte.byte) :
  ((length data < 2)%nat ->
   PolarH10.heart_rate_notification_handler data = None) /\
  (forall flags b,
     data = [flags; b] ->
     PolarH10.heart_rate_notification_handler data = Some (Py.byte_value b)) /\
  ((2 <= length data)%nat ->
   exists heart_rate,
     PolarH10.heart_rate_notification_handler data = Some heart_rate /\
     (0 <= heart_rate <= 65535)%Z).
Proof.
  split; [| split].
  - intros H. unfold PolarH10.heart_rate_notification_handler.
    now rewrite (proj2 (Nat.ltb_lt _ _) H).
  - intros flags b ->. unfold PolarH10.heart_rate_notification_handler.
    cbn [length nth_error Nat.ltb Nat.leb]. rewrite andb_false_r. reflexivity.
  - intros H. destruct data as [| flags [| lo rest]]; simpl in H; try lia.
    unfold PolarH10.heart_rate_notification_handler.
    cbn [length nth_error Nat.ltb Nat.leb].
    pose proof (byte_value_range lo) as Hlo.
    destruct (_ && _).
    + eexists. split; [reflexivity |].
      destruct rest as [| hi rest]; unfold Py.slice;
        cbn [Nat.sub skipn firstn Py.int_from_bytes_little fold_right].
      * lia.
      * pose proof (byte_value_range hi). lia.
    + eexists. split; [reflexivity |]. lia.
Qed.

(** ** [main_window.py]: from notifications to the animation *)

Lemma on_heart_rate_received_rejects now now1 now2 heart_rate self :
  (heart_rate < 30 \/ 220 < heart_rate)%Z ->
  MainWindow.on_heart_rate_received now now1 now2 heart_rate self = self.
Proof.
  intros H. unfold MainWindow.on_heart_rate_received.
  destruct H as [H | H].
  - now rewrite (proj2 (Z.ltb_lt _ _) H).
  - rewrite (proj2 (Z.gtb_gt _ _)) by lia. now rewrite orb_true_r.
Qed.

Lemma on_heart_rate_received_accepts now now1 now2 heart_rate self :
  validated heart_rate ->
  MainWindow.on_heart_rate_received now now1 now2 heart_rate self
  = match HeartRateParser.update now heart_rate (MainWindow.hr_parser self) with
    | (Py.Return bpm, parser) =>
        MainWindow.mk parser
          (AnimationController.trigger_heartbeat now1 now2
             (AnimationController.update_bpm (Some bpm)
                (MainWindow.animation_controller self)))
    | (Py.Raise _, parser) =>
        MainWindow.mk parser (MainWindow.animation_controller self)
    end.
Proof.
  intros [H1 H2]. unfold MainWindow.on_heart_rate_received.
  rewrite (proj2 (Z.ltb_ge _ _)) by lia.
  destruct (heart_rate >? 220)%Z eqn:E; [| reflexivity].
  apply Z.gtb_gt in E. lia.
Qed.

(** A notification changes nothing when it is shorter than two bytes, when
    its rate is outside 30..220, and in particular whenever it carries a
    16-bit rate with a nonzero high byte. *)
Theorem dropped_notifications_change_nothing
    (now now1 now2 : R) (self : MainWindow.t) :
  (forall data, (length data < 2)%nat ->
     MainWindow.on_notification now now1 now2 data self = self) /\
  (forall data heart_rate,
     PolarH10.heart_rate_notification_handler data = Some heart_rate ->
     (heart_rate < 30 \/ 220 < heart_rate)%Z ->
     MainWindow.on_notification now now1 now2 data self = self) /\
  (forall flags lo hi rest,
     Z.testbit (Py.byte_value flags) 0 = true ->
     Py.byte_value hi <> 0%Z ->
     MainWindow.on_notification now now1 now2 (flags :: lo :: hi :: rest) self
     = self).
Proof.
  split; [| split].
  - intros data H. unfold MainWindow.on_notification,
      PolarH10.heart_rate_notification_handler.
    now rewrite (proj2 (Nat.ltb_lt _ _) H).
  - intros data heart_rate Hd Hr. unfold MainWindow.on_notification.
    rewrite Hd. now apply on_heart_rate_received_rejects.
  - intros flags lo hi rest Hbit Hhi. unfold MainWindow.on_notification.
    unfold PolarH10.heart_rate_notification_handler.
    cbn [length nth_error Nat.ltb Nat.leb].
    rewrite flag_bit0, Hbit.
    cbn [andb Py.slice Nat.sub skipn firstn Py.int_from_bytes_little fold_right].
    apply on_heart_rate_received_rejects.
    pose proof (byte_value_range lo). pose proof (byte_value_range hi). lia.
Qed.

Lemma deque_append_forall {A} (P : A -> Prop) (w : nat) (d : list A) (x : A) :
  Forall P d -> P x -> Forall P (Py.deque_append w d x).
Proof.
  intros Hd Hx. unfold Py.deque_append.
  assert (H : Forall P (d ++ [x])) by (apply Forall_app; auto).
  destruct (w <? length (d ++ [x]))%nat; [| exact H].
  destruct (d ++ [x]); [exact H | now inversion H].
Qed.

Lemma deque_append_nonempty {A} (w : nat) (d : list A) (x : A) :
  (1 <= w)%nat -> (1 <= length (Py.deque_append w d x))%nat.
Proof.
  intros Hw. unfold Py.deque_append.
  destruct (Nat.ltb_spec w (length (d ++ [x]))) as [H | H].
  - destruct (d ++ [x]); simpl in *; lia.
  - rewrite length_app. simpl. lia.
Qed.

Lemma handle_keeps_rates_validated (e : MainWindow.event) (s : MainWindow.t) :
  rates_validated s -> rates_validated (MainWindow.handle e s).
Proof.
  intros (Hw & Hlen5 & Hvals & Hbpm).
  destruct e as [now now1 now2 heart_rate | now]; simpl.
  - destruct (Z_lt_ge_dec heart_rate 30) as [Hlo | Hlo];
      [rewrite on_heart_rate_received_rejects by lia; now repeat split |].
    destruct (Z_lt_ge_dec 220 heart_rate) as [Hhi | Hhi];
      [rewrite on_heart_rate_received_rejects by lia; now repeat split |].
    assert (Hv : validated heart_rate) by (unfold validated; lia).
    rewrite (on_heart_rate_received_accepts _ _ _ _ _ Hv).
    pose proof (update_exact now heart_rate (MainWindow.hr_parser s)) as Hex.
    cbv zeta in Hex. rewrite Hw in Hex.
    set (recent := Py.deque_append 5 _ heart_rate) in *.
    assert (Hrecent : Forall validated recent)
      by now apply deque_append_forall.
    assert (Hlen : (1 <= length recent)%nat)
      by (apply deque_append_nonempty; lia).
    assert (Hmax : (length recent <= 5)%nat)
      by now apply deque_append_length.
    rewrite Hex.
    + unfold rates_validated, HeartRateParser.get_bpm. simpl.
      split; [reflexivity |]. split; [exact Hmax |]. split; [exact Hrecent |].
      split; [| reflexivity].
      unfold truncated_mean, validated.
      apply quot_between; [lia |]. apply sum_between. exact Hrecent.
    + exact Hlen.
    + apply (window_sum_exact 5 recent 30 220);
        [exact Hmax | exact Hrecent | vm_compute; reflexivity ..].
  - unfold rates_validated, MainWindow.disconnect_heart_rate. simpl.
    repeat split; auto. lia.
Qed.

Lemma run_keeps_rates_validated (events : list MainWindow.event)
    (s : MainWindow.t) :
  rates_validated s -> rates_validated (MainWindow.run events s).
Proof.
  revert s. induction events as [| e events IH]; intros s Hs; simpl.
  - exact Hs.
  - apply IH. now apply handle_keeps_rates_validated.
Qed.

(** From a freshly created window, whatever heart rates are received and
    whatever disconnections happen in between, the parser only ever holds
    rates within 30..220, its smoothed BPM (when there is one) is within
    30..220, and the controller's target BPM is that smoothed BPM. *)
Theorem received_rates_stay_validated
    (now0 : R) (events : list MainWindow.event) :
  let s := MainWindow.run events (MainWindow.init now0) in
  Forall validated (HeartRateParser.recent_values (MainWindow.hr_parser s)) /\
  (forall bpm,
     HeartRateParser.get_bpm (MainWindow.hr_parser s) = Some bpm ->
     (30 <= bpm <= 220)%Z /\
     AnimationController.target_bpm (MainWindow.animation_controller s)
     = Some bpm) /\
  (HeartRateParser.get_bpm (MainWindow.hr_parser s) = None ->
   AnimationController.target_bpm (MainWindow.animation_controller s) = None).
Proof.
  intros s.
  assert (Hinit : rates_validated (MainWindow.init now0)).
  { unfold rates_validated. simpl. repeat split; [lia | constructor]. }
  destruct (run_keeps_rates_validated events _ Hinit) as (_ & _ & Hvals & Hbpm).
  fold s in Hvals, Hbpm.
  split; [exact Hvals |].
  destruct (HeartRateParser.get_bpm (MainWindow.hr_parser s)) as [b |].
  - split; [| discriminate]. intros bpm Hb. injection Hb as <-. exact Hbpm.
  - split; [discriminate |]. intros _. exact Hbpm.
Qed.

Lemma py_gtb_false (a b : R) : Py.gtb a b = false <-> a <= b.
Proof. unfold Py.gtb. apply py_ltb_false. Qed.

(** The frame tick animates only on fresh data: within 5 s of an accepted
    heart rate it hands on what [get_beat_scale] returns; later than that it
    hands on 1.0 and leaves the controller untouched, even in the middle of
    a pulse; so does it on a window that never received a heart rate. *)
Theorem animation_runs_only_on_fresh_data
    (self : MainWindow.t) (now0 now1 now2 : R) (heart_rate : Z) (now now' : R)
    (Hvalid : validated heart_rate) :
  let s := MainWindow.on_heart_rate_received now0 now1 now2 heart_rate self in
  (now - now0 > 5 -> MainWindow.update_frame_beat_scale now now' s = (1.0, s)) /\
  (now - now0 <= 5 ->
   MainWindow.update_frame_beat_scale now now' s
   = (fst (AnimationController.get_beat_scale now' None
             (MainWindow.animation_controller s)),
      MainWindow.mk (MainWindow.hr_parser s)
        (snd (AnimationController.get_beat_scale now' None
                (MainWindow.animation_controller s))))) /\
  (forall t0,
     MainWindow.update_frame_beat_scale now now' (MainWindow.init t0)
     = (1.0, MainWindow.init t0)).
Proof.
  intros s.
  assert (Hlast : HeartRateParser.last_update_time (MainWindow.hr_parser s)
                  = Some now0).
  { unfold s. rewrite (on_heart_rate_received_accepts _ _ _ _ _ Hvalid).
    pose proof (update_stores_sample now0 heart_rate (MainWindow.hr_parser self))
      as (_ & _ & Hclock).
    destruct (HeartRateParser.update now0 heart_rate (MainWindow.hr_parser self))
      as [[bpm | e] parser]; exact Hclock. }
  unfold MainWindow.update_frame_beat_scale, HeartRateParser.is_stale.
  rewrite Hlast. split; [| split].
  - intros H. replace 5.0 with 5 by lra.
    now rewrite (proj2 (py_gtb_true _ _) H).
  - intros H. replace 5.0 with 5 by lra.
    rewrite (proj2 (py_gtb_false _ _) H). simpl.
    destruct (AnimationController.get_beat_scale now' None
                (MainWindow.animation_controller s)).
    reflexivity.
  - intros t0. reflexivity.
Qed.

Lemma animation_runs_only_on_fresh_data_witness :
  MainWindow.update_frame_beat_scale 106 106
    (MainWindow.on_heart_rate_received 100 100 100 72%Z (MainWindow.init 0))
  = (1.0, MainWindow.on_heart_rate_received 100 100 100 72%Z (MainWindow.init 0)).
Proof.
  refine (proj1 (animation_runs_only_on_fresh_data (MainWindow.init 0)
                   100 100 100 72%Z 106 106 _) _).
  - unfold validated. lia.
  - lra.
Defined.

(** ** [heart_renderer.py] and [overlay_engine.py]: what is drawn *)

Lemma py_fmin_spec (a b : R) : Py.fmin a b = Rmin a b.
Proof.
  unfold Py.fmin, Rmin. destruct (Py.ltb b a) eqn:E.
  - apply py_ltb_true in E. destruct (Rle_dec a b); lra.
  - apply py_ltb_false in E. destruct (Rle_dec a b); lra.
Qed.

Lemma py_fmax_spec (a b : R) : Py.fmax a b = Rmax a b.
Proof.
  unfold Py.fmax, Rmax. destruct (Py.gtb b a) eqn:E.
  - apply py_gtb_true in E. destruct (Rle_dec a b); lra.
  - apply py_gtb_false in E. destruct (Rle_dec a b); lra.
Qed.

Lemma set_beat_scale_cases (scale : R) :
  (scale < 0.5 /\ HeartRenderer.set_beat_scale scale = 0.5) \/
  (0.5 <= scale <= 2.0 /\ HeartRenderer.set_beat_scale scale = scale) \/
  (2.0 < scale /\ HeartRenderer.set_beat_scale scale = 2.0).
Proof.
  unfold HeartRenderer.set_beat_scale. rewrite py_fmax_spec, py_fmin_spec.
  unfold Rmax, Rmin.
  destruct (Rle_dec 2.0 scale); destruct (Rle_dec 0.5 _); lra.
Qed.

(** The renderer clamps the scale to [0.5, 2.0]: values inside pass
    unchanged, clamping twice is clamping once, and every scale the
    animation controller can return (pulse duration positive) passes
    unchanged. *)
Theorem renderer_beat_scale_clamp (scale : R) :
  0.5 <= HeartRenderer.set_beat_scale scale <= 2.0 /\
  (0.5 <= scale <= 2.0 -> HeartRenderer.set_beat_scale scale = scale) /\
  HeartRenderer.set_beat_scale (HeartRenderer.set_beat_scale scale)
  = HeartRenderer.set_beat_scale scale /\
  (forall clock ct controller,
     0 < AnimationController.pulse_duration controller ->
     HeartRenderer.set_beat_scale
       (fst (AnimationController.get_beat_scale clock ct controller))
     = fst (AnimationController.get_beat_scale clock ct controller)).
Proof.
  assert (Hid : forall x, 0.5 <= x <= 2.0 -> HeartRenderer.set_beat_scale x = x).
  { intros x Hx. destruct (set_beat_scale_cases x) as [[H _] | [[_ H] | [H _]]];
      [lra | exact H | lra]. }
  assert (Hrange : 0.5 <= HeartRenderer.set_beat_scale scale <= 2.0).
  { destruct (set_beat_scale_cases scale) as [[_ H] | [[H1 H] | [_ H]]];
      rewrite H; lra. }
  split; [exact Hrange |]. split; [apply Hid |]. split; [now apply Hid |].
  intros clock ct controller Hd. apply Hid.
  pose proof (beat_scale_range_any_instant controller clock ct Hd) as H.
  rewrite amplitude_value in H. lra.
Qed.

Lemma int_of_float_nonneg (x : R) (lo hi : Z) :
  0 <= x -> IZR lo <= x <= IZR hi -> (lo <= Py.int_of_float x <= hi)%Z.
Proof.
  intros H0 [Hlo Hhi]. unfold Py.int_of_float.
  rewrite (proj2 (py_ltb_false x 0) H0).
  split.
  - now apply Zfloor_lub.
  - apply le_IZR. destruct (Zfloor_bound x) as [Hf _]. lra.
Qed.

(** On a frame of at least one pixel each way, the heart is drawn with its
    centre inside the frame: a stored position inside the frame is kept, one
    outside is moved to the nearest border pixel.  For a beat scale within
    [0.7, 1.3] its size is between 84 and 156 pixels, 120 at scale 1. *)
Theorem heart_drawn_inside_frame
    (height width x y : Z) (beat_scale : R)
    (Hwidth : (1 <= width)%Z) (Hheight : (1 <= height)%Z) :
  exists cx cy size,
    OverlayEngine.composite_frame_heart height width (Some (x, y)) beat_scale
    = Some (cx, cy, size) /\
    (0 <= cx <= width - 1)%Z /\ (0 <= cy <= height - 1)%Z /\
    ((0 <= x <= width - 1)%Z -> cx = x) /\
    ((0 <= y <= height - 1)%Z -> cy = y) /\
    ((x < 0)%Z -> cx = 0%Z) /\ ((width - 1 < x)%Z -> cx = (width - 1)%Z) /\
    (0.7 <= beat_scale <= 1.3 -> (84 <= size <= 156)%Z) /\
    (beat_scale = 1 -> size = 120%Z).
Proof.
  unfold OverlayEngine.composite_frame_heart.
  do 3 eexists. split; [reflexivity |].
  repeat match goal with |- _ /\ _ => split end; try lia.
  - intros H. apply int_of_float_nonneg; lra.
  - intros ->. rewrite Rmult_1_r. unfold Py.int_of_float.
    rewrite (proj2 (py_ltb_false _ 0)) by lra. apply ZfloorZ.
Qed.

Lemma heart_drawn_inside_frame_witness :
  exists cx cy size,
    OverlayEngine.composite_frame_heart 480 640 (Some (700, -3)%Z) 1.3
    = Some (cx, cy, size) /\
    (0 <= cx <= 640 - 1)%Z /\ (0 <= cy <= 480 - 1)%Z.
Proof.
  destruct (heart_drawn_inside_frame 480 640 700 (-3) 1.3 ltac:(lia) ltac:(lia))
    as (cx & cy & size & H & Hx & Hy & _).
  exists cx, cy, size. auto.
Defined.

(** ** [animation_controller.py]: smoothing, period, pulse *)

Lemma run_queries_cons q qs s :
  run_queries (q :: qs) s
  = run_queries qs
      (snd (AnimationController.get_beat_scale (fst q) (snd q) s)).
Proof. reflexivity. Qed.

Lemma bpm_fallback_state (t : R) (s : AnimationController.t) :
  let s' := snd (AnimationController.bpm_fallback t s) in
  AnimationController.current_bpm s'
  = AnimationController.current_bpm (AnimationController.smooth_bpm s) /\
  AnimationController.animation_smoothing s'
  = AnimationController.animation_smoothing s /\
  AnimationController.beat_scale s'
  = fst (AnimationController.bpm_fallback t s).
Proof.
  cbv zeta. unfold AnimationController.bpm_fallback.
  assert (Hk : AnimationController.animation_smoothing
                 (AnimationController.smooth_bpm s)
               = AnimationController.animation_smoothing s).
  { unfold AnimationController.smooth_bpm.
    destruct (AnimationController.target_bpm s);
      [destruct (AnimationController.current_bpm s) |]; reflexivity. }
  destruct (AnimationController.current_bpm (AnimationController.smooth_bpm s))
    as [bpm |] eqn:E; [destruct (Py.leb bpm 0) |]; simpl; auto.
Qed.

(** With no pulse pending and a target [T], every query moves the current
    BPM a fraction [k = animation_smoothing] of the way to the target: from
    [c], after n queries it is [T + (c - T) * (1 - k)^n], whatever the
    instants of the queries.  From no current BPM, the first query takes the
    target as it is. *)
Theorem bpm_smoothing_is_geometric
    (s : AnimationController.t) (target : Z) (qs : list (R * option R))
    (Hpulse : AnimationController.heartbeat_pulse_start s = None)
    (Htarget : AnimationController.target_bpm s = Some target) :
  let k := AnimationController.animation_smoothing s in
  (forall c,
     AnimationController.current_bpm s = Some c ->
     AnimationController.current_bpm (run_queries qs s)
     = Some (IZR target + (c - IZR target) * (1 - k) ^ length qs)) /\
  (AnimationController.current_bpm s = None -> qs <> [] ->
   AnimationController.current_bpm (run_queries qs s) = Some (IZR target)).
Proof.
  intros k.
  assert (Hstep : forall s0 q,
    AnimationController.heartbeat_pulse_start s0 = None ->
    AnimationController.target_bpm s0 = Some target ->
    let s1 := snd (AnimationController.get_beat_scale (fst q) (snd q) s0) in
    AnimationController.heartbeat_pulse_start s1 = None /\
    AnimationController.target_bpm s1 = Some target /\
    AnimationController.animation_smoothing s1
    = AnimationController.animation_smoothing s0 /\
    AnimationController.current_bpm s1
    = Some (match AnimationController.current_bpm s0 with
            | Some c => c + (IZR target - c)
                            * AnimationController.animation_smoothing s0
            | None => IZR target
            end)).
  { intros s0 q Hp Ht. cbv zeta.
    rewrite (get_beat_scale_no_pulse _ _ _ Hp).
    destruct (bpm_fallback_fields
                (AnimationController.query_instant (fst q) (snd q)) s0)
      as (_ & Ht' & Hp' & _).
    destruct (bpm_fallback_state
                (AnimationController.query_instant (fst q) (snd q)) s0)
      as (Hc' & Hk' & _).
    rewrite Hp', Ht', Hc', Hk'. repeat split; auto.
    unfold AnimationController.smooth_bpm. rewrite Ht.
    destruct (AnimationController.current_bpm s0); reflexivity. }
  assert (Hgen : forall qs0 s0 c,
    AnimationController.heartbeat_pulse_start s0 = None ->
    AnimationController.target_bpm s0 = Some target ->
    AnimationController.current_bpm s0 = Some c ->
    AnimationController.current_bpm (run_queries qs0 s0)
    = Some (IZR target + (c - IZR target)
                         * (1 - AnimationController.animation_smoothing s0)
                           ^ length qs0)).
  { induction qs0 as [| q qs0 IH]; intros s0 c Hp Ht Hc.
    - change (run_queries [] s0) with s0. rewrite Hc. f_equal.
      simpl. lra.
    - rewrite run_queries_cons.
      destruct (Hstep s0 q Hp Ht) as (Hp1 & Ht1 & Hk1 & Hc1).
      rewrite Hc in Hc1.
      rewrite (IH _ _ Hp1 Ht1 Hc1), Hk1. f_equal. simpl. ring. }
  split.
  - intros c Hc. now apply Hgen.
  - intros Hc Hne. destruct qs as [| q qs]; [congruence |].
    rewrite run_queries_cons.
    destruct (Hstep s q Hpulse Htarget) as (Hp1 & Ht1 & Hk1 & Hc1).
    rewrite Hc in Hc1.
    rewrite (Hgen _ _ _ Hp1 Ht1 Hc1). f_equal. ring.
Qed.

Lemma bpm_smoothing_is_geometric_witness :
  AnimationController.current_bpm
    (run_queries [(2, None); (3, None)]
       (AnimationController.mk 0 (Some 60) (Some 80%Z) 1.0 0.1 None None 0.3))
  = Some (IZR 80 + (60 - IZR 80) * (1 - 0.1) ^ 2).
Proof.
  exact (proj1 (bpm_smoothing_is_geometric
                  (AnimationController.mk 0 (Some 60) (Some 80%Z) 1.0 0.1
                     None None 0.3)
                  80%Z [(2, None); (3, None)] eq_refl eq_refl) 60 eq_refl).
Defined.

Lemma py_fmod_add_periods (x y : R) (k : Z) :
  0 < y -> Py.fmod (x + IZR k * y) y = Py.fmod x y.
Proof.
  intros Hy. unfold Py.fmod.
  replace ((x + IZR k * y) / y) with (x / y + IZR k) by (field; lra).
  rewrite Zfloor_addz, plus_IZR. ring.
Qed.

(** Between pulses the animation is periodic in the query instant: for the
    BPM the query works with (the stored one after its smoothing step), two
    instants a whole number of beat intervals [60 / bpm] apart give the same
    scale. *)
Theorem fallback_scale_is_periodic
    (s : AnimationController.t) (bpm t : R) (k : Z)
    (Hpulse : AnimationController.heartbeat_pulse_start s = None)
    (Hbpm : AnimationController.current_bpm (AnimationController.smooth_bpm s)
            = Some bpm)
    (Hpos : 0 < bpm) :
  fst (AnimationController.get_beat_scale (t + IZR k * (60 / bpm)) None s)
  = fst (AnimationController.get_beat_scale t None s).
Proof.
  rewrite !get_beat_scale_no_pulse by exact Hpulse.
  unfold AnimationController.bpm_fallback. rewrite Hbpm.
  rewrite (proj2 (py_leb_false bpm 0) Hpos).
  cbn [fst AnimationController.query_instant]. do 2 f_equal.
  unfold AnimationController.beat_phase.
  assert (Hi : 0 < 60.0 / bpm) by (apply Rdiv_lt_0_compat; lra).
  replace (t + IZR k * (60 / bpm)
           - AnimationController.start_time (AnimationController.smooth_bpm s))
    with (t - AnimationController.start_time (AnimationController.smooth_bpm s)
          + IZR k * (60.0 / bpm)) by lra.
  now rewrite py_fmod_add_periods.
Qed.

Lemma fallback_scale_is_periodic_witness :
  fst (AnimationController.get_beat_scale (7 + IZR 3 * (60 / 60)) None
         (AnimationController.mk 0 (Some 60) None 1.0 0.1 None None 0.3))
  = fst (AnimationController.get_beat_scale 7 None
           (AnimationController.mk 0 (Some 60) None 1.0 0.1 None None 0.3)).
Proof.
  apply (fallback_scale_is_periodic
           (AnimationController.mk 0 (Some 60) None 1.0 0.1 None None 0.3)
           60 7 3 eq_refl eq_refl).
  lra.
Defined.

(** During a pulse a query only stores the scale it returns: the BPM
    smoothing does not advance, the pulse start stays, and asking again at
    the same instant gives the same answer and the same controller. *)
Theorem pulse_query_only_stores_scale
    (s : AnimationController.t) (clock : R) (ct : option R)
    (Hactive : AnimationController.pulse_active
                 (AnimationController.query_instant clock ct) s = true) :
  let r := AnimationController.get_beat_scale clock ct s in
  snd r = AnimationController.set_beat_scale (fst r) s /\
  AnimationController.current_bpm (snd r) = AnimationController.current_bpm s /\
  AnimationController.get_beat_scale clock ct (snd r) = r.
Proof.
  unfold AnimationController.pulse_active in Hactive.
  destruct (AnimationController.heartbeat_pulse_start s) as [p |] eqn:Hs;
    [| discriminate].
  apply py_ltb_true in Hactive. intros r. unfold r.
  rewrite (get_beat_scale_event clock ct s p Hs Hactive). cbn [fst snd].
  split; [reflexivity |]. split; [reflexivity |].
  rewrite (get_beat_scale_event clock ct _ p); [reflexivity | exact Hs |].
  exact Hactive.
Qed.

Lemma pulse_query_only_stores_scale_witness :
  AnimationController.current_bpm
    (snd (AnimationController.get_beat_scale 100.05 None just_triggered))
  = AnimationController.current_bpm just_triggered.
Proof.
  refine (proj1 (proj2 (pulse_query_only_stores_scale just_triggered 100.05
                          None _))).
  unfold AnimationController.pulse_active. simpl.
  apply py_ltb_true. lra.
Defined.

(** In the decay part of a pulse (from 30% of the pulse duration on) the
    scale never grows from one query instant to a later one. *)
Theorem pulse_decay_is_monotone
    (s : AnimationController.t) (start t1 t2 : R)
    (Hstart : AnimationController.heartbeat_pulse_start s = Some start)
    (Hdur : 0 < AnimationController.pulse_duration s)
    (H1 : 0.3 * AnimationController.pulse_duration s <= t1 - start)
    (H12 : t1 <= t2)
    (H2 : t2 - start < AnimationController.pulse_duration s) :
  fst (AnimationController.get_beat_scale t2 None s)
  <= fst (AnimationController.get_beat_scale t1 None s).
Proof.
  rewrite !(get_beat_scale_event _ None s start Hstart)
    by (cbn [AnimationController.query_instant]; lra).
  cbn [fst AnimationController.query_instant].
  set (d := AnimationController.pulse_duration s) in *.
  assert (Hp : forall t, 0.3 * d <= t - start -> t - start < d ->
                         0.3 <= (t - start) / d < 1).
  { intros t Ha Hb. split.
    - apply (Rmult_le_reg_r d); [lra |].
      replace ((t - start) / d * d) with (t - start) by (field; lra). lra.
    - apply (Rmult_lt_reg_r d); [lra |].
      replace ((t - start) / d * d) with (t - start) by (field; lra). lra. }
  destruct (Hp t1 H1 ltac:(lra)) as [Ha1 Hb1].
  destruct (Hp t2 ltac:(lra) H2) as [Ha2 Hb2].
  assert (Hle : (t1 - start) / d <= (t2 - start) / d).
  { unfold Rdiv. apply Rmult_le_compat_r; [| lra].
    left. now apply Rinv_0_lt_compat. }
  rewrite !event_pulse_decay, amplitude_value by lra.
  pose proof PI_RGT_0 as Hpi.
  assert (Hcos : cos (((t2 - start) / d - 0.3) / 0.7 * PI / 2)
                 <= cos (((t1 - start) / d - 0.3) / 0.7 * PI / 2)).
  { apply cos_decr_1; nra. }
  nra.
Qed.

Lemma pulse_decay_is_monotone_witness :
  fst (AnimationController.get_beat_scale 100.2 None just_triggered)
  <= fst (AnimationController.get_beat_scale 100.1 None just_triggered).
Proof.
  apply (pulse_decay_is_monotone just_triggered 100 100.1 100.2 eq_refl);
    simpl; lra.
Defined.

(** After [reset], as long as only queries are made, every query returns
    exactly 1.0, whatever its instant, and the controller stays without BPM
    and without pulse. *)
Theorem reset_then_queries_are_neutral
    (s : AnimationController.t) (now : R) (qs : list (R * option R))
    (clock : R) (ct : option R) :
  let s' := run_queries qs (AnimationController.reset now s) in
  fst (AnimationController.get_beat_scale clock ct s') = 1.0 /\
  AnimationController.current_bpm s' = None /\
  AnimationController.target_bpm s' = None /\
  AnimationController.heartbeat_pulse_start s' = None /\
  AnimationController.start_time s' = now.
Proof.
  assert (Hq : forall s0 c o,
    AnimationController.current_bpm s0 = None ->
    AnimationController.target_bpm s0 = None ->
    AnimationController.heartbeat_pulse_start s0 = None ->
    AnimationController.get_beat_scale c o s0
    = (1.0, AnimationController.set_beat_scale 1.0 s0)).
  { intros s0 c o Hc Ht Hp. rewrite (get_beat_scale_no_pulse _ _ _ Hp).
    unfold AnimationController.bpm_fallback.
    rewrite (smooth_bpm_no_target s0 Ht), Hc. reflexivity. }
  assert (Hgen : forall qs0 s0,
    AnimationController.current_bpm s0 = None ->
    AnimationController.target_bpm s0 = None ->
    AnimationController.heartbeat_pulse_start s0 = None ->
    AnimationController.current_bpm (run_queries qs0 s0) = None /\
    AnimationController.target_bpm (run_queries qs0 s0) = None /\
    AnimationController.heartbeat_pulse_start (run_queries qs0 s0) = None /\
    AnimationController.start_time (run_queries qs0 s0)
    = AnimationController.start_time s0).
  { induction qs0 as [| q qs0 IH]; intros s0 Hc Ht Hp.
    - change (run_queries [] s0) with s0. auto.
    - rewrite run_queries_cons, (Hq s0 _ _ Hc Ht Hp). cbn [snd].
      apply (IH (AnimationController.set_beat_scale 1.0 s0)); assumption. }
  intros s'.
  destruct (Hgen qs (AnimationController.reset now s) eq_refl eq_refl eq_refl)
    as (Hc & Ht & Hp & Hst).
  fold s' in Hc, Ht, Hp, Hst.
  rewrite (Hq s' clock ct Hc Ht Hp). auto.
Qed.

(** ** [chest_tracker.py]: the smoothed anchors *)

(** What one 2D call does in terms of the anchor a fresh tracker returns. *)
Lemma get_chest_position_2d_step lms w h (s : ChestTracker.t) target :
  fst (ChestTracker.get_chest_position_2d lms w h
         (ChestTracker.init (ChestTracker.smoothing_factor s))) = Some target ->
  let blended :=
    match ChestTracker.last_position_2d s with
    | Some last =>
        Np.add2 (Np.scale2 (ChestTracker.smoothing_factor s) last)
                (Np.scale2 (1.0 - ChestTracker.smoothing_factor s) target)
    | None => target
    end in
  ChestTracker.get_chest_position_2d lms w h s
  = (Some blended,
     ChestTracker.mk (ChestTracker.last_position s) (ChestTracker.last_rotation s)
       (Some blended) (ChestTracker.smoothing_factor s)).
Proof.
  unfold ChestTracker.get_chest_position_2d.
  destruct (ChestTracker.extract_landmark_2d lms ChestTracker.LEFT_SHOULDER)
    as [l |]; [| discriminate].
  destruct (ChestTracker.extract_landmark_2d lms ChestTracker.RIGHT_SHOULDER)
    as [r |]; [| discriminate].
  cbn [fst ChestTracker.last_position_2d ChestTracker.init].
  intros H. injection H as <-. reflexivity.
Qed.

Lemma repeat_position_2d_fields n lms w h s :
  ChestTracker.smoothing_factor (repeat_position_2d n lms w h s)
  = ChestTracker.smoothing_factor s /\
  ChestTracker.last_position (repeat_position_2d n lms w h s)
  = ChestTracker.last_position s /\
  ChestTracker.last_rotation (repeat_position_2d n lms w h s)
  = ChestTracker.last_rotation s.
Proof.
  induction n as [| n IH]; [auto |].
  unfold repeat_position_2d in *. simpl Nat.iter.
  destruct IH as (IH1 & IH2 & IH3). rewrite <- IH1, <- IH2, <- IH3.
  unfold ChestTracker.get_chest_position_2d.
  destruct (ChestTracker.extract_landmark_2d lms ChestTracker.LEFT_SHOULDER);
    [| auto].
  destruct (ChestTracker.extract_landmark_2d lms ChestTracker.RIGHT_SHOULDER);
    auto.
Qed.

(** Held on the same pose, the smoothed 2D anchor closes in on the anchor
    of that pose geometrically: starting from a stored anchor [p0], after n
    calls it is [target + a^n * (p0 - target)], [a] the smoothing factor;
    starting from no stored anchor it is the target from the first call on. *)
Theorem anchor_2d_converges_geometrically
    (lms : ChestTracker.Landmarks) (w h : Z) (s : ChestTracker.t)
    (target : Np.vec2) (n : nat)
    (Htarget :
       fst (ChestTracker.get_chest_position_2d lms w h
              (ChestTracker.init (ChestTracker.smoothing_factor s)))
       = Some target) :
  let a := ChestTracker.smoothing_factor s in
  (forall p0,
     ChestTracker.last_position_2d s = Some p0 ->
     ChestTracker.last_position_2d (repeat_position_2d n lms w h s)
     = Some (Np.V2 (Np.x2 target + a ^ n * (Np.x2 p0 - Np.x2 target))
                   (Np.y2 target + a ^ n * (Np.y2 p0 - Np.y2 target)))) /\
  (ChestTracker.last_position_2d s = None ->
   ChestTracker.last_position_2d (repeat_position_2d (S n) lms w h s)
   = Some target).
Proof.
  intros a.
  assert (Hgen : forall m p0,
     ChestTracker.last_position_2d s = Some p0 ->
     ChestTracker.last_position_2d (repeat_position_2d m lms w h s)
     = Some (Np.V2 (Np.x2 target + a ^ m * (Np.x2 p0 - Np.x2 target))
                   (Np.y2 target + a ^ m * (Np.y2 p0 - Np.y2 target)))).
  { induction m as [| m IH]; intros p0 Hp0.
    - unfold repeat_position_2d. simpl. rewrite Hp0. destruct p0.
      simpl. do 2 f_equal; lra.
    - specialize (IH p0 Hp0).
      destruct (repeat_position_2d_fields m lms w h s) as (Hsf & _ & _).
      unfold repeat_position_2d in *. simpl Nat.iter.
      set (sm := Nat.iter m _ s) in *.
      rewrite (get_chest_position_2d_step lms w h sm target)
        by (rewrite Hsf; exact Htarget).
      cbn [snd ChestTracker.last_position_2d]. rewrite IH, Hsf. fold a.
      unfold Np.add2, Np.scale2. simpl. replace 1.0 with 1 by lra.
      clearbody a. do 2 f_equal; ring. }
  split; [apply Hgen |].
  intros Hnone.
  induction n as [| n IH].
  - unfold repeat_position_2d. simpl.
    rewrite (get_chest_position_2d_step lms w h s target Htarget).
    cbn [snd ChestTracker.last_position_2d]. now rewrite Hnone.
  - destruct (repeat_position_2d_fields (S n) lms w h s) as (Hsf & _ & _).
    unfold repeat_position_2d in *. simpl Nat.iter in *.
    set (sm := snd (ChestTracker.get_chest_position_2d lms w h (Nat.iter n _ s)))
      in *.
    rewrite (get_chest_position_2d_step lms w h sm target)
      by (rewrite Hsf; exact Htarget).
    cbn [snd ChestTracker.last_position_2d]. rewrite IH, Hsf.
    destruct target. unfold Np.add2, Np.scale2. simpl.
    replace 1.0 with 1 by lra. do 2 f_equal; ring.
Qed.

Lemma shoulders_only_anchor (sf : R) :
  fst (ChestTracker.get_chest_position_2d shoulders_only_pose 1000 1000
         (ChestTracker.init sf))
  = Some (Np.V2 530 360).
Proof.
  unfold ChestTracker.get_chest_position_2d.
  rewrite (extract_landmark_2d_visible shoulders_only_pose
             ChestTracker.LEFT_SHOULDER _ eq_refl) by (simpl; lra).
  rewrite (extract_landmark_2d_visible shoulders_only_pose
             ChestTracker.RIGHT_SHOULDER _ eq_refl) by (simpl; lra).
  rewrite (extract_landmark_2d_absent shoulders_only_pose ChestTracker.LEFT_HIP)
    by (unfold ChestTracker.absent; simpl; lra).
  cbn [fst ChestTracker.last_position_2d ChestTracker.init
       ChestTracker.x ChestTracker.y Np.x2 Np.y2 Np.add2 Np.div2].
  replace (Rabs ((0.6 - 0.4) * 1000)) with 200 by (rewrite Rabs_pos_eq; lra).
  do 2 f_equal; lra.
Qed.

Lemma anchor_2d_converges_geometrically_witness :
  ChestTracker.last_position_2d
    (repeat_position_2d 2 shoulders_only_pose 1000 1000
       (ChestTracker.mk None None (Some (Np.V2 500 300)) 0.7))
  = Some (Np.V2 (530 + 0.7 ^ 2 * (500 - 530)) (360 + 0.7 ^ 2 * (300 - 360))).
Proof.
  exact (proj1 (anchor_2d_converges_geometrically shoulders_only_pose 1000 1000
                  (ChestTracker.mk None None (Some (Np.V2 500 300)) 0.7)
                  (Np.V2 530 360) 2 (shoulders_only_anchor 0.7))
               (Np.V2 500 300) eq_refl).
Defined.

(** The 2D anchor does not depend on which shoulder (or hip) is called left
    and which right: two poses that differ by exchanging the left and right
    shoulder and the left and right hip give the same result and the same
    tracker. *)
Theorem anchor_2d_ignores_left_right
    (lms lms' : ChestTracker.Landmarks) (w h : Z) (s : ChestTracker.t)
    (Hls : nth_error lms' ChestTracker.LEFT_SHOULDER
           = nth_error lms ChestTracker.RIGHT_SHOULDER)
    (Hrs : nth_error lms' ChestTracker.RIGHT_SHOULDER
           = nth_error lms ChestTracker.LEFT_SHOULDER)
    (Hlh : nth_error lms' ChestTracker.LEFT_HIP
           = nth_error lms ChestTracker.RIGHT_HIP)
    (Hrh : nth_error lms' ChestTracker.RIGHT_HIP
           = nth_error lms ChestTracker.LEFT_HIP) :
  ChestTracker.get_chest_position_2d lms' w h s
  = ChestTracker.get_chest_position_2d lms w h s.
Proof.
  assert (Hex : forall i j, nth_error lms' i = nth_error lms j ->
            ChestTracker.extract_landmark_2d lms' i
            = ChestTracker.extract_landmark_2d lms j).
  { intros i j H. unfold ChestTracker.extract_landmark_2d. now rewrite H. }
  unfold ChestTracker.get_chest_position_2d.
  rewrite (Hex _ _ Hls), (Hex _ _ Hrs), (Hex _ _ Hlh), (Hex _ _ Hrh).
  destruct (ChestTracker.extract_landmark_2d lms ChestTracker.LEFT_SHOULDER)
    as [[lx ly] |];
    destruct (ChestTracker.extract_landmark_2d lms ChestTracker.RIGHT_SHOULDER)
      as [[rx ry] |]; try reflexivity.
  cbn [Np.x2 Np.y2 Np.add2 Np.div2].
  assert (Hw : Rabs ((lx - rx) * IZR w) = Rabs ((rx - lx) * IZR w)).
  { rewrite <- Rabs_Ropp. f_equal. ring. }
  rewrite Hw.
  assert (Hpos :
    Np.V2 ((rx + lx) / 2.0 * IZR w + Rabs ((rx - lx) * IZR w) * 0.15)
      match ChestTracker.extract_landmark_2d lms ChestTracker.RIGHT_HIP with
      | Some left_hip_2d =>
          match ChestTracker.extract_landmark_2d lms ChestTracker.LEFT_HIP with
          | Some right_hip_2d =>
              (ry + ly) / 2.0 * IZR h +
              ((Np.y2 left_hip_2d + Np.y2 right_hip_2d) / 2.0 * IZR h
               - (ry + ly) / 2.0 * IZR h) * 0.25
          | None => (ry + ly) / 2.0 * IZR h + Rabs ((rx - lx) * IZR w) * 0.3
          end
      | None => (ry + ly) / 2.0 * IZR h + Rabs ((rx - lx) * IZR w) * 0.3
      end
    = Np.V2 ((lx + rx) / 2.0 * IZR w + Rabs ((rx - lx) * IZR w) * 0.15)
      match ChestTracker.extract_landmark_2d lms ChestTracker.LEFT_HIP with
      | Some left_hip_2d =>
          match ChestTracker.extract_landmark_2d lms ChestTracker.RIGHT_HIP with
          | Some right_hip_2d =>
              (ly + ry) / 2.0 * IZR h +
              ((Np.y2 left_hip_2d + Np.y2 right_hip_2d) / 2.0 * IZR h
               - (ly + ry) / 2.0 * IZR h) * 0.25
          | None => (ly + ry) / 2.0 * IZR h + Rabs ((rx - lx) * IZR w) * 0.3
          end
      | None => (ly + ry) / 2.0 * IZR h + Rabs ((rx - lx) * IZR w) * 0.3
      end).
  { destruct (ChestTracker.extract_landmark_2d lms ChestTracker.LEFT_HIP);
      destruct (ChestTracker.extract_landmark_2d lms ChestTracker.RIGHT_HIP);
      f_equal; lra. }
  rewrite Hpos. reflexivity.
Qed.

Lemma anchor_2d_ignores_left_right_witness :
  ChestTracker.get_chest_position_2d swapped_shoulders_pose 1000 1000
    (ChestTracker.init 0.7)
  = ChestTracker.get_chest_position_2d shoulders_only_pose 1000 1000
      (ChestTracker.init 0.7).
Proof.
  apply anchor_2d_ignores_left_right; reflexivity.
Defined.

(** With both hips visible and no stored anchor, the anchor sits a quarter
    of the way down from the shoulder line to the hip line (so between the
    two when the hips are below the shoulders), and to the right of the
    shoulder midpoint by 15% of the shoulder width; the horizontal position
    of the hips plays no part. *)
Theorem anchor_2d_between_shoulders_and_hips
    (lms : ChestTracker.Landmarks) (w h : Z) (s : ChestTracker.t)
    (l r lh rh : ChestTracker.Landmark)
    (Hl : nth_error lms ChestTracker.LEFT_SHOULDER = Some l)
    (Hr : nth_error lms ChestTracker.RIGHT_SHOULDER = Some r)
    (Hlh : nth_error lms ChestTracker.LEFT_HIP = Some lh)
    (Hrh : nth_error lms ChestTracker.RIGHT_HIP = Some rh)
    (Hvis : 0.5 <= ChestTracker.visibility l /\ 0.5 <= ChestTracker.visibility r /\
            0.5 <= ChestTracker.visibility lh /\ 0.5 <= ChestTracker.visibility rh)
    (Hfresh : ChestTracker.last_position_2d s = None)
    (Hh : (0 <= h)%Z)
    (Hbelow : ChestTracker.y l + ChestTracker.y r
              <= ChestTracker.y lh + ChestTracker.y rh) :
  let shoulder_line := (ChestTracker.y l + ChestTracker.y r) / 2 * IZR h in
  let hip_line := (ChestTracker.y lh + ChestTracker.y rh) / 2 * IZR h in
  let middle := (ChestTracker.x l + ChestTracker.x r) / 2 * IZR w in
  exists p,
    fst (ChestTracker.get_chest_position_2d lms w h s) = Some p /\
    Np.y2 p = 0.75 * shoulder_line + 0.25 * hip_line /\
    shoulder_line <= Np.y2 p <= hip_line /\
    Np.x2 p = middle
              + 0.15 * Rabs ((ChestTracker.x r - ChestTracker.x l) * IZR w) /\
    middle <= Np.x2 p.
Proof.
  destruct Hvis as (Hvl & Hvr & Hvlh & Hvrh). intros shoulder_line hip_line middle.
  unfold ChestTracker.get_chest_position_2d.
  rewrite (extract_landmark_2d_visible _ _ _ Hl Hvl).
  rewrite (extract_landmark_2d_visible _ _ _ Hr Hvr).
  rewrite (extract_landmark_2d_visible _ _ _ Hlh Hvlh).
  rewrite (extract_landmark_2d_visible _ _ _ Hrh Hvrh).
  rewrite Hfresh. cbn [fst Np.x2 Np.y2 Np.add2 Np.div2].
  eexists. split; [reflexivity |]. cbn [Np.x2 Np.y2].
  assert (H0 : 0 <= IZR h) by now apply IZR_le.
  pose proof (Rabs_pos ((ChestTracker.x r - ChestTracker.x l) * IZR w)) as Ha.
  unfold shoulder_line, hip_line, middle.
  repeat split; try lra; nra.
Qed.

(** The 2D path and the 3D path keep separate state: a call of one does not
    change what the other returns, and the two calls can be made in either
    order. *)
Theorem tracking_paths_do_not_interfere
    (svd : Np.mat3 -> Np.mat3 * Np.vec3 * Np.mat3)
    (world normalized : ChestTracker.Landmarks) (w h : Z) (s : ChestTracker.t) :
  fst (ChestTracker.get_chest_position_2d normalized w h
         (snd (ChestTracker.track_chest svd world s)))
  = fst (ChestTracker.get_chest_position_2d normalized w h s) /\
  fst (ChestTracker.track_chest svd world
         (snd (ChestTracker.get_chest_position_2d normalized w h s)))
  = fst (ChestTracker.track_chest svd world s) /\
  snd (ChestTracker.get_chest_position_2d normalized w h
         (snd (ChestTracker.track_chest svd world s)))
  = snd (ChestTracker.track_chest svd world
           (snd (ChestTracker.get_chest_position_2d normalized w h s))).
Proof.
  destruct s as [lp lr lp2 sf].
  unfold ChestTracker.get_chest_position_2d, ChestTracker.track_chest.
  destruct (ChestTracker.extract_landmark_3d world ChestTracker.LEFT_SHOULDER);
    destruct (ChestTracker.extract_landmark_3d world ChestTracker.RIGHT_SHOULDER);
    destruct (ChestTracker.extract_landmark_2d normalized ChestTracker.LEFT_SHOULDER);
    destruct (ChestTracker.extract_landmark_2d normalized ChestTracker.RIGHT_SHOULDER);
    cbn [fst snd ChestTracker.last_position ChestTracker.last_rotation
         ChestTracker.last_position_2d ChestTracker.smoothing_factor];
    repeat split; reflexivity.
Qed.

Lemma track_chest_position_step svd lms (s : ChestTracker.t) ls rs :
  ChestTracker.extract_landmark_3d lms ChestTracker.LEFT_SHOULDER = Some ls ->
  ChestTracker.extract_landmark_3d lms ChestTracker.RIGHT_SHOULDER = Some rs ->
  let target := MathUtils.calculate_chest_position ls rs Config.HEART_OFFSET_Z in
  let position :=
    match ChestTracker.last_position s with
    | Some last =>
        Np.add3 (Np.scale3 (ChestTracker.smoothing_factor s) last)
                (Np.scale3 (1.0 - ChestTracker.smoothing_factor s) target)
    | None => target
    end in
  fst (fst (ChestTracker.track_chest svd lms s)) = Some position /\
  ChestTracker.last_position (snd (ChestTracker.track_chest svd lms s))
  = Some position /\
  ChestTracker.smoothing_factor (snd (ChestTracker.track_chest svd lms s))
  = ChestTracker.smoothing_factor s.
Proof.
  intros Hl Hr. cbv zeta. unfold ChestTracker.track_chest.
  rewrite Hl, Hr. cbn [fst snd ChestTracker.last_position
                       ChestTracker.smoothing_factor].
  repeat split; reflexivity.
Qed.

(** Held on the same pose with both shoulders visible, the smoothed 3D
    position closes in geometrically on the shoulder midpoint moved 0.05
    towards the camera: from a stored position [p0], after n calls it is
    [target + a^n * (p0 - target)]; from no stored position it is the target
    from the first call on. *)
Theorem position_3d_converges_geometrically
    (svd : Np.mat3 -> Np.mat3 * Np.vec3 * Np.mat3)
    (lms : ChestTracker.Landmarks) (s : ChestTracker.t)
    (l r : ChestTracker.Landmark) (n : nat)
    (Hl : nth_error lms ChestTracker.LEFT_SHOULDER = Some l)
    (Hr : nth_error lms ChestTracker.RIGHT_SHOULDER = Some r)
    (Hvl : 0.5 <= ChestTracker.visibility l)
    (Hvr : 0.5 <= ChestTracker.visibility r) :
  let a := ChestTracker.smoothing_factor s in
  let target :=
    Np.V3 ((ChestTracker.x l + ChestTracker.x r) / 2)
          ((ChestTracker.y l + ChestTracker.y r) / 2)
          ((ChestTracker.z l + ChestTracker.z r) / 2 - 0.05) in
  (forall p0,
     ChestTracker.last_position s = Some p0 ->
     ChestTracker.last_position (repeat_track_chest svd n lms s)
     = Some (Np.add3 target (Np.scale3 (a ^ n) (Np.sub3 p0 target)))) /\
  (ChestTracker.last_position s = None ->
   fst (fst (ChestTracker.track_chest svd lms s)) = Some target /\
   ChestTracker.last_position (repeat_track_chest svd (S n) lms s)
   = Some target).
Proof.
  intros a target.
  pose proof (extract_landmark_3d_visible _ _ _ Hl Hvl) as El.
  pose proof (extract_landmark_3d_visible _ _ _ Hr Hvr) as Er.
  assert (Htarget : MathUtils.calculate_chest_position
                      (Np.V3 (ChestTracker.x l) (ChestTracker.y l) (ChestTracker.z l))
                      (Np.V3 (ChestTracker.x r) (ChestTracker.y r) (ChestTracker.z r))
                      Config.HEART_OFFSET_Z = target).
  { unfold MathUtils.calculate_chest_position, target, Config.HEART_OFFSET_Z.
    simpl. f_equal; lra. }
  assert (Hstep : forall s0,
    ChestTracker.last_position (snd (ChestTracker.track_chest svd lms s0))
    = Some match ChestTracker.last_position s0 with
           | Some last =>
               Np.add3 (Np.scale3 (ChestTracker.smoothing_factor s0) last)
                       (Np.scale3 (1.0 - ChestTracker.smoothing_factor s0) target)
           | None => target
           end /\
    ChestTracker.smoothing_factor (snd (ChestTracker.track_chest svd lms s0))
    = ChestTracker.smoothing_factor s0).
  { intros s0.
    destruct (track_chest_position_step svd lms s0 _ _ El Er) as (_ & H1 & H2).
    rewrite Htarget in H1. split; assumption. }
  assert (Hsf : forall m,
    ChestTracker.smoothing_factor (repeat_track_chest svd m lms s) = a).
  { induction m as [| m IH]; [reflexivity |].
    unfold repeat_track_chest in *. simpl Nat.iter.
    rewrite (proj2 (Hstep _)). exact IH. }
  assert (Hgen : forall m p0,
    ChestTracker.last_position s = Some p0 ->
    ChestTracker.last_position (repeat_track_chest svd m lms s)
    = Some (Np.add3 target (Np.scale3 (a ^ m) (Np.sub3 p0 target)))).
  { induction m as [| m IH]; intros p0 Hp0.
    - unfold repeat_track_chest. simpl Nat.iter. rewrite Hp0.
      destruct p0. unfold Np.add3, Np.scale3, Np.sub3, target. simpl.
      do 2 f_equal; lra.
    - specialize (IH p0 Hp0). pose proof (Hsf m) as Hm.
      unfold repeat_track_chest in *. simpl Nat.iter.
      rewrite (proj1 (Hstep _)), IH, Hm.
      destruct p0. unfold Np.add3, Np.scale3, Np.sub3, target. simpl.
      replace 1.0 with 1 by lra. clearbody a. do 2 f_equal; ring. }
  split; [apply Hgen |].
  intros Hnone. split.
  - destruct (track_chest_position_step svd lms s _ _ El Er) as (H1 & _ & _).
    rewrite Htarget, Hnone in H1. exact H1.
  - induction n as [| n IH].
    + unfold repeat_track_chest. simpl Nat.iter.
      rewrite (proj1 (Hstep _)), Hnone. reflexivity.
    + pose proof (Hsf (S n)) as Hm.
      unfold repeat_track_chest in *. simpl Nat.iter in *.
      rewrite (proj1 (Hstep _)), IH, Hm.
      unfold Np.add3, Np.scale3, target. simpl.
      replace 1.0 with 1 by lra. clearbody a. do 2 f_equal; ring.
Qed.

Lemma anchor_2d_between_shoulders_and_hips_witness :
  exists p,
    fst (ChestTracker.get_chest_position_2d torso_pose 1000 1000
           (ChestTracker.init 0.7)) = Some p /\
    Np.y2 p = 0.75 * ((0.3 + 0.3) / 2 * 1000) + 0.25 * ((0.7 + 0.7) / 2 * 1000).
Proof.
  destruct (anchor_2d_between_shoulders_and_hips torso_pose 1000 1000
              (ChestTracker.init 0.7)
              (ChestTracker.mkLandmark 0.4 0.3 (-0.1) 0.9)
              (ChestTracker.mkLandmark 0.6 0.3 (-0.1) 0.9)
              (ChestTracker.mkLandmark 0.45 0.7 0 0.9)
              (ChestTracker.mkLandmark 0.55 0.7 0 0.9)
              eq_refl eq_refl eq_refl eq_refl)
    as (p & Hp & Hy & _).
  - simpl. lra.
  - reflexivity.
  - lia.
  - simpl. lra.
  - exists p. split; [exact Hp | exact Hy].
Defined.

Lemma position_3d_converges_geometrically_witness :
  ChestTracker.last_position
    (repeat_track_chest svd_of_identity 3 torso_pose tracked_once)
  = Some (Np.add3 (Np.V3 ((0.4 + 0.6) / 2) ((0.3 + 0.3) / 2)
                         ((-0.1 + -0.1) / 2 - 0.05))
            (Np.scale3 (0.7 ^ 3)
               (Np.sub3 (Np.V3 0 0 0)
                  (Np.V3 ((0.4 + 0.6) / 2) ((0.3 + 0.3) / 2)
                         ((-0.1 + -0.1) / 2 - 0.05))))).
Proof.
  refine (proj1 (position_3d_converges_geometrically svd_of_identity torso_pose
                   tracked_once
                   (ChestTracker.mkLandmark 0.4 0.3 (-0.1) 0.9)
                   (ChestTracker.mkLandmark 0.6 0.3 (-0.1) 0.9)
                   3 eq_refl eq_refl _ _) (Np.V3 0 0 0) eq_refl).
  - simpl. lra.
  - simpl. lra.
Defined.

(** ** [math_utils.py]: vectors and rotations *)

Lemma dot_self_nonneg (v : Np.vec3) : 0 <= Np.dot v v.
Proof. destruct v. unfold Np.dot. simpl. nra. Qed.

Lemma dot_self_zero (v : Np.vec3) : Np.dot v v = 0 -> v = zero3.
Proof.
  destruct v as [a b c]. unfold Np.dot, zero3. simpl. intros H.
  assert (a = 0) by nra. assert (b = 0) by nra. assert (c = 0) by nra.
  subst. reflexivity.
Qed.

Lemma norm_sqr (v : Np.vec3) : Np.norm v * Np.norm v = Np.dot v v.
Proof. unfold Np.norm. apply sqrt_sqrt. apply dot_self_nonneg. Qed.

Lemma norm_pos (v : Np.vec3) : v <> zero3 -> 0 < Np.norm v.
Proof.
  intros Hv. unfold Np.norm. apply sqrt_lt_R0.
  destruct (dot_self_nonneg v) as [H | H]; [exact H |].
  exfalso. apply Hv. now apply dot_self_zero.
Qed.

Lemma normalize_vector_zero : MathUtils.normalize_vector zero3 = zero3.
Proof.
  unfold MathUtils.normalize_vector, Np.norm, zero3, Np.dot. simpl.
  replace (0 * 0 + 0 * 0 + 0 * 0) with 0 by lra. rewrite sqrt_0.
  unfold Py.eqb. destruct (Req_dec_T 0 0); [reflexivity | lra].
Qed.

Lemma normalize_vector_nonzero (v : Np.vec3) :
  v <> zero3 -> MathUtils.normalize_vector v = Np.div3 v (Np.norm v).
Proof.
  intros Hv. unfold MathUtils.normalize_vector.
  pose proof (norm_pos v Hv). now rewrite py_eqb_false by lra.
Qed.

Lemma dot_div3 (a b : Np.vec3) (k m : R) :
  k <> 0 -> m <> 0 ->
  Np.dot (Np.div3 a k) (Np.div3 b m) = Np.dot a b / (k * m).
Proof.
  intros Hk Hm. destruct a, b. unfold Np.dot, Np.div3. simpl. field. auto.
Qed.

Lemma normalize_vector_is_unit (v : Np.vec3) :
  v <> zero3 ->
  Np.dot (MathUtils.normalize_vector v) (MathUtils.normalize_vector v) = 1.
Proof.
  intros Hv. rewrite normalize_vector_nonzero by exact Hv.
  pose proof (norm_pos v Hv) as Hn.
  rewrite dot_div3 by lra. rewrite <- norm_sqr. field. lra.
Qed.

(** [normalize_vector] returns the zero vector unchanged and turns every
    other vector into the unit vector of the same direction; normalizing
    twice is normalizing once. *)
Theorem normalize_vector_spec (v : Np.vec3) :
  MathUtils.normalize_vector zero3 = zero3 /\
  (v <> zero3 ->
   Np.norm (MathUtils.normalize_vector v) = 1 /\
   v = Np.scale3 (Np.norm v) (MathUtils.normalize_vector v) /\
   0 < Np.norm v) /\
  MathUtils.normalize_vector (MathUtils.normalize_vector v)
  = MathUtils.normalize_vector v.
Proof.
  split; [exact normalize_vector_zero |]. split.
  - intros Hv. pose proof (norm_pos v Hv) as Hn. split; [| split; [| exact Hn]].
    + unfold Np.norm at 1. rewrite normalize_vector_is_unit by exact Hv.
      apply sqrt_1.
    + rewrite normalize_vector_nonzero by exact Hv.
      destruct v. unfold Np.scale3, Np.div3. cbn [Np.x3 Np.y3 Np.z3].
      f_equal; field; lra.
  - destruct (Req_dec_T (Np.dot v v) 0) as [Hz | Hnz].
    + apply dot_self_zero in Hz. subst v. now rewrite !normalize_vector_zero.
    + apply normalize_vector_unit. apply normalize_vector_is_unit.
      intros ->. apply Hnz. unfold Np.dot, zero3. simpl. lra.
Qed.

Lemma cross_div3 (a b : Np.vec3) (k m : R) :
  k <> 0 -> m <> 0 ->
  Np.cross (Np.div3 a k) (Np.div3 b m) = Np.div3 (Np.cross a b) (k * m).
Proof.
  intros Hk Hm. destruct a, b. unfold Np.cross, Np.div3. simpl.
  f_equal; field; auto.
Qed.

Lemma div3_nonzero (a : Np.vec3) (k : R) :
  k <> 0 -> a <> zero3 -> Np.div3 a k <> zero3.
Proof.
  intros Hk Ha H. apply Ha. destruct a as [x y z]. unfold Np.div3, zero3 in *.
  simpl in H. injection H as Hx Hy Hz.
  assert (Hi : / k <> 0) by now apply Rinv_neq_0_compat.
  unfold Rdiv in *.
  apply Rmult_integral in Hx, Hy, Hz.
  destruct Hx as [-> | ?]; [| contradiction].
  destruct Hy as [-> | ?]; [| contradiction].
  destruct Hz as [-> | ?]; [| contradiction]. reflexivity.
Qed.

Lemma dot_div3_l (a b : Np.vec3) (k : R) :
  Np.dot (Np.div3 a k) b = Np.dot a b / k.
Proof. destruct a, b. unfold Np.dot, Np.div3, Rdiv. simpl. ring. Qed.

Lemma cross_zero_l (b : Np.vec3) : Np.cross zero3 b = zero3.
Proof. destruct b. unfold Np.cross, zero3. simpl. f_equal; lra. Qed.

Lemma cross_zero_r (a : Np.vec3) : Np.cross a zero3 = zero3.
Proof. destruct a. unfold Np.cross, zero3. simpl. f_equal; lra. Qed.

Lemma dot_cross_l (a b : Np.vec3) : Np.dot (Np.cross a b) a = 0.
Proof. destruct a, b. unfold Np.dot, Np.cross. simpl. ring. Qed.

Lemma lagrange_identity (a b : Np.vec3) :
  Np.dot (Np.cross a b) (Np.cross a b)
  = Np.dot a a * Np.dot b b - Np.dot a b * Np.dot a b.
Proof. destruct a, b. unfold Np.dot, Np.cross. simpl. ring. Qed.

(** The matrix with columns [r], [r x f] and [-f], for unit and orthogonal
    [r] and [f], is a proper rotation. *)
Lemma frame_is_proper_rotation (r f : Np.vec3) :
  Np.dot r r = 1 -> Np.dot f f = 1 -> Np.dot r f = 0 ->
  let u := Np.cross r f in
  Np.proper_rotation
    (Np.M3 (Np.V3 (Np.x3 r) (Np.x3 u) (- Np.x3 f))
           (Np.V3 (Np.y3 r) (Np.y3 u) (- Np.y3 f))
           (Np.V3 (Np.z3 r) (Np.z3 u) (- Np.z3 f))).
Proof.
  destruct r as [rx ry rz], f as [fx fy fz].
  unfold Np.dot. cbn [Np.x3 Np.y3 Np.z3]. intros Hr Hf Hrf. cbv zeta.
  unfold Np.proper_rotation, Np.orthonormal, Np.matmul, Np.transpose, Np.det,
    Np.dot, Np.cross, Np.col0, Np.col1, Np.col2, Np.eye3.
  cbn [Np.m3r0 Np.m3r1 Np.m3r2 Np.x3 Np.y3 Np.z3].
  split.
  - f_equal; f_equal; nsatz.
  - nsatz.
Qed.

(** The frame that [rotation_matrix_from_vectors] builds from its
    normalized arguments. *)
Lemma rotation_matrix_from_vectors_frame (forward up : Np.vec3) :
  Np.cross forward up <> zero3 ->
  let f := MathUtils.normalize_vector forward in
  let r := MathUtils.normalize_vector
             (Np.cross f (MathUtils.normalize_vector up)) in
  Np.dot r r = 1 /\ Np.dot f f = 1 /\ Np.dot r f = 0 /\
  MathUtils.rotation_matrix_from_vectors forward up
  = Np.M3 (Np.V3 (Np.x3 r) (Np.x3 (Np.cross r f)) (- Np.x3 f))
          (Np.V3 (Np.y3 r) (Np.y3 (Np.cross r f)) (- Np.y3 f))
          (Np.V3 (Np.z3 r) (Np.z3 (Np.cross r f)) (- Np.z3 f)).
Proof.
  intros Hc f r.
  assert (Hf0 : forward <> zero3).
  { intros ->. apply Hc. apply cross_zero_l. }
  assert (Hu0 : up <> zero3).
  { intros ->. apply Hc. apply cross_zero_r. }
  pose proof (norm_pos forward Hf0) as Hnf.
  pose proof (norm_pos up Hu0) as Hnu.
  assert (Hff : Np.dot f f = 1) by now apply normalize_vector_is_unit.
  assert (Hcn : Np.cross f (MathUtils.normalize_vector up) <> zero3).
  { unfold f. rewrite !normalize_vector_nonzero by assumption.
    rewrite cross_div3 by lra. apply div3_nonzero; [nra | exact Hc]. }
  assert (Hrr : Np.dot r r = 1) by now apply normalize_vector_is_unit.
  assert (Hrf : Np.dot r f = 0).
  { unfold r. rewrite (normalize_vector_nonzero _ Hcn).
    rewrite dot_div3_l, dot_cross_l. unfold Rdiv. ring. }
  split; [exact Hrr |]. split; [exact Hff |]. split; [exact Hrf |].
  unfold MathUtils.rotation_matrix_from_vectors. fold f. fold r.
  assert (Hu : Np.dot (Np.cross r f) (Np.cross r f) = 1).
  { rewrite lagrange_identity, Hrr, Hff, Hrf. lra. }
  rewrite (normalize_vector_unit _ Hu). reflexivity.
Qed.

Lemma rotation_matrix_from_vectors_proper (forward up : Np.vec3) :
  Np.cross forward up <> zero3 ->
  Np.proper_rotation (MathUtils.rotation_matrix_from_vectors forward up).
Proof.
  intros Hcross.
  destruct (rotation_matrix_from_vectors_frame forward up Hcross)
    as (Hrr & Hff & Hrf & Hm).
  rewrite Hm. now apply frame_is_proper_rotation.
Qed.

(** For a forward and an up vector that are not parallel (their cross
    product is not zero), [rotation_matrix_from_vectors] returns a proper
    rotation, which sends the axis (0, 0, -1) to the normalized forward
    vector. *)
Theorem rotation_matrix_from_vectors_is_rotation
    (forward up : Np.vec3) (Hcross : Np.cross forward up <> zero3) :
  let m := MathUtils.rotation_matrix_from_vectors forward up in
  Np.proper_rotation m /\
  Np.matvec3 m (Np.V3 0 0 (-1)) = MathUtils.normalize_vector forward.
Proof.
  intros m. split; [now apply rotation_matrix_from_vectors_proper |].
  destruct (rotation_matrix_from_vectors_frame forward up Hcross)
    as (Hrr & Hff & Hrf & Hm).
  fold m in Hm. rewrite Hm.
  - destruct (MathUtils.normalize_vector forward) as [fx fy fz].
    unfold Np.matvec3, Np.dot. cbn [Np.m3r0 Np.m3r1 Np.m3r2 Np.x3 Np.y3 Np.z3].
    f_equal; ring.
Qed.

Lemma rotation_matrix_from_vectors_is_rotation_witness :
  Np.proper_rotation
    (MathUtils.rotation_matrix_from_vectors (Np.V3 0 0 (-1)) (Np.V3 0 1 0)).
Proof.
  refine (proj1 (rotation_matrix_from_vectors_is_rotation
                   (Np.V3 0 0 (-1)) (Np.V3 0 1 0) _)).
  unfold Np.cross, zero3. simpl. intros H. injection H as H _ _. lra.
Defined.

Lemma normalize_vector_dot_zero (v : Np.vec3) :
  Np.dot v v = 0 -> MathUtils.normalize_vector v = v.
Proof.
  intros H. apply dot_self_zero in H. subst v. apply normalize_vector_zero.
Qed.

Lemma rotation_matrix_from_zero_forward (up : Np.vec3) :
  MathUtils.rotation_matrix_from_vectors zero3 up = zeros3.
Proof.
  unfold MathUtils.rotation_matrix_from_vectors.
  rewrite normalize_vector_zero, cross_zero_l, normalize_vector_zero,
    cross_zero_l, normalize_vector_zero.
  unfold zeros3, zero3. simpl. f_equal; f_equal; lra.
Qed.

Lemma chest_rotation_edge_on (ls rs lh rh : Np.vec3) :
  Np.x3 rs - Np.x3 ls + (Np.x3 rh - Np.x3 lh) = 0 ->
  Np.y3 rs - Np.y3 ls + (Np.y3 rh - Np.y3 lh) = 0 ->
  MathUtils.calculate_chest_rotation ls rs lh rh = zeros3.
Proof.
  intros Hx Hy. unfold MathUtils.calculate_chest_rotation.
  set (torso := Np.div3 (Np.add3 (Np.sub3 rs ls) (Np.sub3 rh lh)) 2.0).
  assert (Htx : Np.x3 torso = 0) by (unfold torso; simpl; lra).
  assert (Hty : Np.y3 torso = 0) by (unfold torso; simpl; lra).
  rewrite Htx, Hty.
  replace (Np.V3 (- 0) 0 0) with zero3 by (unfold zero3; f_equal; lra).
  now rewrite normalize_vector_zero, rotation_matrix_from_zero_forward.
Qed.

(** [calculate_chest_rotation] works from the sum of the shoulder vector
    and the hip vector, seen from above ([dx], [dy]).  When that is not
    zero the result is a proper rotation; when it is zero (a torso seen
    exactly edge-on) the result is the zero matrix, and this is what a
    tracker without stored rotation returns and stores. *)
Theorem chest_rotation_unless_edge_on
    (left_shoulder right_shoulder left_hip right_hip : Np.vec3) :
  let dx := (Np.x3 right_shoulder - Np.x3 left_shoulder)
            + (Np.x3 right_hip - Np.x3 left_hip) in
  let dy := (Np.y3 right_shoulder - Np.y3 left_shoulder)
            + (Np.y3 right_hip - Np.y3 left_hip) in
  let m := MathUtils.calculate_chest_rotation left_shoulder right_shoulder
             left_hip right_hip in
  (dx <> 0 \/ dy <> 0 -> Np.proper_rotation m) /\
  (dx = 0 -> dy = 0 -> m = zeros3 /\ Np.det m = 0).
Proof.
  intros dx dy m. unfold m, MathUtils.calculate_chest_rotation.
  set (torso := Np.div3 (Np.add3 (Np.sub3 right_shoulder left_shoulder)
                                 (Np.sub3 right_hip left_hip)) 2.0).
  assert (Htx : Np.x3 torso = dx / 2) by (unfold torso, dx; simpl; lra).
  assert (Hty : Np.y3 torso = dy / 2) by (unfold torso, dy; simpl; lra).
  rewrite Htx, Hty. clearbody dx dy. clear Htx Hty torso m.
  split.
  - intros Hnz.
    set (f0 := Np.V3 (- (dy / 2)) (dx / 2) 0).
    assert (Hf0 : f0 <> zero3).
    { unfold f0, zero3. intros H. injection H as H1 H2.
      destruct Hnz as [Hnz | Hnz]; apply Hnz; lra. }
    pose proof (norm_pos f0 Hf0) as Hn.
    apply rotation_matrix_from_vectors_proper.
    rewrite (normalize_vector_nonzero f0 Hf0).
    unfold f0, Np.div3, Np.cross, zero3. cbn [Np.x3 Np.y3 Np.z3].
    intros H. injection H as H1 H2 _.
    assert (Hi : 0 < / Np.norm f0) by now apply Rinv_0_lt_compat.
    fold f0 in H1, H2. unfold Rdiv in H1, H2.
    assert (Hdx : dx * / Np.norm f0 = 0) by lra.
    assert (Hdy : dy * / Np.norm f0 = 0) by lra.
    apply Rmult_integral in Hdx, Hdy.
    destruct Hnz as [Hnz | Hnz]; [destruct Hdx | destruct Hdy]; lra.
  - intros -> ->.
    replace (Np.V3 (- (0 / 2)) (0 / 2) 0) with zero3
      by (unfold zero3; f_equal; lra).
    rewrite normalize_vector_zero, rotation_matrix_from_zero_forward.
    split; [reflexivity |].
    unfold zeros3, zero3, Np.det, Np.dot, Np.cross. simpl. ring.
Qed.

Lemma chest_rotation_unless_edge_on_witness :
  Np.proper_rotation
    (MathUtils.calculate_chest_rotation (Np.V3 0.4 0.3 0) (Np.V3 0.6 0.3 0)
       (Np.V3 0.45 0.7 0) (Np.V3 0.55 0.7 0)).
Proof.
  apply (proj1 (chest_rotation_unless_edge_on (Np.V3 0.4 0.3 0) (Np.V3 0.6 0.3 0)
                  (Np.V3 0.45 0.7 0) (Np.V3 0.55 0.7 0))).
  left. simpl. lra.
Defined.

(** A tracker without stored rotation that sees both shoulders and both
    hips returns and stores [calculate_chest_rotation] of them as it is:
    the zero matrix for a torso seen exactly edge-on. *)
Theorem first_tracked_rotation_is_uncorrected
    (svd : Np.mat3 -> Np.mat3 * Np.vec3 * Np.mat3)
    (lms : ChestTracker.Landmarks) (s : ChestTracker.t)
    (ls rs lh rh : Np.vec3)
    (Hls : ChestTracker.extract_landmark_3d lms ChestTracker.LEFT_SHOULDER = Some ls)
    (Hrs : ChestTracker.extract_landmark_3d lms ChestTracker.RIGHT_SHOULDER = Some rs)
    (Hlh : ChestTracker.extract_landmark_3d lms ChestTracker.LEFT_HIP = Some lh)
    (Hrh : ChestTracker.extract_landmark_3d lms ChestTracker.RIGHT_HIP = Some rh)
    (Hfresh : ChestTracker.last_rotation s = None) :
  let rotation := snd (fst (ChestTracker.track_chest svd lms s)) in
  rotation = Some (MathUtils.calculate_chest_rotation ls rs lh rh) /\
  ChestTracker.last_rotation (snd (ChestTracker.track_chest svd lms s))
  = rotation /\
  (Np.x3 rs - Np.x3 ls + (Np.x3 rh - Np.x3 lh) = 0 ->
   Np.y3 rs - Np.y3 ls + (Np.y3 rh - Np.y3 lh) = 0 ->
   rotation = Some zeros3 /\
   exists position,
     fst (ChestTracker.get_transform_matrix svd lms s) = Some
       (MathUtils.create_transform_matrix position zeros3 Config.HEART_SCALE)).
Proof.
  cbv zeta. unfold ChestTracker.get_transform_matrix, ChestTracker.track_chest.
  rewrite Hls, Hrs, Hlh, Hrh, Hfresh.
  cbn [fst snd ChestTracker.last_rotation].
  split; [reflexivity |]. split; [reflexivity |].
  intros Hx Hy.
  rewrite (chest_rotation_edge_on ls rs lh rh Hx Hy).
  split; [reflexivity |]. eexists. reflexivity.
Qed.

Lemma first_tracked_rotation_is_uncorrected_witness :
  snd (fst (ChestTracker.track_chest svd_of_identity torso_pose
              (ChestTracker.init 0.7)))
  = Some (MathUtils.calculate_chest_rotation
            (Np.V3 0.4 0.3 (-0.1)) (Np.V3 0.6 0.3 (-0.1))
            (Np.V3 0.45 0.7 0) (Np.V3 0.55 0.7 0)).
Proof.
  refine (proj1 (first_tracked_rotation_is_uncorrected svd_of_identity
                   torso_pose (ChestTracker.init 0.7)
                   (Np.V3 0.4 0.3 (-0.1)) (Np.V3 0.6 0.3 (-0.1))
                   (Np.V3 0.45 0.7 0) (Np.V3 0.55 0.7 0) _ _ _ _ eq_refl)).
  - apply (extract_landmark_3d_visible torso_pose ChestTracker.LEFT_SHOULDER
             _ eq_refl). simpl. lra.
  - apply (extract_landmark_3d_visible torso_pose ChestTracker.RIGHT_SHOULDER
             _ eq_refl). simpl. lra.
  - apply (extract_landmark_3d_visible torso_pose ChestTracker.LEFT_HIP
             _ eq_refl). simpl. lra.
  - apply (extract_landmark_3d_visible torso_pose ChestTracker.RIGHT_HIP
             _ eq_refl). simpl. lra.
Defined.

(** ** [math_utils.py]: the 4x4 matrices *)

(** The matrix [create_transform_matrix] builds, applied to a homogeneous
    point, rotates it, scales it and then translates it; its last row is
    (0, 0, 0, 1). *)
Theorem transform_matrix_acts_on_points
    (position : Np.vec3) (rotation : Np.mat3) (scale : R) (v : Np.vec3) :
  let m := MathUtils.create_transform_matrix position rotation scale in
  Np.matvec4 m (Np.point4 v)
  = Np.point4 (Np.add3 (Np.scale3 scale (Np.matvec3 rotation v)) position) /\
  Np.m4r3 m = Np.V4 0 0 0 1 /\
  Np.matvec4 m (Np.point4 zero3) = Np.point4 position.
Proof.
  destruct position as [px py pz], v as [vx vy vz].
  destruct rotation as [[a b c] [d e f] [g h i]].
  unfold MathUtils.create_transform_matrix, Np.matvec4, Np.matvec3, Np.point4,
    Np.set_column3, Np.set_block33, Np.mscale, Np.scale3, Np.add3, Np.dot4,
    Np.dot, Np.eye4, zero3.
  cbn. repeat split; f_equal; ring.
Qed.

(** The view matrix of [look_at_matrix] sends the eye to the origin, and
    does not change when eye, target and the point looked at are all moved
    by the same vector. *)
Theorem look_at_centers_the_eye (eye target up p d : Np.vec3) :
  Np.matvec4 (MathUtils.look_at_matrix eye target up) (Np.point4 eye)
  = Np.V4 0 0 0 1 /\
  Np.matvec4 (MathUtils.look_at_matrix (Np.add3 eye d) (Np.add3 target d) up)
    (Np.point4 (Np.add3 p d))
  = Np.matvec4 (MathUtils.look_at_matrix eye target up) (Np.point4 p).
Proof.
  unfold MathUtils.look_at_matrix.
  replace (Np.sub3 (Np.add3 target d) (Np.add3 eye d)) with (Np.sub3 target eye)
    by (destruct target, eye, d; unfold Np.sub3, Np.add3; simpl; f_equal; ring).
  set (f := MathUtils.normalize_vector (Np.sub3 target eye)).
  set (r := MathUtils.normalize_vector (Np.cross f up)).
  set (u := MathUtils.normalize_vector (Np.cross r f)).
  destruct f as [fx fy fz], r as [rx ry rz], u as [ux uy uz].
  destruct eye as [ex ey ez], p as [px py pz], d as [dx dy dz].
  unfold Np.matvec4, Np.point4, Np.dot4, Np.dot, Np.neg3, Np.add3. cbn.
  split; f_equal; ring.
Qed.

Lemma cross_div3_l (a b : Np.vec3) (k : R) :
  Np.cross (Np.div3 a k) b = Np.div3 (Np.cross a b) k.
Proof.
  destruct a, b. unfold Np.cross, Np.div3, Rdiv. simpl. f_equal; ring.
Qed.

Lemma dot_cross_r (a b : Np.vec3) : Np.dot (Np.cross a b) b = 0.
Proof. destruct a, b. unfold Np.dot, Np.cross. simpl. ring. Qed.

Lemma dot_scale3_r (a b : Np.vec3) (k : R) :
  Np.dot a (Np.scale3 k b) = k * Np.dot a b.
Proof. destruct a, b. unfold Np.dot, Np.scale3. simpl. ring. Qed.

Lemma transpose_involutive (a : Np.mat3) : Np.transpose (Np.transpose a) = a.
Proof. destruct a as [[? ? ?] [? ? ?] [? ? ?]]. reflexivity. Qed.

Lemma view_row_on_point (a eye target : Np.vec3) :
  Np.dot4 (Np.V4 (Np.x3 a) (Np.y3 a) (Np.z3 a) (- Np.dot a eye))
    (Np.point4 target)
  = Np.dot a (Np.sub3 target eye).
Proof.
  destruct a, eye, target. unfold Np.dot4, Np.point4, Np.dot, Np.sub3. simpl.
  ring.
Qed.

(** When the viewing direction [target - eye] is not parallel to [up], the
    rotation block of the view matrix has orthonormal rows and determinant
    1, and the target lands on the negative z axis, at its distance from the
    eye. *)
Theorem look_at_faces_the_target
    (eye target up : Np.vec3)
    (Hcross : Np.cross (Np.sub3 target eye) up <> zero3) :
  let view := MathUtils.look_at_matrix eye target up in
  let block := Np.block33 view in
  Np.matmul block (Np.transpose block) = Np.eye3 /\
  Np.det block = 1 /\
  Np.matvec4 view (Np.point4 target)
  = Np.V4 0 0 (- Np.norm (Np.sub3 target eye)) 1.
Proof.
  intros view block. unfold block, view, MathUtils.look_at_matrix.
  set (v := Np.sub3 target eye) in *.
  assert (Hv : v <> zero3).
  { intros H. apply Hcross. rewrite H. apply cross_zero_l. }
  pose proof (norm_pos v Hv) as Hn.
  set (f := MathUtils.normalize_vector v).
  assert (Hff : Np.dot f f = 1) by now apply normalize_vector_is_unit.
  assert (Hvf : v = Np.scale3 (Np.norm v) f).
  { unfold f. rewrite normalize_vector_nonzero by exact Hv.
    destruct v. unfold Np.scale3, Np.div3. cbn [Np.x3 Np.y3 Np.z3].
    f_equal; field; lra. }
  assert (Hc : Np.cross f up <> zero3).
  { unfold f. rewrite normalize_vector_nonzero by exact Hv.
    rewrite cross_div3_l. apply div3_nonzero; [lra | exact Hcross]. }
  set (r := MathUtils.normalize_vector (Np.cross f up)).
  assert (Hrr : Np.dot r r = 1) by now apply normalize_vector_is_unit.
  assert (Hrf : Np.dot r f = 0).
  { unfold r. rewrite (normalize_vector_nonzero _ Hc).
    rewrite dot_div3_l, dot_cross_l. unfold Rdiv. ring. }
  assert (Hu : Np.dot (Np.cross r f) (Np.cross r f) = 1).
  { rewrite lagrange_identity, Hrr, Hff, Hrf. lra. }
  rewrite (normalize_vector_unit _ Hu).
  set (u := Np.cross r f).
  pose proof (frame_is_proper_rotation r f Hrr Hff Hrf) as [Horth Hdet].
  fold u in Horth, Hdet.
  set (m := Np.M3 (Np.V3 (Np.x3 r) (Np.x3 u) (- Np.x3 f))
                  (Np.V3 (Np.y3 r) (Np.y3 u) (- Np.y3 f))
                  (Np.V3 (Np.z3 r) (Np.z3 u) (- Np.z3 f))) in *.
  assert (Hblock : Np.block33
            (Np.M4 (Np.V4 (Np.x3 r) (Np.y3 r) (Np.z3 r) (- Np.dot r eye))
                   (Np.V4 (Np.x3 u) (Np.y3 u) (Np.z3 u) (- Np.dot u eye))
                   (Np.V4 (- Np.x3 f) (- Np.y3 f) (- Np.z3 f)
                          (- Np.dot (Np.neg3 f) eye))
                   (Np.V4 0 0 0 1))
          = Np.transpose m) by reflexivity.
  rewrite Hblock, transpose_involutive.
  split; [exact Horth |]. split; [now rewrite det_transpose |].
  unfold Np.matvec4. cbn [Np.m4r0 Np.m4r1 Np.m4r2 Np.m4r3].
  rewrite (view_row_on_point r eye target), (view_row_on_point u eye target).
  change (Np.V4 (- Np.x3 f) (- Np.y3 f) (- Np.z3 f) (- Np.dot (Np.neg3 f) eye))
    with (Np.V4 (Np.x3 (Np.neg3 f)) (Np.y3 (Np.neg3 f)) (Np.z3 (Np.neg3 f))
                (- Np.dot (Np.neg3 f) eye)).
  rewrite (view_row_on_point (Np.neg3 f) eye target).
  fold v. rewrite Hvf, !dot_scale3_r, Hrf.
  unfold u. rewrite dot_cross_r.
  assert (Hnf : Np.dot (Np.neg3 f) f = -1).
  { destruct f as [fx fy fz]. unfold Np.dot, Np.neg3 in *.
    cbn [Np.x3 Np.y3 Np.z3] in *. lra. }
  rewrite Hnf. rewrite <- Hvf.
  unfold Np.dot4, Np.point4. cbn [Np.x4 Np.y4 Np.z4 Np.w4].
  f_equal; ring.
Qed.

Lemma look_at_faces_the_target_witness :
  Np.matvec4
    (MathUtils.look_at_matrix (Np.V3 0 0 0) (Np.V3 0 0 (-1)) (Np.V3 0 1 0))
    (Np.point4 (Np.V3 0 0 (-1)))
  = Np.V4 0 0 (- Np.norm (Np.sub3 (Np.V3 0 0 (-1)) (Np.V3 0 0 0))) 1.
Proof.
  refine (proj2 (proj2 (look_at_faces_the_target (Np.V3 0 0 0) (Np.V3 0 0 (-1))
                          (Np.V3 0 1 0) _))).
  unfold Np.cross, Np.sub3, zero3. simpl. intros H. injection H as H _ _. lra.
Defined.

Lemma py_eqb_true (a b : R) : a = b -> Py.eqb a b = true.
Proof. intros ->. unfold Py.eqb. now destruct (Req_dec_T b b). Qed.

(** [perspective_projection_matrix] raises exactly when [near = far].
    Otherwise, multiplying a row point [(x, y, z, 1)] by its matrix gives a
    fourth coordinate [-z]; a point on the near plane ([z = -near]) gets a
    third coordinate equal to minus the fourth (depth -1 after division),
    one on the far plane ([z = -far]) a third equal to the fourth (depth
    +1). *)
Theorem perspective_maps_near_and_far (fov aspect near far x y : R) :
  (near = far ->
   MathUtils.perspective_projection_matrix fov aspect near far
   = MathUtils.RaisesZeroDivisionError) /\
  (near <> far ->
   exists P,
     MathUtils.perspective_projection_matrix fov aspect near far
     = MathUtils.Ok P /\
     (forall z, Np.w4 (Np.vecmat4 (Np.V4 x y z 1) P) = - z) /\
     Np.z4 (Np.vecmat4 (Np.V4 x y (- near) 1) P)
     = - Np.w4 (Np.vecmat4 (Np.V4 x y (- near) 1) P) /\
     Np.z4 (Np.vecmat4 (Np.V4 x y (- far) 1) P)
     = Np.w4 (Np.vecmat4 (Np.V4 x y (- far) 1) P)).
Proof.
  unfold MathUtils.perspective_projection_matrix. split.
  - intros ->. rewrite py_eqb_true by lra. reflexivity.
  - intros Hnf. rewrite py_eqb_false by lra.
    eexists. split; [reflexivity |].
    unfold Np.vecmat4. cbn [Np.x4 Np.y4 Np.z4 Np.w4 Np.m4r0 Np.m4r1 Np.m4r2 Np.m4r3].
    replace 2.0 with 2 by lra. replace (-1.0) with (-1) by lra.
    split; [intros z; lra |].
    split; field; lra.
Qed.

(** The renderer's projection setup guards the aspect ratio: with a height
    of 0 or less it uses aspect 1.0 instead of dividing, and with its
    default planes (0.1 and 10.0) it never raises, whatever the viewport. *)
Theorem setup_projection_never_raises (width height : Z) (fov : R) :
  (exists P, HeartRenderer.setup_projection width height fov 0.1 10.0
             = MathUtils.Ok P) /\
  ((height <= 0)%Z ->
   HeartRenderer.setup_projection width height fov 0.1 10.0
   = MathUtils.perspective_projection_matrix fov 1.0 0.1 10.0) /\
  ((0 < height)%Z ->
   HeartRenderer.setup_projection width height fov 0.1 10.0
   = MathUtils.perspective_projection_matrix fov (IZR width / IZR height)
       0.1 10.0).
Proof.
  unfold HeartRenderer.setup_projection. split; [| split].
  - unfold MathUtils.perspective_projection_matrix.
    rewrite py_eqb_false by lra. eexists. reflexivity.
  - intros H. destruct (height >? 0)%Z eqn:E; [| reflexivity].
    apply Z.gtb_gt in E. lia.
  - intros H. now rewrite (proj2 (Z.gtb_gt height 0)) by lia.
Qed.
